(** * exFAT directory entry-set parser (tsk/fs/exaftfs_dent.c)

    A shallow embedding of the name-assembly state machine of The Sleuth
    Kit's exFAT directory parser, and the properties of it that the
    specification states.

    Integers of the C code are [Z] with the wrap-around of their C type
    written out; the 32 bytes of a directory entry and the bytes of a name
    buffer are lists of [Z]; the accumulator [EXFATFS_FS_NAME_INFO] is a
    record threaded through the handlers; [assert] is an effect of its own
    (it aborts the program unless the build defines [NDEBUG]). *)

From Stdlib Require Import ZArith List Bool Lia.
Import ListNotations.
Local Open Scope Z_scope.

(** ** Constants and layouts of the headers

    [tsk_exfatfs.h], [tsk_fatfs.h] and [tsk_fs.h] are not part of the
    sources at hand: the values of the type tags, the capacities and the
    offsets of the fields inside the overlay structs are parameters of the
    development. *)

Record tsk_exfatfs_h : Type := {
  EXFATFS_DIR_ENTRY_TYPE_NONE : Z;
  EXFATFS_DIR_ENTRY_TYPE_VOLUME_LABEL : Z;
  EXFATFS_DIR_ENTRY_TYPE_VOLUME_LABEL_EMPTY : Z;
  EXFATFS_DIR_ENTRY_TYPE_VOLUME_GUID : Z;
  EXFATFS_DIR_ENTRY_TYPE_ALLOC_BITMAP : Z;
  EXFATFS_DIR_ENTRY_TYPE_UPCASE_TABLE : Z;
  EXFATFS_DIR_ENTRY_TYPE_TEX_FAT : Z;
  EXFATFS_DIR_ENTRY_TYPE_ACT : Z;
  EXFATFS_DIR_ENTRY_TYPE_FILE : Z;
  EXFATFS_DIR_ENTRY_TYPE_DELETED_FILE : Z;
  EXFATFS_DIR_ENTRY_TYPE_FILE_STREAM : Z;
  EXFATFS_DIR_ENTRY_TYPE_DELETED_FILE_STREAM : Z;
  EXFATFS_DIR_ENTRY_TYPE_FILE_NAME : Z;
  EXFATFS_DIR_ENTRY_TYPE_DELETED_FILE_NAME : Z;
  EXFATFS_MAX_NAME_LEN_UTF8 : Z;
  EXFATFS_MAX_FILE_NAME_SEGMENT_LENGTH : Z;
  FATFS_ATTR_DIRECTORY : Z;
  EXFATFS_VOLUME_GUID_VIRT_FILENAME : list Z;
  EXFATFS_ALLOC_BITMAP_VIRT_FILENAME : list Z;
  EXFATFS_UPCASE_TABLE_VIRT_FILENAME : list Z;
  EXFATFS_TEX_FAT_VIRT_FILENAME : list Z;
  EXFATFS_ACT_VIRT_FILENAME : list Z;
  (* EXFATFS_FILE_DIR_ENTRY *)
  OFFSET_secondary_entries_count : Z;
  OFFSET_check_sum : Z;
  OFFSET_attrs : Z;
  (* EXFATFS_FILE_STREAM_DIR_ENTRY *)
  OFFSET_file_name_length : Z;
  (* EXFATFS_FILE_NAME_DIR_ENTRY *)
  OFFSET_utf16_name_chars : Z;
  (* EXFATFS_VOL_LABEL_DIR_ENTRY *)
  OFFSET_utf16_char_count : Z;
  OFFSET_volume_label : Z
}.

(** The fourteen enumerators of [EXFATFS_DIR_ENTRY_TYPE_ENUM]. *)
Definition dir_entry_types (h : tsk_exfatfs_h) : list Z :=
  [ EXFATFS_DIR_ENTRY_TYPE_NONE h;
    EXFATFS_DIR_ENTRY_TYPE_VOLUME_LABEL h;
    EXFATFS_DIR_ENTRY_TYPE_VOLUME_LABEL_EMPTY h;
    EXFATFS_DIR_ENTRY_TYPE_VOLUME_GUID h;
    EXFATFS_DIR_ENTRY_TYPE_ALLOC_BITMAP h;
    EXFATFS_DIR_ENTRY_TYPE_UPCASE_TABLE h;
    EXFATFS_DIR_ENTRY_TYPE_TEX_FAT h;
    EXFATFS_DIR_ENTRY_TYPE_ACT h;
    EXFATFS_DIR_ENTRY_TYPE_FILE h;
    EXFATFS_DIR_ENTRY_TYPE_DELETED_FILE h;
    EXFATFS_DIR_ENTRY_TYPE_FILE_STREAM h;
    EXFATFS_DIR_ENTRY_TYPE_DELETED_FILE_STREAM h;
    EXFATFS_DIR_ENTRY_TYPE_FILE_NAME h;
    EXFATFS_DIR_ENTRY_TYPE_DELETED_FILE_NAME h ].

Definition is_byte (z : Z) : Prop := 0 <= z < 256.

(** The enumerators are the case labels of one [switch], so they are
    pairwise different, and each is the value of a type byte. *)
Definition tags_ok (h : tsk_exfatfs_h) : Prop :=
  NoDup (dir_entry_types h) /\ Forall is_byte (dir_entry_types h).

(** The on-disk values of the exFAT format, used to run the model. *)
Definition exfat_h : tsk_exfatfs_h := {|
  EXFATFS_DIR_ENTRY_TYPE_NONE := 0xFF;
  EXFATFS_DIR_ENTRY_TYPE_VOLUME_LABEL := 0x83;
  EXFATFS_DIR_ENTRY_TYPE_VOLUME_LABEL_EMPTY := 0x03;
  EXFATFS_DIR_ENTRY_TYPE_VOLUME_GUID := 0xA0;
  EXFATFS_DIR_ENTRY_TYPE_ALLOC_BITMAP := 0x81;
  EXFATFS_DIR_ENTRY_TYPE_UPCASE_TABLE := 0x82;
  EXFATFS_DIR_ENTRY_TYPE_TEX_FAT := 0xA1;
  EXFATFS_DIR_ENTRY_TYPE_ACT := 0xE2;
  EXFATFS_DIR_ENTRY_TYPE_FILE := 0x85;
  EXFATFS_DIR_ENTRY_TYPE_DELETED_FILE := 0x05;
  EXFATFS_DIR_ENTRY_TYPE_FILE_STREAM := 0xC0;
  EXFATFS_DIR_ENTRY_TYPE_DELETED_FILE_STREAM := 0x40;
  EXFATFS_DIR_ENTRY_TYPE_FILE_NAME := 0xC1;
  EXFATFS_DIR_ENTRY_TYPE_DELETED_FILE_NAME := 0x41;
  EXFATFS_MAX_NAME_LEN_UTF8 := 1024;
  EXFATFS_MAX_FILE_NAME_SEGMENT_LENGTH := 15;
  FATFS_ATTR_DIRECTORY := 0x10;
  (* "$VOLUME_GUID", "$ALLOC_BITMAP", "$UPCASE_TABLE", "$TEX_FAT",
     "$ACCESS_CONTROL_TABLE" *)
  EXFATFS_VOLUME_GUID_VIRT_FILENAME :=
    [36; 86; 79; 76; 85; 77; 69; 95; 71; 85; 73; 68];
  EXFATFS_ALLOC_BITMAP_VIRT_FILENAME :=
    [36; 65; 76; 76; 79; 67; 95; 66; 73; 84; 77; 65; 80];
  EXFATFS_UPCASE_TABLE_VIRT_FILENAME :=
    [36; 85; 80; 67; 65; 83; 69; 95; 84; 65; 66; 76; 69];
  EXFATFS_TEX_FAT_VIRT_FILENAME := [36; 84; 69; 88; 95; 70; 65; 84];
  EXFATFS_ACT_VIRT_FILENAME :=
    [36; 65; 67; 67; 69; 83; 83; 95; 67; 79; 78; 84; 82; 79; 76; 95;
     84; 65; 66; 76; 69];
  OFFSET_secondary_entries_count := 1;
  OFFSET_check_sum := 2;
  OFFSET_attrs := 4;
  OFFSET_file_name_length := 3;
  OFFSET_utf16_name_chars := 2;
  OFFSET_utf16_char_count := 1;
  OFFSET_volume_label := 2
|}.

(** ** Data of the parser *)

(** [FATFS_DENTRY]: the raw bytes [data[32]] of one directory entry. *)
Record FATFS_DENTRY : Type := { data : list Z }.

(** [sizeof(a_dentry->data)] *)
Definition sizeof_data : Z := 32.

(** [a_dentry->data[i]] *)
Definition data_at (d : FATFS_DENTRY) (i : Z) : Z :=
  nth (Z.to_nat i) (data d) 0.

Definition dentry_ok (d : FATFS_DENTRY) : Prop :=
  length (data d) = 32%nat /\ Forall is_byte (data d).

(** Every overlay struct starts with [uint8_t entry_type]: the handlers
    read [dentry->entry_type] where the check sum and the special-file
    handler read [a_dentry->data[0]]. *)
Definition entry_type (d : FATFS_DENTRY) : Z := data_at d 0.

Inductive TSK_FS_NAME_TYPE_ENUM : Type :=
| TSK_FS_NAME_TYPE_UNDEF
| TSK_FS_NAME_TYPE_REG
| TSK_FS_NAME_TYPE_DIR.

Inductive TSK_FS_NAME_FLAG_ENUM : Type :=
| TSK_FS_NAME_FLAG_ALLOC
| TSK_FS_NAME_FLAG_UNALLOC.

Inductive TSK_RETVAL_ENUM : Type := TSK_OK | TSK_ERR | TSK_COR.

Inductive TSK_ENDIAN_ENUM : Type := TSK_LIT_ENDIAN | TSK_BIG_ENDIAN.

Inductive TSKConversionResult : Type :=
| TSKconversionOK
| TSKsourceExhausted
| TSKtargetExhausted
| TSKsourceIllegal.

(** The error number of the last error ([tsk_error_set_errno]): the parser
    sets [TSK_ERR_FS_ARG], an allocation that fails [TSK_ERR_AUX_MALLOC]. *)
Inductive TSK_ERRNO : Type := TSK_ERR_FS_ARG | TSK_ERR_AUX_MALLOC.

(** [TSK_FS_NAME]: [name] is the C buffer, a string ends at its first 0. *)
Record TSK_FS_NAME : Type := {
  name : list Z;
  name_size : Z;
  meta_addr : Z;
  type : TSK_FS_NAME_TYPE_ENUM;
  flags : TSK_FS_NAME_FLAG_ENUM
}.

(** [TSK_FS_DIR], the sink: the names added to it, oldest first. *)
Record TSK_FS_DIR : Type := { names : list TSK_FS_NAME }.

Record TSK_FS_INFO : Type := {
  endian : TSK_ENDIAN_ENUM;
  first_inum : Z;
  last_inum : Z
}.

Record FATFS_INFO : Type := {
  fs_info : TSK_FS_INFO;
  ssize : Z;
  dentry_cnt_se : Z
}.

Record EXFATFS_FS_NAME_INFO : Type := {
  fatfs : FATFS_INFO;
  sector_is_allocated : Z;
  last_dentry_type : Z;
  expected_secondary_entry_count : Z;
  actual_secondary_entry_count : Z;
  expected_check_sum : Z;
  actual_check_sum : Z;
  expected_name_length : Z;
  actual_name_length : Z;
  fs_name : TSK_FS_NAME;
  fs_dir : TSK_FS_DIR
}.

(** Assignments to the fields. *)

Definition set_name (v : list Z) (n : TSK_FS_NAME) : TSK_FS_NAME :=
  {| name := v; name_size := name_size n; meta_addr := meta_addr n;
     type := type n; flags := flags n |}.

Definition set_meta_addr (v : Z) (n : TSK_FS_NAME) : TSK_FS_NAME :=
  {| name := name n; name_size := name_size n; meta_addr := v;
     type := type n; flags := flags n |}.

Definition set_type (v : TSK_FS_NAME_TYPE_ENUM) (n : TSK_FS_NAME)
  : TSK_FS_NAME :=
  {| name := name n; name_size := name_size n; meta_addr := meta_addr n;
     type := v; flags := flags n |}.

Definition set_flags (v : TSK_FS_NAME_FLAG_ENUM) (n : TSK_FS_NAME)
  : TSK_FS_NAME :=
  {| name := name n; name_size := name_size n; meta_addr := meta_addr n;
     type := type n; flags := v |}.

Definition set_sector_is_allocated (v : Z) (i : EXFATFS_FS_NAME_INFO) :=
  {| fatfs := fatfs i; sector_is_allocated := v;
     last_dentry_type := last_dentry_type i;
     expected_secondary_entry_count := expected_secondary_entry_count i;
     actual_secondary_entry_count := actual_secondary_entry_count i;
     expected_check_sum := expected_check_sum i;
     actual_check_sum := actual_check_sum i;
     expected_name_length := expected_name_length i;
     actual_name_length := actual_name_length i;
     fs_name := fs_name i; fs_dir := fs_dir i |}.

Definition set_last_dentry_type (v : Z) (i : EXFATFS_FS_NAME_INFO) :=
  {| fatfs := fatfs i; sector_is_allocated := sector_is_allocated i;
     last_dentry_type := v;
     expected_secondary_entry_count := expected_secondary_entry_count i;
     actual_secondary_entry_count := actual_secondary_entry_count i;
     expected_check_sum := expected_check_sum i;
     actual_check_sum := actual_check_sum i;
     expected_name_length := expected_name_length i;
     actual_name_length := actual_name_length i;
     fs_name := fs_name i; fs_dir := fs_dir i |}.

Definition set_expected_secondary_entry_count (v : Z)
  (i : EXFATFS_FS_NAME_INFO) :=
  {| fatfs := fatfs i; sector_is_allocated := sector_is_allocated i;
     last_dentry_type := last_dentry_type i;
     expected_secondary_entry_count := v;
     actual_secondary_entry_count := actual_secondary_entry_count i;
     expected_check_sum := expected_check_sum i;
     actual_check_sum := actual_check_sum i;
     expected_name_length := expected_name_length i;
     actual_name_length := actual_name_length i;
     fs_name := fs_name i; fs_dir := fs_dir i |}.

Definition set_actual_secondary_entry_count (v : Z)
  (i : EXFATFS_FS_NAME_INFO) :=
  {| fatfs := fatfs i; sector_is_allocated := sector_is_allocated i;
     last_dentry_type := last_dentry_type i;
     expected_secondary_entry_count := expected_secondary_entry_count i;
     actual_secondary_entry_count := v;
     expected_check_sum := expected_check_sum i;
     actual_check_sum := actual_check_sum i;
     expected_name_length := expected_name_length i;
     actual_name_length := actual_name_length i;
     fs_name := fs_name i; fs_dir := fs_dir i |}.

Definition set_expected_check_sum (v : Z) (i : EXFATFS_FS_NAME_INFO) :=
  {| fatfs := fatfs i; sector_is_allocated := sector_is_allocated i;
     last_dentry_type := last_dentry_type i;
     expected_secondary_entry_count := expected_secondary_entry_count i;
     actual_secondary_entry_count := actual_secondary_entry_count i;
     expected_check_sum := v;
     actual_check_sum := actual_check_sum i;
     expected_name_length := expected_name_length i;
     actual_name_length := actual_name_length i;
     fs_name := fs_name i; fs_dir := fs_dir i |}.

Definition set_actual_check_sum (v : Z) (i : EXFATFS_FS_NAME_INFO) :=
  {| fatfs := fatfs i; sector_is_allocated := sector_is_allocated i;
     last_dentry_type := last_dentry_type i;
     expected_secondary_entry_count := expected_secondary_entry_count i;
     actual_secondary_entry_count := actual_secondary_entry_count i;
     expected_check_sum := expected_check_sum i;
     actual_check_sum := v;
     expected_name_length := expected_name_length i;
     actual_name_length := actual_name_length i;
     fs_name := fs_name i; fs_dir := fs_dir i |}.

Definition set_expected_name_length (v : Z) (i : EXFATFS_FS_NAME_INFO) :=
  {| fatfs := fatfs i; sector_is_allocated := sector_is_allocated i;
     last_dentry_type := last_dentry_type i;
     expected_secondary_entry_count := expected_secondary_entry_count i;
     actual_secondary_entry_count := actual_secondary_entry_count i;
     expected_check_sum := expected_check_sum i;
     actual_check_sum := actual_check_sum i;
     expected_name_length := v;
     actual_name_length := actual_name_length i;
     fs_name := fs_name i; fs_dir := fs_dir i |}.

Definition set_actual_name_length (v : Z) (i : EXFATFS_FS_NAME_INFO) :=
  {| fatfs := fatfs i; sector_is_allocated := sector_is_allocated i;
     last_dentry_type := last_dentry_type i;
     expected_secondary_entry_count := expected_secondary_entry_count i;
     actual_secondary_entry_count := actual_secondary_entry_count i;
     expected_check_sum := expected_check_sum i;
     actual_check_sum := actual_check_sum i;
     expected_name_length := expected_name_length i;
     actual_name_length := v;
     fs_name := fs_name i; fs_dir := fs_dir i |}.

Definition set_fs_name (v : TSK_FS_NAME) (i : EXFATFS_FS_NAME_INFO) :=
  {| fatfs := fatfs i; sector_is_allocated := sector_is_allocated i;
     last_dentry_type := last_dentry_type i;
     expected_secondary_entry_count := expected_secondary_entry_count i;
     actual_secondary_entry_count := actual_secondary_entry_count i;
     expected_check_sum := expected_check_sum i;
     actual_check_sum := actual_check_sum i;
     expected_name_length := expected_name_length i;
     actual_name_length := actual_name_length i;
     fs_name := v; fs_dir := fs_dir i |}.

Definition set_fs_dir (v : TSK_FS_DIR) (i : EXFATFS_FS_NAME_INFO) :=
  {| fatfs := fatfs i; sector_is_allocated := sector_is_allocated i;
     last_dentry_type := last_dentry_type i;
     expected_secondary_entry_count := expected_secondary_entry_count i;
     actual_secondary_entry_count := actual_secondary_entry_count i;
     expected_check_sum := expected_check_sum i;
     actual_check_sum := actual_check_sum i;
     expected_name_length := expected_name_length i;
     actual_name_length := actual_name_length i;
     fs_name := fs_name i; fs_dir := v |}.

(** ** C integers and C strings *)

Definition uint8 (z : Z) : Z := z mod 2 ^ 8.
Definition uint16 (z : Z) : Z := z mod 2 ^ 16.
Definition uint64 (z : Z) : Z := z mod 2 ^ 64.
(** [size_t] of an LP64 platform. *)
Definition size_t (z : Z) : Z := z mod 2 ^ 64.

(** [buf[i] = v]. Inside the buffer only: C leaves a store outside of it
    undefined, here it changes nothing. *)
Fixpoint store_nat (buf : list Z) (i : nat) (v : Z) : list Z :=
  match buf, i with
  | [], _ => []
  | _ :: t, O => v :: t
  | b :: t, S j => b :: store_nat t j v
  end.

Definition store (buf : list Z) (i : Z) (v : Z) : list Z :=
  if i <? 0 then buf else store_nat buf (Z.to_nat i) v.

(** [strlen]: the number of bytes before the first 0 (of a buffer without
    a 0: its length, where C reads on). *)
Fixpoint strlen_nat (buf : list Z) : nat :=
  match buf with
  | [] => O
  | b :: t => if b =? 0 then O else S (strlen_nat t)
  end.

Definition strlen (buf : list Z) : Z := Z.of_nat (strlen_nat buf).

(** The string held by a buffer. *)
Fixpoint c_string (buf : list Z) : list Z :=
  match buf with
  | [] => []
  | b :: t => if b =? 0 then [] else b :: c_string t
  end.

(** Stores the bytes [src] and a terminating 0 from index [i] on. *)
Fixpoint store_string (buf : list Z) (i : Z) (src : list Z) : list Z :=
  match src with
  | [] => store buf i 0
  | c :: t => store_string (store buf i c) (i + 1) t
  end.

(** [strcpy(dest, src)] and [strcat(dest, src)] for a literal [src]. *)
Definition strcpy (dest src : list Z) : list Z := store_string dest 0 src.
Definition strcat (dest src : list Z) : list Z :=
  store_string dest (strlen dest) src.

(** [tsk_getu16(endian, b)] *)
Definition tsk_getu16 (e : TSK_ENDIAN_ENUM) (b0 b1 : Z) : Z :=
  match e with
  | TSK_LIT_ENDIAN => uint16 (Z.lor b0 (Z.shiftl b1 8))
  | TSK_BIG_ENDIAN => uint16 (Z.lor b1 (Z.shiftl b0 8))
  end.

(** ** Assertions and traps

    [assert(e)] aborts the program when [e] is false, unless the build
    defines [NDEBUG], which removes the assertion. An integer division
    by zero ends the program too, in any build: C leaves it undefined
    and the processor traps. A computation returns ([Ok]), fails an
    assertion ([AssertFail]) or divides by zero ([DivByZero]). *)

Inductive outcome (A : Type) : Type :=
| Ok (a : A)
| AssertFail
| DivByZero.
Arguments Ok {A} a.
Arguments AssertFail {A}.
Arguments DivByZero {A}.

Definition bind {A B : Type} (c : outcome A) (k : A -> outcome B)
  : outcome B :=
  match c with
  | Ok a => k a
  | AssertFail => AssertFail
  | DivByZero => DivByZero
  end.

Notation "x <- c ;; k" := (bind c (fun x => k))
  (at level 61, c at next level, right associativity).
Notation "c ;;; k" := (bind c (fun _ => k))
  (at level 61, right associativity).

Definition assert (NDEBUG : bool) (e : bool) : outcome unit :=
  if NDEBUG then Ok tt else if e then Ok tt else AssertFail.

(** [a / b] on signed integers: the quotient truncated towards zero. *)
Definition c_div (a b : Z) : outcome Z :=
  if b =? 0 then DivByZero else Ok (Z.quot a b).

(** Modelled from the spec: [fatfs_is_inum_in_range] is defined in another
    file of the library; the spec has it test that an inode address is
    within the valid inode range of the file system. *)
Definition fatfs_is_inum_in_range (a_fatfs : FATFS_INFO) (a_inum : Z)
  : bool :=
  (first_inum (fs_info a_fatfs) <=? a_inum)
  && (a_inum <=? last_inum (fs_info a_fatfs)).

(** Modelled from the spec: [tsk_fs_dir_add] is defined in another file of
    the library; the spec has the sink receive one name record for each
    call, in the order of the calls. *)
Definition tsk_fs_dir_add (a_fs_dir : TSK_FS_DIR) (a_fs_name : TSK_FS_NAME)
  : TSK_FS_DIR :=
  {| names := names a_fs_dir ++ [a_fs_name] |}.

(** [" (Volume Label Entry)"] *)
Definition vol_label_tag : list Z :=
  [32; 40; 86; 111; 108; 117; 109; 101; 32; 76; 97; 98; 101; 108; 32;
   69; 110; 116; 114; 121; 41].

(** The indices [0, 1, ..., n-1] of a counting [for] loop. *)
Definition upto (n : Z) : list Z := map Z.of_nat (seq 0 (Z.to_nat n)).

(** How an iteration of a loop of the driver ends: it goes on to the next
    iteration, or the function returns from inside the loop. *)
Inductive loop_exit (S : Type) : Type :=
| Continue (s : S)
| Return (r : TSK_RETVAL_ENUM) (s : S).
Arguments Continue {S} s.
Arguments Return {S} r s.

Fixpoint for_loop {S : Type} (body : S -> Z -> outcome (loop_exit S))
  (s : S) (indices : list Z) : outcome (loop_exit S) :=
  match indices with
  | [] => Ok (Continue s)
  | i :: rest =>
      r <- body s i ;;
      match r with
      | Continue s' => for_loop body s' rest
      | Return rv s' => Ok (Return rv s')
      end
  end.

(** The case groups of the [switch] of the driver. *)
Inductive switch_case : Type :=
| CaseFile
| CaseFileStream
| CaseFileName
| CaseVolLabel
| CaseSpecialFile
| CaseDefault.

(** One call of the entry classifier, as the driver makes it: the sector
    allocation status and the hint it passed, and the type it got. *)
Record classifier_call : Type := {
  call_sector_is_allocated : Z;
  call_hint : bool;
  call_result : Z
}.

(** The local variables of [exfatfs_dent_parse_buf] and what it holds of
    the global state. [classifier_calls] is a history variable, which the
    C function does not have and the model never reads: the calls of
    [exfatfs_is_dentry] so far, oldest first. [fs_name_live] tells whether
    the [TSK_FS_NAME] of the accumulator is allocated and not yet freed. *)
Record parse_state : Type := {
  name_info : EXFATFS_FS_NAME_INFO;
  dentry : Z;
  entries_count : Z;
  invalid_entries_count : Z;
  is_corrupt_dir : bool;
  tsk_errno : option TSK_ERRNO;
  fs_name_live : bool;
  classifier_calls : list classifier_call
}.

Definition set_name_info (v : EXFATFS_FS_NAME_INFO) (s : parse_state) :=
  {| name_info := v; dentry := dentry s; entries_count := entries_count s;
     invalid_entries_count := invalid_entries_count s;
     is_corrupt_dir := is_corrupt_dir s; tsk_errno := tsk_errno s;
     fs_name_live := fs_name_live s;
     classifier_calls := classifier_calls s |}.

Definition set_dentry (v : Z) (s : parse_state) :=
  {| name_info := name_info s; dentry := v;
     entries_count := entries_count s;
     invalid_entries_count := invalid_entries_count s;
     is_corrupt_dir := is_corrupt_dir s; tsk_errno := tsk_errno s;
     fs_name_live := fs_name_live s;
     classifier_calls := classifier_calls s |}.

Definition set_entries_count (v : Z) (s : parse_state) :=
  {| name_info := name_info s; dentry := dentry s; entries_count := v;
     invalid_entries_count := invalid_entries_count s;
     is_corrupt_dir := is_corrupt_dir s; tsk_errno := tsk_errno s;
     fs_name_live := fs_name_live s;
     classifier_calls := classifier_calls s |}.

Definition set_invalid_entries_count (v : Z) (s : parse_state) :=
  {| name_info := name_info s; dentry := dentry s;
     entries_count := entries_count s; invalid_entries_count := v;
     is_corrupt_dir := is_corrupt_dir s; tsk_errno := tsk_errno s;
     fs_name_live := fs_name_live s;
     classifier_calls := classifier_calls s |}.

Definition set_is_corrupt_dir (v : bool) (s : parse_state) :=
  {| name_info := name_info s; dentry := dentry s;
     entries_count := entries_count s;
     invalid_entries_count := invalid_entries_count s;
     is_corrupt_dir := v; tsk_errno := tsk_errno s;
     fs_name_live := fs_name_live s;
     classifier_calls := classifier_calls s |}.

Definition set_tsk_errno (v : option TSK_ERRNO) (s : parse_state) :=
  {| name_info := name_info s; dentry := dentry s;
     entries_count := entries_count s;
     invalid_entries_count := invalid_entries_count s;
     is_corrupt_dir := is_corrupt_dir s; tsk_errno := v;
     fs_name_live := fs_name_live s;
     classifier_calls := classifier_calls s |}.

(** [tsk_fs_name_free(name_info.fs_name)] *)
Definition tsk_fs_name_free (s : parse_state) :=
  {| name_info := name_info s; dentry := dentry s;
     entries_count := entries_count s;
     invalid_entries_count := invalid_entries_count s;
     is_corrupt_dir := is_corrupt_dir s; tsk_errno := tsk_errno s;
     fs_name_live := false;
     classifier_calls := classifier_calls s |}.

Definition record_classifier_call (c : classifier_call) (s : parse_state) :=
  {| name_info := name_info s; dentry := dentry s;
     entries_count := entries_count s;
     invalid_entries_count := invalid_entries_count s;
     is_corrupt_dir := is_corrupt_dir s; tsk_errno := tsk_errno s;
     fs_name_live := fs_name_live s;
     classifier_calls := classifier_calls s ++ [c] |}.

(** What a call of [exfatfs_dent_parse_buf] leaves: the value returned,
    the error number, the directory [a_fs_dir] (if one was passed) and
    whether the accumulator's [TSK_FS_NAME] is still allocated. *)
Record parse_result : Type := {
  retval : TSK_RETVAL_ENUM;
  result_errno : option TSK_ERRNO;
  result_dir : option TSK_FS_DIR;
  result_leak : bool
}.

(** ** The parser *)

Section Parser.

(** The constants of the headers. *)
Variable h : tsk_exfatfs_h.

(** Whether the build defines [NDEBUG]. *)
Variable NDEBUG : bool.

(** The collaborators, defined in other files of the library.
    [fatfs_utf16_inode_str_2_utf8 a_fatfs a_src a_src_len a_dest
    a_dest_len a_inum] gets the bytes of the entry from the address
    [a_src] on and the destination buffer, and gives the result of the
    conversion and the destination buffer as it leaves it. *)
Variable fatfs_utf16_inode_str_2_utf8 :
  FATFS_INFO -> list Z -> Z -> list Z -> Z -> Z ->
  TSKConversionResult * list Z.
Variable exfatfs_is_dentry : FATFS_INFO -> FATFS_DENTRY -> bool -> Z.
Variable fatfs_is_sectalloc : FATFS_INFO -> Z -> Z.
Variable FATFS_SECT_2_INODE : FATFS_INFO -> Z -> Z.
Variable tsk_fs_name_alloc : Z -> Z -> option TSK_FS_NAME.

Local Abbreviation NONE := (EXFATFS_DIR_ENTRY_TYPE_NONE h).
Local Abbreviation VOLUME_LABEL := (EXFATFS_DIR_ENTRY_TYPE_VOLUME_LABEL h).
Local Abbreviation VOLUME_LABEL_EMPTY :=
  (EXFATFS_DIR_ENTRY_TYPE_VOLUME_LABEL_EMPTY h).
Local Abbreviation VOLUME_GUID := (EXFATFS_DIR_ENTRY_TYPE_VOLUME_GUID h).
Local Abbreviation ALLOC_BITMAP := (EXFATFS_DIR_ENTRY_TYPE_ALLOC_BITMAP h).
Local Abbreviation UPCASE_TABLE := (EXFATFS_DIR_ENTRY_TYPE_UPCASE_TABLE h).
Local Abbreviation TEX_FAT := (EXFATFS_DIR_ENTRY_TYPE_TEX_FAT h).
Local Abbreviation ACT := (EXFATFS_DIR_ENTRY_TYPE_ACT h).
Local Abbreviation FILE := (EXFATFS_DIR_ENTRY_TYPE_FILE h).
Local Abbreviation DELETED_FILE := (EXFATFS_DIR_ENTRY_TYPE_DELETED_FILE h).
Local Abbreviation FILE_STREAM := (EXFATFS_DIR_ENTRY_TYPE_FILE_STREAM h).
Local Abbreviation DELETED_FILE_STREAM :=
  (EXFATFS_DIR_ENTRY_TYPE_DELETED_FILE_STREAM h).
Local Abbreviation FILE_NAME := (EXFATFS_DIR_ENTRY_TYPE_FILE_NAME h).
Local Abbreviation DELETED_FILE_NAME :=
  (EXFATFS_DIR_ENTRY_TYPE_DELETED_FILE_NAME h).

(** *** The check sum of an entry set *)

(** The assertion on the type of the entry (lines 74-79). *)
Definition checksum_dentry_type_asserted (dentry_type : Z) : bool :=
  (dentry_type =? FILE) || (dentry_type =? DELETED_FILE)
  || (dentry_type =? FILE_STREAM) || (dentry_type =? DELETED_FILE_STREAM)
  || (dentry_type =? FILE_NAME) || (dentry_type =? DELETED_FILE_NAME).

(** [byte_to_add] of the iteration [index] (lines 92-110). *)
Definition byte_to_add (dentry_type : Z) (a_dentry : FATFS_DENTRY)
  (index : Z) : Z :=
  if index =? 0 then
    if dentry_type =? DELETED_FILE then uint16 FILE
    else if dentry_type =? DELETED_FILE_STREAM then uint16 FILE_STREAM
    else if dentry_type =? DELETED_FILE_NAME then uint16 FILE_NAME
    else uint16 dentry_type
  else uint16 (data_at a_dentry index).

(** The body of the loop over the bytes (lines 82-115), on the check
    sum. The operands of [<<], [|], [>>] and [+] are promoted to [int]
    and the assignment converts the sum to [uint16_t]: the sum is taken
    in [Z] and reduced modulo [2 ^ 16], which is also what a 32-bit [int]
    that wraps around gives for the check sum [0xFFFF]. *)
Definition checksum_loop_body (dentry_type : Z) (a_dentry : FATFS_DENTRY)
  (check_sum : Z) (index : Z) : Z :=
  if ((dentry_type =? FILE) || (dentry_type =? DELETED_FILE))
     && ((index =? 2) || (index =? 3))
  then check_sum
  else
    uint16 (Z.lor (Z.shiftl check_sum 15) (Z.shiftr check_sum 1)
            + byte_to_add dentry_type a_dentry index).

Definition exfatfs_update_file_entry_set_checksum
  (a_name_info : EXFATFS_FS_NAME_INFO) (a_dentry : FATFS_DENTRY)
  : outcome EXFATFS_FS_NAME_INFO :=
  let dentry_type := data_at a_dentry 0 in
  assert NDEBUG (checksum_dentry_type_asserted dentry_type) ;;;
  Ok (set_actual_check_sum
        (fold_left (checksum_loop_body dentry_type a_dentry)
           (upto sizeof_data) (actual_check_sum a_name_info))
        a_name_info).

(** *** Reset and finalize *)

(** The assertion [a_name_info->fs_name->name_size ==
    EXFATFS_MAX_NAME_LEN_UTF8], which every function makes. *)
Definition name_size_asserted (a_name_info : EXFATFS_FS_NAME_INFO)
  : bool :=
  name_size (fs_name a_name_info) =? EXFATFS_MAX_NAME_LEN_UTF8 h.

Definition exfatfs_reset_name_info (a_name_info : EXFATFS_FS_NAME_INFO)
  : outcome EXFATFS_FS_NAME_INFO :=
  assert NDEBUG (name_size_asserted a_name_info) ;;;
  Ok {| fatfs := fatfs a_name_info;
        sector_is_allocated := sector_is_allocated a_name_info;
        last_dentry_type := NONE;
        expected_secondary_entry_count := 0;
        actual_secondary_entry_count := 0;
        expected_check_sum := 0;
        actual_check_sum := 0;
        expected_name_length := 0;
        actual_name_length := 0;
        fs_name :=
          {| name := store (name (fs_name a_name_info)) 0 0;
             name_size := name_size (fs_name a_name_info);
             meta_addr := 0;
             type := TSK_FS_NAME_TYPE_UNDEF;
             flags := TSK_FS_NAME_FLAG_ALLOC |};
        fs_dir := fs_dir a_name_info |}.

Definition exfatfs_add_name_to_dir_and_reset_info
  (a_name_info : EXFATFS_FS_NAME_INFO) : outcome EXFATFS_FS_NAME_INFO :=
  assert NDEBUG (name_size_asserted a_name_info) ;;;
  let a_name_info :=
    if strlen (name (fs_name a_name_info)) >? 0 then
      set_fs_dir (tsk_fs_dir_add (fs_dir a_name_info)
                    (fs_name a_name_info)) a_name_info
    else a_name_info in
  exfatfs_reset_name_info a_name_info.

(** *** The file entry *)

Definition file_dentry_asserted (a_name_info : EXFATFS_FS_NAME_INFO)
  (a_dentry : FATFS_DENTRY) (a_inum : Z) : bool :=
  name_size_asserted a_name_info
  && ((entry_type a_dentry =? FILE)
      || (entry_type a_dentry =? DELETED_FILE))
  && fatfs_is_inum_in_range (fatfs a_name_info) a_inum.

Definition exfats_parse_file_dentry (a_name_info : EXFATFS_FS_NAME_INFO)
  (a_dentry : FATFS_DENTRY) (a_inum : Z) : outcome EXFATFS_FS_NAME_INFO :=
  assert NDEBUG (file_dentry_asserted a_name_info a_dentry a_inum) ;;;
  a_name_info <- exfatfs_add_name_to_dir_and_reset_info a_name_info ;;
  let a_name_info :=
    set_last_dentry_type (entry_type a_dentry) a_name_info in
  let a_name_info :=
    set_expected_secondary_entry_count
      (data_at a_dentry (OFFSET_secondary_entries_count h)) a_name_info in
  let a_name_info :=
    set_expected_check_sum
      (tsk_getu16 (endian (fs_info (fatfs a_name_info)))
         (data_at a_dentry (OFFSET_check_sum h))
         (data_at a_dentry (OFFSET_check_sum h + 1))) a_name_info in
  let a_name_info :=
    if negb (Z.land (data_at a_dentry (OFFSET_attrs h))
               (FATFS_ATTR_DIRECTORY h) =? 0) then
      set_fs_name (set_type TSK_FS_NAME_TYPE_DIR (fs_name a_name_info))
        a_name_info
    else
      set_fs_name (set_type TSK_FS_NAME_TYPE_REG (fs_name a_name_info))
        a_name_info in
  let a_name_info :=
    if negb (sector_is_allocated a_name_info =? 0)
       && (entry_type a_dentry =? FILE) then
      set_fs_name (set_flags TSK_FS_NAME_FLAG_ALLOC (fs_name a_name_info))
        a_name_info
    else
      set_fs_name
        (set_flags TSK_FS_NAME_FLAG_UNALLOC (fs_name a_name_info))
        a_name_info in
  let a_name_info :=
    set_fs_name (set_meta_addr a_inum (fs_name a_name_info))
      a_name_info in
  exfatfs_update_file_entry_set_checksum a_name_info a_dentry.

(** *** The secondary entries *)

(** The end of both handlers of secondary entries (lines 299-303 and
    392-396): [actual_secondary_entry_count] is a [uint8_t]. *)
Definition count_secondary_entry (a_name_info : EXFATFS_FS_NAME_INFO)
  : outcome EXFATFS_FS_NAME_INFO :=
  let a_name_info :=
    set_actual_secondary_entry_count
      (uint8 (actual_secondary_entry_count a_name_info + 1))
      a_name_info in
  if actual_secondary_entry_count a_name_info
     =? expected_secondary_entry_count a_name_info
  then exfatfs_add_name_to_dir_and_reset_info a_name_info
  else Ok a_name_info.

Definition file_stream_dentry_asserted
  (a_name_info : EXFATFS_FS_NAME_INFO) (a_dentry : FATFS_DENTRY)
  (a_inum : Z) : bool :=
  name_size_asserted a_name_info
  && ((entry_type a_dentry =? FILE_STREAM)
      || (entry_type a_dentry =? DELETED_FILE_STREAM))
  && fatfs_is_inum_in_range (fatfs a_name_info) a_inum.

(** The test of lines 263-264: the entry does not follow a file entry. *)
Definition stream_out_of_sequence (a_name_info : EXFATFS_FS_NAME_INFO)
  : bool :=
  negb (last_dentry_type a_name_info =? FILE)
  && negb (last_dentry_type a_name_info =? DELETED_FILE).

(** The test of lines 272-275: the in-use bits differ. *)
Definition stream_in_use_mismatch (a_name_info : EXFATFS_FS_NAME_INFO)
  (a_dentry : FATFS_DENTRY) : bool :=
  ((last_dentry_type a_name_info =? FILE)
   && (entry_type a_dentry =? DELETED_FILE_STREAM))
  || ((last_dentry_type a_name_info =? DELETED_FILE)
      && (entry_type a_dentry =? FILE_STREAM)).

Definition exfats_parse_file_stream_dentry
  (a_name_info : EXFATFS_FS_NAME_INFO) (a_dentry : FATFS_DENTRY)
  (a_inum : Z) : outcome EXFATFS_FS_NAME_INFO :=
  assert NDEBUG (file_stream_dentry_asserted a_name_info a_dentry a_inum) ;;;
  if stream_out_of_sequence a_name_info then
    exfatfs_add_name_to_dir_and_reset_info a_name_info
  else if stream_in_use_mismatch a_name_info a_dentry then
    exfatfs_add_name_to_dir_and_reset_info a_name_info
  else
    let a_name_info :=
      set_last_dentry_type (entry_type a_dentry) a_name_info in
    let a_name_info :=
      set_expected_name_length
        (data_at a_dentry (OFFSET_file_name_length h)) a_name_info in
    a_name_info <-
      exfatfs_update_file_entry_set_checksum a_name_info a_dentry ;;
    count_secondary_entry a_name_info.

Definition file_name_dentry_asserted
  (a_name_info : EXFATFS_FS_NAME_INFO) (a_dentry : FATFS_DENTRY)
  (a_inum : Z) : bool :=
  name_size_asserted a_name_info
  && ((entry_type a_dentry =? FILE_NAME)
      || (entry_type a_dentry =? DELETED_FILE_NAME))
  && fatfs_is_inum_in_range (fatfs a_name_info) a_inum.

(** The test of lines 332-335: the entry follows neither a stream nor a
    name entry. *)
Definition name_out_of_sequence (a_name_info : EXFATFS_FS_NAME_INFO)
  : bool :=
  negb (last_dentry_type a_name_info =? FILE_STREAM)
  && negb (last_dentry_type a_name_info =? DELETED_FILE_STREAM)
  && negb (last_dentry_type a_name_info =? FILE_NAME)
  && negb (last_dentry_type a_name_info =? DELETED_FILE_NAME).

(** The test of lines 343-348: the in-use bits differ. *)
Definition name_in_use_mismatch (a_name_info : EXFATFS_FS_NAME_INFO)
  (a_dentry : FATFS_DENTRY) : bool :=
  (((last_dentry_type a_name_info =? FILE_STREAM)
    || (last_dentry_type a_name_info =? FILE_NAME))
   && (entry_type a_dentry =? DELETED_FILE_NAME))
  || (((last_dentry_type a_name_info =? DELETED_FILE_STREAM)
       || (last_dentry_type a_name_info =? DELETED_FILE_NAME))
      && (entry_type a_dentry =? FILE_NAME)).

(** [num_chars_to_copy], a [size_t] (lines 364-367). *)
Definition num_chars_to_copy (a_name_info : EXFATFS_FS_NAME_INFO) : Z :=
  let n :=
    size_t (expected_name_length a_name_info
            - actual_name_length a_name_info) in
  if n >? EXFATFS_MAX_FILE_NAME_SEGMENT_LENGTH h
  then EXFATFS_MAX_FILE_NAME_SEGMENT_LENGTH h
  else n.

(** The test of lines 371-372: the characters fit in the name. *)
Definition name_chars_fit (a_name_info : EXFATFS_FS_NAME_INFO) : bool :=
  size_t (actual_name_length a_name_info + num_chars_to_copy a_name_info)
  <? size_t (name_size (fs_name a_name_info) - 1).

(** The conversion that the handler asks for (lines 373-376). *)
Definition name_conversion (a_name_info : EXFATFS_FS_NAME_INFO)
  (a_dentry : FATFS_DENTRY) (a_inum : Z) : TSKConversionResult * list Z :=
  fatfs_utf16_inode_str_2_utf8 (fatfs a_name_info)
    (skipn (Z.to_nat (OFFSET_utf16_name_chars h)) (data a_dentry))
    (num_chars_to_copy a_name_info)
    (name (fs_name a_name_info))
    (name_size (fs_name a_name_info)) a_inum.

Definition exfats_parse_file_name_dentry
  (a_name_info : EXFATFS_FS_NAME_INFO) (a_dentry : FATFS_DENTRY)
  (a_inum : Z) : outcome EXFATFS_FS_NAME_INFO :=
  assert NDEBUG (file_name_dentry_asserted a_name_info a_dentry a_inum) ;;;
  if name_out_of_sequence a_name_info then
    exfatfs_add_name_to_dir_and_reset_info a_name_info
  else if name_in_use_mismatch a_name_info a_dentry then
    exfatfs_add_name_to_dir_and_reset_info a_name_info
  else
    let a_name_info :=
      set_last_dentry_type (entry_type a_dentry) a_name_info in
    let n := num_chars_to_copy a_name_info in
    if name_chars_fit a_name_info then
      let (result, dest) := name_conversion a_name_info a_dentry a_inum in
      let a_name_info :=
        set_fs_name (set_name dest (fs_name a_name_info)) a_name_info in
      match result with
      | TSKconversionOK =>
          let a_name_info :=
            set_actual_name_length
              (uint8 (actual_name_length a_name_info + n)) a_name_info in
          let a_name_info :=
            set_fs_name
              (set_name
                 (store (name (fs_name a_name_info))
                    (actual_name_length a_name_info) 0)
                 (fs_name a_name_info)) a_name_info in
          count_secondary_entry a_name_info
      | _ =>
          let a_name_info :=
            set_fs_name
              (set_name
                 (store (name (fs_name a_name_info))
                    (actual_name_length a_name_info) 0)
                 (fs_name a_name_info)) a_name_info in
          exfatfs_add_name_to_dir_and_reset_info a_name_info
      end
    else count_secondary_entry a_name_info.

(** *** The volume label entry *)

Definition vol_label_dentry_asserted (a_name_info : EXFATFS_FS_NAME_INFO)
  (a_dentry : FATFS_DENTRY) (a_inum : Z) : bool :=
  name_size_asserted a_name_info
  && ((entry_type a_dentry =? VOLUME_LABEL)
      || (entry_type a_dentry =? VOLUME_LABEL_EMPTY))
  && fatfs_is_inum_in_range (fatfs a_name_info) a_inum.

(** [dentry->utf16_char_count] *)
Definition utf16_char_count (a_dentry : FATFS_DENTRY) : Z :=
  data_at a_dentry (OFFSET_utf16_char_count h).

(** The memory that the pointer [dentry->volume_label] gives the
    converter: the bytes of the entry from the label on, and the bytes
    [a_following] that come after the entry in the buffer that
    [a_dentry] points into. *)
Definition vol_label_source (a_dentry : FATFS_DENTRY)
  (a_following : list Z) : list Z :=
  skipn (Z.to_nat (OFFSET_volume_label h)) (data a_dentry) ++ a_following.

(** The conversion that the handler asks for (lines 435-438), on the
    accumulator as it is after the first finalization: of
    [utf16_char_count + 1] units, whatever the size of the label field. *)
Definition vol_label_conversion (a_name_info : EXFATFS_FS_NAME_INFO)
  (a_dentry : FATFS_DENTRY) (a_following : list Z) (a_inum : Z)
  : TSKConversionResult * list Z :=
  fatfs_utf16_inode_str_2_utf8 (fatfs a_name_info)
    (vol_label_source a_dentry a_following)
    (size_t (utf16_char_count a_dentry + 1))
    (name (fs_name a_name_info))
    (name_size (fs_name a_name_info)) a_inum.

(** [a_dentry] is a pointer into the buffer of the driver: the entry it
    points to, and [a_following], the bytes of the buffer after that
    entry, which the conversion of the label can reach. *)
Definition exfats_parse_vol_label_dentry
  (a_name_info : EXFATFS_FS_NAME_INFO) (a_dentry : FATFS_DENTRY)
  (a_following : list Z) (a_inum : Z) : outcome EXFATFS_FS_NAME_INFO :=
  assert NDEBUG (vol_label_dentry_asserted a_name_info a_dentry a_inum) ;;;
  a_name_info <- exfatfs_add_name_to_dir_and_reset_info a_name_info ;;
  let a_name_info :=
    set_last_dentry_type (entry_type a_dentry) a_name_info in
  if negb (entry_type a_dentry =? VOLUME_LABEL_EMPTY) then
    let (result, dest) :=
      vol_label_conversion a_name_info a_dentry a_following a_inum in
    let a_name_info :=
      set_fs_name (set_name dest (fs_name a_name_info)) a_name_info in
    match result with
    | TSKconversionOK =>
        let a_name_info :=
          set_actual_name_length
            (uint8 (actual_name_length a_name_info
                    + utf16_char_count a_dentry)) a_name_info in
        let a_name_info :=
          set_fs_name
            (set_name
               (store (name (fs_name a_name_info))
                  (actual_name_length a_name_info) 0)
               (fs_name a_name_info)) a_name_info in
        let tag_length := strlen vol_label_tag in
        let a_name_info :=
          if size_t (actual_name_length a_name_info + tag_length)
             <? EXFATFS_MAX_NAME_LEN_UTF8 h then
            set_fs_name
              (set_name (strcat (name (fs_name a_name_info)) vol_label_tag)
                 (fs_name a_name_info)) a_name_info
          else a_name_info in
        let a_name_info :=
          set_fs_name (set_meta_addr a_inum (fs_name a_name_info))
            a_name_info in
        exfatfs_add_name_to_dir_and_reset_info a_name_info
    | _ => exfatfs_reset_name_info a_name_info
    end
  else Ok a_name_info.

(** *** The special file entries *)

(** The assertion on the type of the entry (lines 480-483). *)
Definition special_file_type_asserted (a_dentry : FATFS_DENTRY) : bool :=
  (data_at a_dentry 0 =? VOLUME_GUID)
  || (data_at a_dentry 0 =? ALLOC_BITMAP)
  || (data_at a_dentry 0 =? UPCASE_TABLE)
  || (data_at a_dentry 0 =? ACT).

Definition special_file_dentry_asserted
  (a_name_info : EXFATFS_FS_NAME_INFO) (a_dentry : FATFS_DENTRY)
  (a_inum : Z) : bool :=
  name_size_asserted a_name_info
  && special_file_type_asserted a_dentry
  && fatfs_is_inum_in_range (fatfs a_name_info) a_inum.

(** The [switch] of lines 497-513, on the name buffer. *)
Definition special_file_name (a_dentry : FATFS_DENTRY) (buf : list Z)
  : list Z :=
  if data_at a_dentry 0 =? VOLUME_GUID then
    strcpy buf (EXFATFS_VOLUME_GUID_VIRT_FILENAME h)
  else if data_at a_dentry 0 =? ALLOC_BITMAP then
    strcpy buf (EXFATFS_ALLOC_BITMAP_VIRT_FILENAME h)
  else if data_at a_dentry 0 =? UPCASE_TABLE then
    strcpy buf (EXFATFS_UPCASE_TABLE_VIRT_FILENAME h)
  else if data_at a_dentry 0 =? TEX_FAT then
    strcpy buf (EXFATFS_TEX_FAT_VIRT_FILENAME h)
  else if data_at a_dentry 0 =? ACT then
    strcpy buf (EXFATFS_ACT_VIRT_FILENAME h)
  else buf.

Definition exfats_parse_special_file_dentry
  (a_name_info : EXFATFS_FS_NAME_INFO) (a_dentry : FATFS_DENTRY)
  (a_inum : Z) : outcome EXFATFS_FS_NAME_INFO :=
  assert NDEBUG (special_file_dentry_asserted a_name_info a_dentry a_inum) ;;;
  a_name_info <- exfatfs_add_name_to_dir_and_reset_info a_name_info ;;
  let a_name_info :=
    set_fs_name (set_meta_addr a_inum (fs_name a_name_info)) a_name_info in
  let a_name_info :=
    set_last_dentry_type (data_at a_dentry 0) a_name_info in
  let a_name_info :=
    set_fs_name
      (set_name (special_file_name a_dentry (name (fs_name a_name_info)))
         (fs_name a_name_info)) a_name_info in
  exfatfs_add_name_to_dir_and_reset_info a_name_info.

(** *** The driver *)

(** The case group that the [switch] of lines 633-672 selects. *)
Definition select_case (dentry_type : Z) : switch_case :=
  if (dentry_type =? FILE) || (dentry_type =? DELETED_FILE) then CaseFile
  else if (dentry_type =? FILE_STREAM)
          || (dentry_type =? DELETED_FILE_STREAM) then CaseFileStream
  else if (dentry_type =? FILE_NAME)
          || (dentry_type =? DELETED_FILE_NAME) then CaseFileName
  else if (dentry_type =? VOLUME_LABEL_EMPTY)
          || (dentry_type =? VOLUME_LABEL) then CaseVolLabel
  else if (dentry_type =? VOLUME_GUID) || (dentry_type =? ALLOC_BITMAP)
          || (dentry_type =? UPCASE_TABLE) || (dentry_type =? TEX_FAT)
          || (dentry_type =? ACT) then CaseSpecialFile
  else CaseDefault.

Section Driver.

(** The arguments of [exfatfs_dent_parse_buf], once they are known not to
    be null: [a_buf] as the array of entries that [dentry] walks. *)
Variable a_fatfs : FATFS_INFO.
Variable a_buf : list FATFS_DENTRY.
Variable a_sector_addrs : list Z.

(** [*dentry]; past the end of the buffer C reads what follows it, here an
    entry without bytes. *)
Definition current_dentry_of (s : parse_state) : FATFS_DENTRY :=
  nth (Z.to_nat (dentry s)) a_buf {| data := [] |}.

(** What the buffer holds after [*dentry]: the bytes of the entries
    that follow it (past the end of the buffer, where C reads what
    follows it in memory: nothing). *)
Definition following_bytes (s : parse_state) : list Z :=
  concat (map data (skipn (S (Z.to_nat (dentry s))) a_buf)).

(** The hint for the classifier (line 631). *)
Definition classifier_hint (s : parse_state) : bool :=
  negb (is_corrupt_dir s)
  && negb (sector_is_allocated (name_info s) =? 0).

(** The body of the loop over the entries of a sector (lines 619-672) and
    its increment [++dentry]. *)
Definition dentry_loop_body (base_inum_of_sector : Z) (s : parse_state)
  (dentry_index : Z) : outcome (loop_exit parse_state) :=
  let current_dentry := current_dentry_of s in
  let current_inum := uint64 (base_inum_of_sector + dentry_index) in
  let s := set_entries_count (entries_count s + 1) s in
  if negb (fatfs_is_inum_in_range a_fatfs current_inum) then
    Ok (Return TSK_ERR (tsk_fs_name_free s))
  else
    let dentry_type :=
      exfatfs_is_dentry a_fatfs current_dentry (classifier_hint s) in
    let s :=
      record_classifier_call
        {| call_sector_is_allocated := sector_is_allocated (name_info s);
           call_hint := classifier_hint s;
           call_result := dentry_type |} s in
    s <-
      match select_case dentry_type with
      | CaseFile =>
          i <- exfats_parse_file_dentry (name_info s) current_dentry
                 current_inum ;;
          Ok (set_name_info i s)
      | CaseFileStream =>
          i <- exfats_parse_file_stream_dentry (name_info s) current_dentry
                 current_inum ;;
          Ok (set_name_info i s)
      | CaseFileName =>
          i <- exfats_parse_file_name_dentry (name_info s) current_dentry
                 current_inum ;;
          Ok (set_name_info i s)
      | CaseVolLabel =>
          i <- exfats_parse_vol_label_dentry (name_info s) current_dentry
                 (following_bytes s) current_inum ;;
          Ok (set_name_info i s)
      | CaseSpecialFile =>
          i <- exfats_parse_special_file_dentry (name_info s) current_dentry
                 current_inum ;;
          Ok (set_name_info i s)
      | CaseDefault =>
          let s :=
            set_invalid_entries_count (invalid_entries_count s + 1) s in
          let s :=
            if (entries_count s =? 4) && (invalid_entries_count s =? 4)
            then set_is_corrupt_dir true s
            else s in
          i <- exfatfs_add_name_to_dir_and_reset_info (name_info s) ;;
          Ok (set_name_info i s)
      end ;;
    Ok (Continue (set_dentry (dentry s + 1) s)).

(** The body of the loop over the sectors (lines 586-673). The list
    [a_sector_addrs] is read with the default 0 past its end, where C
    reads what follows the array. *)
Definition sector_loop_body (s : parse_state) (sector_index : Z)
  : outcome (loop_exit parse_state) :=
  let sector_addr := nth (Z.to_nat sector_index) a_sector_addrs 0 in
  let base_inum_of_sector := FATFS_SECT_2_INODE a_fatfs sector_addr in
  if base_inum_of_sector >? last_inum (fs_info a_fatfs) then
    Ok (Return TSK_COR
          (tsk_fs_name_free (set_tsk_errno (Some TSK_ERR_FS_ARG) s)))
  else
    let s :=
      set_name_info
        (set_sector_is_allocated (fatfs_is_sectalloc a_fatfs sector_addr)
           (name_info s)) s in
    if sector_is_allocated (name_info s) =? -1 then
      Ok (Continue (set_tsk_errno None s))
    else
      for_loop (dentry_loop_body base_inum_of_sector) s
        (upto (dentry_cnt_se a_fatfs)).

(** The state at the entry of the loop over the sectors (lines 569-584):
    [memset] zeroes the accumulator. *)
Definition initial_state (a_fs_dir : TSK_FS_DIR) (n : TSK_FS_NAME)
  : parse_state :=
  {| name_info :=
       {| fatfs := a_fatfs;
          sector_is_allocated := 0;
          last_dentry_type := 0;
          expected_secondary_entry_count := 0;
          actual_secondary_entry_count := 0;
          expected_check_sum := 0;
          actual_check_sum := 0;
          expected_name_length := 0;
          actual_name_length := 0;
          fs_name := set_name (store (name n) 0 0) n;
          fs_dir := a_fs_dir |};
     dentry := 0;
     entries_count := 0;
     invalid_entries_count := 0;
     is_corrupt_dir := false;
     tsk_errno := None;
     fs_name_live := true;
     classifier_calls := [] |}.

(** The division [a_buf_len / a_fatfs->ssize] (line 584) and the loop
    over the sectors (lines 585-674). *)
Definition parse_sectors (a_buf_len : Z) (s : parse_state)
  : outcome (loop_exit parse_state) :=
  num_sectors <- c_div a_buf_len (ssize a_fatfs) ;;
  for_loop sector_loop_body s (upto num_sectors).

End Driver.

Definition result_of (r : TSK_RETVAL_ENUM) (s : parse_state)
  : parse_result :=
  {| retval := r; result_errno := tsk_errno s;
     result_dir := Some (fs_dir (name_info s));
     result_leak := fs_name_live s |}.

(** [exfatfs_dent_parse_buf]; a null pointer is [None].
    [fatfs_is_ptr_arg_null] sets the error number [TSK_ERR_FS_ARG] when
    its argument is null. *)
Definition exfatfs_dent_parse_buf (a_fatfs : option FATFS_INFO)
  (a_fs_dir : option TSK_FS_DIR) (a_buf : option (list FATFS_DENTRY))
  (a_buf_len : Z) (a_sector_addrs : option (list Z))
  : outcome parse_result :=
  match a_fatfs, a_fs_dir, a_buf, a_sector_addrs with
  | Some fatfs', Some dir', Some buf', Some addrs' =>
      assert NDEBUG (a_buf_len >? 0) ;;;
      if a_buf_len <? 0 then
        Ok {| retval := TSK_ERR; result_errno := Some TSK_ERR_FS_ARG;
              result_dir := a_fs_dir; result_leak := false |}
      else
        match tsk_fs_name_alloc (EXFATFS_MAX_NAME_LEN_UTF8 h) 0 with
        | None =>
            Ok {| retval := TSK_ERR;
                  result_errno := Some TSK_ERR_AUX_MALLOC;
                  result_dir := a_fs_dir; result_leak := false |}
        | Some n =>
            r <- parse_sectors fatfs' buf' addrs' a_buf_len
                   (initial_state fatfs' dir' n) ;;
            match r with
            | Return rv s => Ok (result_of rv s)
            | Continue s =>
                i <- exfatfs_add_name_to_dir_and_reset_info (name_info s) ;;
                Ok (result_of TSK_OK (tsk_fs_name_free (set_name_info i s)))
            end
        end
  | _, _, _, _ =>
      Ok {| retval := TSK_ERR; result_errno := Some TSK_ERR_FS_ARG;
            result_dir := a_fs_dir; result_leak := false |}
  end.

End Parser.

(** ** The check sum as the specification words it *)

(** The rotations of a 16-bit word by [n] bits, to the right and to the
    left. *)
Definition rotr16 (c n : Z) : Z :=
  c / 2 ^ n + (c mod 2 ^ n) * 2 ^ (16 - n).
Definition rotl16 (c n : Z) : Z :=
  (c * 2 ^ n) mod 2 ^ 16 + c / 2 ^ (16 - n).

(** Folding a byte: a rotation to the right by one bit, then an addition
    modulo [2 ^ 16]. *)
Definition spec_fold (c b : Z) : Z := (rotr16 c 1 + b) mod 2 ^ 16.

(** The tag folded for an entry of type [ty]: the in-use tag of a deleted
    file, stream or name entry, the tag itself otherwise. *)
Definition spec_folded_tag (h : tsk_exfatfs_h) (ty : Z) : Z :=
  if ty =? EXFATFS_DIR_ENTRY_TYPE_DELETED_FILE h
  then EXFATFS_DIR_ENTRY_TYPE_FILE h
  else if ty =? EXFATFS_DIR_ENTRY_TYPE_DELETED_FILE_STREAM h
  then EXFATFS_DIR_ENTRY_TYPE_FILE_STREAM h
  else if ty =? EXFATFS_DIR_ENTRY_TYPE_DELETED_FILE_NAME h
  then EXFATFS_DIR_ENTRY_TYPE_FILE_NAME h
  else ty.

Definition spec_is_file_entry (h : tsk_exfatfs_h) (ty : Z) : bool :=
  (ty =? EXFATFS_DIR_ENTRY_TYPE_FILE h)
  || (ty =? EXFATFS_DIR_ENTRY_TYPE_DELETED_FILE h).

(** The positions of the entry that are folded, in order. *)
Definition spec_folded_positions (h : tsk_exfatfs_h) (d : FATFS_DENTRY)
  : list Z :=
  filter
    (fun i =>
       negb (spec_is_file_entry h (entry_type d)
             && ((i =? 2) || (i =? 3))))
    (upto 32).

(** The bytes that are folded, in order. *)
Definition spec_folded_bytes (h : tsk_exfatfs_h) (d : FATFS_DENTRY)
  : list Z :=
  map (fun i =>
         if i =? 0 then spec_folded_tag h (entry_type d) else data_at d i)
    (spec_folded_positions h d).

Definition spec_checksum (h : tsk_exfatfs_h) (c : Z) (d : FATFS_DENTRY)
  : Z :=
  fold_left spec_fold (spec_folded_bytes h d) c.

(** ** The accumulator as the specification words it *)

(** The pending name is not empty. *)
Definition pending_nonempty (i : EXFATFS_FS_NAME_INFO) : bool :=
  strlen (name (fs_name i)) >? 0.

(** The records that a finalization hands to the sink. *)
Definition emitted_by_finalize (i : EXFATFS_FS_NAME_INFO)
  : list TSK_FS_NAME :=
  if pending_nonempty i then [fs_name i] else [].

(** The closed state of the accumulator: no set is open, nothing is
    pending. *)
Definition closed (h : tsk_exfatfs_h) (i : EXFATFS_FS_NAME_INFO) : Prop :=
  last_dentry_type i = EXFATFS_DIR_ENTRY_TYPE_NONE h
  /\ expected_secondary_entry_count i = 0
  /\ actual_secondary_entry_count i = 0
  /\ expected_check_sum i = 0
  /\ actual_check_sum i = 0
  /\ expected_name_length i = 0
  /\ actual_name_length i = 0
  /\ strlen (name (fs_name i)) = 0
  /\ meta_addr (fs_name i) = 0
  /\ type (fs_name i) = TSK_FS_NAME_TYPE_UNDEF
  /\ flags (fs_name i) = TSK_FS_NAME_FLAG_ALLOC.

(** The in-use variant of a member of a file entry set: [Some true] for
    the in-use tags, [Some false] for the deleted ones. *)
Definition spec_in_use_variant (h : tsk_exfatfs_h) (ty : Z) : option bool :=
  if (ty =? EXFATFS_DIR_ENTRY_TYPE_FILE h)
     || (ty =? EXFATFS_DIR_ENTRY_TYPE_FILE_STREAM h)
     || (ty =? EXFATFS_DIR_ENTRY_TYPE_FILE_NAME h) then Some true
  else if (ty =? EXFATFS_DIR_ENTRY_TYPE_DELETED_FILE h)
          || (ty =? EXFATFS_DIR_ENTRY_TYPE_DELETED_FILE_STREAM h)
          || (ty =? EXFATFS_DIR_ENTRY_TYPE_DELETED_FILE_NAME h)
  then Some false
  else None.

(** The conversion succeeded. *)
Definition conversion_ok (r : TSKConversionResult) : bool :=
  match r with
  | TSKconversionOK => true
  | _ => false
  end.

(** The number of UTF-16 units of a volume label that the specification
    has converted: the declared count, capped at the limit. *)
Definition spec_label_units (limit declared : Z) : Z :=
  Z.min declared limit.

(** ** The corrupt-directory flag as the specification words it *)

(** The entry is unclassifiable: the classifier rejected it as not a
    directory entry, which it tells by the answer
    [EXFATFS_DIR_ENTRY_TYPE_NONE]. *)
Definition unclassifiable (h : tsk_exfatfs_h) (dentry_type : Z) : bool :=
  dentry_type =? EXFATFS_DIR_ENTRY_TYPE_NONE h.

(** The classifier answers with an enumerator of
    [EXFATFS_DIR_ENTRY_TYPE_ENUM], the type of what it returns. *)
Definition classifier_answers_enum (h : tsk_exfatfs_h)
  (cls : FATFS_INFO -> FATFS_DENTRY -> bool -> Z) : Prop :=
  forall a_fatfs d hint, In (cls a_fatfs d hint) (dir_entry_types h).

(** Four entries at least were processed and the first four of them were
    unclassifiable. *)
Definition first_four_unclassifiable (h : tsk_exfatfs_h)
  (calls : list classifier_call) : bool :=
  (4 <=? length calls)%nat
  && forallb (fun c => unclassifiable h (call_result c)) (firstn 4 calls).

(** The hint for an entry, given the calls made for the entries before
    it: the sector is allocated and the flag is not set. *)
Definition expected_hint (h : tsk_exfatfs_h)
  (before : list classifier_call) (c : classifier_call) : bool :=
  negb (first_four_unclassifiable h before)
  && negb (call_sector_is_allocated c =? 0).

Definition hints_as_specified (h : tsk_exfatfs_h)
  (calls : list classifier_call) : Prop :=
  forall k c,
    nth_error calls k = Some c ->
    call_hint c = expected_hint h (firstn k calls) c.

(** The state with which a loop ends. *)
Definition state_of {S : Type} (r : loop_exit S) : S :=
  match r with
  | Continue s => s
  | Return _ s => s
  end.

(** The counters of the driver count the calls of the classifier. *)
Definition counters_inv (h : tsk_exfatfs_h) (s : parse_state) : Prop :=
  entries_count s = Z.of_nat (length (classifier_calls s))
  /\ invalid_entries_count s
     = Z.of_nat
         (length
            (filter (fun c => unclassifiable h (call_result c))
               (classifier_calls s))).

(** The flag is set exactly when the first four entries processed were
    unclassifiable, and every hint was computed as specified. *)
Definition flag_inv (h : tsk_exfatfs_h) (s : parse_state) : Prop :=
  is_corrupt_dir s = first_four_unclassifiable h (classifier_calls s)
  /\ hints_as_specified h (classifier_calls s).

(** ** Inputs on which the model is run *)

(** An entry of 32 bytes that starts with the bytes [l]. *)
Definition dentry_of (l : list Z) : FATFS_DENTRY :=
  {| data := firstn 32 (l ++ repeat 0 32) |}.

(** A file system with sectors of 512 bytes, sixteen entries each. *)
Definition fatfs0 : FATFS_INFO :=
  {| fs_info :=
       {| endian := TSK_LIT_ENDIAN; first_inum := 2; last_inum := 100000 |};
     ssize := 512;
     dentry_cnt_se := 16 |}.

(** An empty name of the capacity of the parser. *)
Definition fs_name0 : TSK_FS_NAME :=
  {| name := repeat 0 1025; name_size := 1024; meta_addr := 0;
     type := TSK_FS_NAME_TYPE_UNDEF; flags := TSK_FS_NAME_FLAG_ALLOC |}.

(** A closed accumulator on an empty directory. *)
Definition name_info0 : EXFATFS_FS_NAME_INFO :=
  {| fatfs := fatfs0;
     sector_is_allocated := 1;
     last_dentry_type := 0xFF;
     expected_secondary_entry_count := 0;
     actual_secondary_entry_count := 0;
     expected_check_sum := 0;
     actual_check_sum := 0;
     expected_name_length := 0;
     actual_name_length := 0;
     fs_name := fs_name0;
     fs_dir := {| names := [] |} |}.

(** A deleted file entry: two secondary entries, check sum [0x1234]. *)
Definition deleted_file_dentry : FATFS_DENTRY :=
  dentry_of [0x05; 2; 0x34; 0x12; 0x20; 0; 7; 9].

(** The accumulator with the pending name ["A"]. *)
Definition name_info_A : EXFATFS_FS_NAME_INFO :=
  set_fs_name (set_name (65 :: repeat 0 1024) fs_name0) name_info0.

(** A converter for the runs: UTF-16 units of the ASCII range, low byte
    first, are copied to the start of the destination and terminated; any
    other unit makes the conversion fail. *)
Fixpoint ascii_units (src : list Z) (n : nat) : option (list Z) :=
  match n with
  | O => Some []
  | S m =>
      match src with
      | lo :: hi :: t =>
          if (hi =? 0) && (lo <? 128)
          then option_map (cons lo) (ascii_units t m)
          else None
      | _ => None
      end
  end.

Definition ascii_decoder (a_fatfs : FATFS_INFO) (a_src : list Z)
  (a_src_len : Z) (a_dest : list Z) (a_dest_len : Z) (a_inum : Z)
  : TSKConversionResult * list Z :=
  match ascii_units a_src (Z.to_nat a_src_len) with
  | Some s => (TSKconversionOK, store_string a_dest 0 s)
  | None => (TSKsourceIllegal, store a_dest 0 0)
  end.

(** A classifier for the runs: the type byte of the entry when it is an
    enumerator, [EXFATFS_DIR_ENTRY_TYPE_NONE] otherwise. *)
Definition tag_classifier (h : tsk_exfatfs_h) (a_fatfs : FATFS_INFO)
  (a_dentry : FATFS_DENTRY) (a_basic : bool) : Z :=
  if existsb (Z.eqb (data_at a_dentry 0)) (dir_entry_types h)
  then data_at a_dentry 0
  else EXFATFS_DIR_ENTRY_TYPE_NONE h.

(** A volume all of whose sectors are allocated. *)
Definition sectalloc_all (a_fatfs : FATFS_INFO) (sect : Z) : Z := 1.

(** Sixteen inode addresses for each sector, from address 3 on. *)
Definition sect_2_inode16 (a_fatfs : FATFS_INFO) (sect : Z) : Z :=
  16 * sect + 3.

(** An allocator that does not fail. *)
Definition name_alloc_ok (norm_namelen shrt_namelen : Z)
  : option TSK_FS_NAME :=
  Some {| name := repeat 0 (Z.to_nat norm_namelen + 1);
          name_size := norm_namelen; meta_addr := 0;
          type := TSK_FS_NAME_TYPE_UNDEF;
          flags := TSK_FS_NAME_FLAG_ALLOC |}.

(** The names of a directory, as strings. *)
Definition dir_strings (d : TSK_FS_DIR) : list (list Z) :=
  map (fun n => c_string (name n)) (names d).

(** An in-use file entry that declares three secondary entries, a stream
    entry that declares a name of twenty characters, a name entry with
    the fifteen characters [ABCDEFGHIJKLMNO], and a deleted name entry
    with the characters [PQRST]. *)
Definition file_dentry_3 : FATFS_DENTRY :=
  dentry_of [0x85; 3; 0; 0; 0x20; 0].
Definition stream_dentry_20 : FATFS_DENTRY :=
  dentry_of [0xC0; 1; 0; 20].
Definition name_dentry_AO : FATFS_DENTRY :=
  dentry_of [0xC1; 0; 65; 0; 66; 0; 67; 0; 68; 0; 69; 0; 70; 0; 71; 0;
             72; 0; 73; 0; 74; 0; 75; 0; 76; 0; 77; 0; 78; 0; 79; 0].
Definition deleted_name_dentry_PT : FATFS_DENTRY :=
  dentry_of [0x41; 0; 80; 0; 81; 0; 82; 0; 83; 0; 84; 0].
Definition deleted_stream_dentry_20 : FATFS_DENTRY :=
  dentry_of [0x40; 1; 0; 20].

(** A sector that starts with these four entries. *)
Definition mismatch_buf : list FATFS_DENTRY :=
  [file_dentry_3; stream_dentry_20; name_dentry_AO; deleted_name_dentry_PT]
  ++ repeat (dentry_of []) 12.

(** The accumulator after a file entry of an allocated sector. *)
Definition name_info_after_file : EXFATFS_FS_NAME_INFO :=
  set_last_dentry_type 0x85
    (set_expected_secondary_entry_count 3 name_info0).

(** A file entry that declares no secondary entry, a stream entry that
    declares a name of 255 characters, and a name entry with fifteen
    characters [A]. *)
Definition file_dentry_0 : FATFS_DENTRY :=
  dentry_of [0x85; 0; 0; 0; 0x20; 0].
Definition stream_dentry_255 : FATFS_DENTRY :=
  dentry_of [0xC0; 1; 0; 255].
Definition name_dentry_A15 : FATFS_DENTRY :=
  dentry_of [0xC1; 0; 65; 0; 65; 0; 65; 0; 65; 0; 65; 0; 65; 0; 65; 0;
             65; 0; 65; 0; 65; 0; 65; 0; 65; 0; 65; 0; 65; 0; 65; 0].

(** Sixteen sectors: the file entry, the stream entry and 254 name
    entries, which makes 255 secondary entries. *)
Definition long_set_buf : list FATFS_DENTRY :=
  file_dentry_0 :: stream_dentry_255 :: repeat name_dentry_A15 254.
Definition long_set_addrs : list Z := upto 16.

(** The accumulator of a set whose file entry declared two secondary
    entries and whose stream entry was accepted. *)
Definition name_info_after_stream : EXFATFS_FS_NAME_INFO :=
  set_last_dentry_type 0xC0
    (set_expected_secondary_entry_count 2
       (set_actual_secondary_entry_count 1
          (set_expected_name_length 15 name_info0))).

(** A converter that tells the length it was asked for: it succeeds and
    leaves that length, as one character, in the destination. *)
Definition length_probe (a_fatfs : FATFS_INFO) (a_src : list Z)
  (a_src_len : Z) (a_dest : list Z) (a_dest_len : Z) (a_inum : Z)
  : TSKConversionResult * list Z :=
  (TSKconversionOK, store_string a_dest 0 [a_src_len]).

(** Volume label entries: the label [FOO]; a label that declares the
    five characters [LABEL], followed in the field by the unit [0xD800];
    a label that declares 200 characters; an empty label. *)
Definition label_dentry_FOO : FATFS_DENTRY :=
  dentry_of [0x83; 3; 70; 0; 79; 0; 79; 0].
Definition label_dentry_LABEL : FATFS_DENTRY :=
  dentry_of [0x83; 5; 76; 0; 65; 0; 66; 0; 69; 0; 76; 0; 0x00; 0xD8].
Definition label_dentry_200 : FATFS_DENTRY :=
  dentry_of [0x83; 200; 65; 0; 66; 0].
Definition label_dentry_empty : FATFS_DENTRY :=
  dentry_of [0x03; 0].

(** A label that fills the label field: the fifteen characters
    [ABCDEFGHIJKLMNO]. *)
Definition label_dentry_15 : FATFS_DENTRY :=
  dentry_of [0x83; 15; 65; 0; 66; 0; 67; 0; 68; 0; 69; 0; 70; 0; 71; 0;
             72; 0; 73; 0; 74; 0; 75; 0; 76; 0; 77; 0; 78; 0; 79; 0].

(** A converter that shows the last unit it was asked to convert: it
    succeeds and leaves the two bytes of that unit in the destination. *)
Definition last_unit_probe (a_fatfs : FATFS_INFO) (a_src : list Z)
  (a_src_len : Z) (a_dest : list Z) (a_dest_len : Z) (a_inum : Z)
  : TSKConversionResult * list Z :=
  (TSKconversionOK,
   store_string a_dest 0
     (firstn 2 (skipn (2 * (Z.to_nat a_src_len - 1)) a_src))).

(** A sector of sixteen entries that the classifier does not recognise,
    and a sector whose fifth entry is a file entry. *)
Definition corrupt_buf : list FATFS_DENTRY := repeat (dentry_of []) 16.
Definition corrupt_then_file_buf : list FATFS_DENTRY :=
  repeat (dentry_of []) 4 ++ [file_dentry_3] ++ repeat (dentry_of []) 11.

(** A file system whose last inode address is 10: the sector at address
    0 holds the inode addresses 3 to 18. *)
Definition fatfs_small : FATFS_INFO :=
  {| fs_info :=
       {| endian := TSK_LIT_ENDIAN; first_inum := 2; last_inum := 10 |};
     ssize := 512;
     dentry_cnt_se := 16 |}.

(** A TexFAT entry, and a sector that starts with it. *)
Definition tex_fat_dentry : FATFS_DENTRY := dentry_of [0xA1].
Definition tex_fat_buf : list FATFS_DENTRY :=
  tex_fat_dentry :: repeat (dentry_of []) 15.

(** The set of the file [HELLO]: a file entry that declares two
    secondary entries, a stream entry that declares five characters, and
    the name entry. *)
Definition file_dentry_2 : FATFS_DENTRY :=
  dentry_of [0x85; 2; 0; 0; 0; 0].
Definition stream_dentry_5 : FATFS_DENTRY :=
  dentry_of [0xC0; 1; 0; 5].
Definition name_dentry_HELLO : FATFS_DENTRY :=
  dentry_of [0xC1; 0; 72; 0; 69; 0; 76; 0; 76; 0; 79; 0].
Definition hello_buf : list FATFS_DENTRY :=
  [file_dentry_2; stream_dentry_5; name_dentry_HELLO]
  ++ repeat (dentry_of []) 13.

(** ** What the functions return, when they return *)

(** The accumulator that [exfatfs_reset_name_info] leaves. *)
Definition reset_value (h : tsk_exfatfs_h) (i : EXFATFS_FS_NAME_INFO)
  : EXFATFS_FS_NAME_INFO :=
  {| fatfs := fatfs i;
     sector_is_allocated := sector_is_allocated i;
     last_dentry_type := EXFATFS_DIR_ENTRY_TYPE_NONE h;
     expected_secondary_entry_count := 0;
     actual_secondary_entry_count := 0;
     expected_check_sum := 0;
     actual_check_sum := 0;
     expected_name_length := 0;
     actual_name_length := 0;
     fs_name :=
       {| name := store (name (fs_name i)) 0 0;
          name_size := name_size (fs_name i);
          meta_addr := 0;
          type := TSK_FS_NAME_TYPE_UNDEF;
          flags := TSK_FS_NAME_FLAG_ALLOC |};
     fs_dir := fs_dir i |}.

(** The accumulator that [exfatfs_add_name_to_dir_and_reset_info]
    leaves. *)
Definition finalize_value (h : tsk_exfatfs_h) (i : EXFATFS_FS_NAME_INFO)
  : EXFATFS_FS_NAME_INFO :=
  reset_value h
    (if strlen (name (fs_name i)) >? 0
     then set_fs_dir (tsk_fs_dir_add (fs_dir i) (fs_name i)) i
     else i).

(** The accumulator that [count_secondary_entry] leaves. *)
Definition count_value (h : tsk_exfatfs_h) (i : EXFATFS_FS_NAME_INFO)
  : EXFATFS_FS_NAME_INFO :=
  let i1 :=
    set_actual_secondary_entry_count
      (uint8 (actual_secondary_entry_count i + 1)) i in
  if actual_secondary_entry_count i1 =? expected_secondary_entry_count i1
  then finalize_value h i1 else i1.

(** ** The directory *)

(** A record with a name that is not empty. *)
Definition nonempty_name (n : TSK_FS_NAME) : Prop :=
  strlen (name n) > 0.

(** The directory [d'] is the directory [d] with records added at its
    end, none of them with an empty name. *)
Definition dir_extends (d d' : TSK_FS_DIR) : Prop :=
  exists l, names d' = names d ++ l /\ Forall nonempty_name l.

(** What no function changes of the accumulator, and how it changes the
    directory. *)
Definition frame (i i' : EXFATFS_FS_NAME_INFO) : Prop :=
  dir_extends (fs_dir i) (fs_dir i')
  /\ fatfs i' = fatfs i
  /\ sector_is_allocated i' = sector_is_allocated i
  /\ name_size (fs_name i') = name_size (fs_name i).

(** ** The length of the name *)

(** The characters of the name counted so far do not exceed the length
    that the stream entry declared, and none is counted before the stream
    entry of the set. *)
Definition name_length_inv (h : tsk_exfatfs_h) (i : EXFATFS_FS_NAME_INFO)
  : Prop :=
  0 <= actual_name_length i <= expected_name_length i
  /\ expected_name_length i < 256
  /\ (last_dentry_type i = EXFATFS_DIR_ENTRY_TYPE_FILE h
      \/ last_dentry_type i = EXFATFS_DIR_ENTRY_TYPE_DELETED_FILE h ->
      actual_name_length i = 0).

(** The [switch] of the driver (lines 633-672) takes its [default] case
    for the answer [dentry_type] of the classifier. *)
Definition default_case (h : tsk_exfatfs_h) (dentry_type : Z) : bool :=
  match select_case h dentry_type with
  | CaseDefault => true
  | _ => false
  end.

(** The classifier answers with the type byte of the entry, when its
    answer is one that the [switch] of the driver has a handler for. *)
Definition classifier_sound (h : tsk_exfatfs_h)
  (cls : FATFS_INFO -> FATFS_DENTRY -> bool -> Z) : Prop :=
  forall a_fatfs d hint,
    default_case h (cls a_fatfs d hint) = false ->
    cls a_fatfs d hint = data_at d 0.

(** The entries of a buffer are made of bytes. *)
Definition buf_ok (a_buf : list FATFS_DENTRY) : Prop :=
  Forall (fun d => Forall is_byte (data d)) a_buf.

(** ** The loops of the driver *)

(** What the loops keep, from a directory [dir0] on: the directory grows,
    the name of the accumulator is allocated as long as the function has
    not returned and freed when it has, and the name length is as
    [name_length_inv] says when [P] holds. *)
Definition loop_inv (h : tsk_exfatfs_h) (P : Prop) (dir0 : TSK_FS_DIR)
  (live : bool) (s : parse_state) : Prop :=
  dir_extends dir0 (fs_dir (name_info s))
  /\ fs_name_live s = live
  /\ (P -> name_length_inv h (name_info s)).

(** The sum of a list of integers. *)
Definition Zsum (l : list Z) : Z := fold_right Z.add 0 l.

(** An oracle that cannot look up the sector at address 0 and finds every
    other sector allocated. *)
Definition sectalloc_fails_at_0 (a_fatfs : FATFS_INFO) (sect : Z) : Z :=
  if sect =? 0 then -1 else 1.

(** Two sectors: the set of the file [HELLO], then sixteen entries that
    the classifier does not recognise. *)
Definition two_sector_buf : list FATFS_DENTRY := hello_buf ++ corrupt_buf.

(** ** The inode addresses of the records *)

(** The tags of the members of a file entry set. *)
Definition set_entry_types (h : tsk_exfatfs_h) : list Z :=
  [ EXFATFS_DIR_ENTRY_TYPE_FILE h;
    EXFATFS_DIR_ENTRY_TYPE_DELETED_FILE h;
    EXFATFS_DIR_ENTRY_TYPE_FILE_STREAM h;
    EXFATFS_DIR_ENTRY_TYPE_DELETED_FILE_STREAM h;
    EXFATFS_DIR_ENTRY_TYPE_FILE_NAME h;
    EXFATFS_DIR_ENTRY_TYPE_DELETED_FILE_NAME h ].

(** The inode address of a record is in the range of the file system. *)
Definition inum_in_range (f : FATFS_INFO) (n : TSK_FS_NAME) : Prop :=
  fatfs_is_inum_in_range f (meta_addr n) = true.

(** The directory [d'] is the directory [d] with records added at its
    end, all of them with an inode address in range. *)
Definition adds_in_range (f : FATFS_INFO) (d d' : TSK_FS_DIR) : Prop :=
  exists l, names d' = names d ++ l /\ Forall (inum_in_range f) l.

(** The inode address of the name under assembly is in range as soon as
    the name is not empty or a set is open. *)
Definition pending_in_range (h : tsk_exfatfs_h) (f : FATFS_INFO)
  (i : EXFATFS_FS_NAME_INFO) : Prop :=
  fatfs i = f
  /\ (strlen (name (fs_name i)) > 0 -> inum_in_range f (fs_name i))
  /\ (In (last_dentry_type i) (set_entry_types h) ->
      inum_in_range f (fs_name i)).

(** What the loops of the driver keep, from a directory [dir0] on: the
    records added have inode addresses in range, and so has the name
    under assembly. *)
Definition range_inv (h : tsk_exfatfs_h) (f : FATFS_INFO)
  (dir0 : TSK_FS_DIR) (s : parse_state) : Prop :=
  adds_in_range f dir0 (fs_dir (name_info s))
  /\ pending_in_range h f (name_info s).

(** ** The special files *)

(** The types of the entries that the handler of special files names. *)
Definition special_file_types (h : tsk_exfatfs_h) : list Z :=
  [ EXFATFS_DIR_ENTRY_TYPE_VOLUME_GUID h;
    EXFATFS_DIR_ENTRY_TYPE_ALLOC_BITMAP h;
    EXFATFS_DIR_ENTRY_TYPE_UPCASE_TABLE h;
    EXFATFS_DIR_ENTRY_TYPE_TEX_FAT h;
    EXFATFS_DIR_ENTRY_TYPE_ACT h ].

(** The virtual file name of a type of special file. *)
Definition virt_filename (h : tsk_exfatfs_h) (ty : Z) : list Z :=
  if ty =? EXFATFS_DIR_ENTRY_TYPE_VOLUME_GUID h
  then EXFATFS_VOLUME_GUID_VIRT_FILENAME h
  else if ty =? EXFATFS_DIR_ENTRY_TYPE_ALLOC_BITMAP h
  then EXFATFS_ALLOC_BITMAP_VIRT_FILENAME h
  else if ty =? EXFATFS_DIR_ENTRY_TYPE_UPCASE_TABLE h
  then EXFATFS_UPCASE_TABLE_VIRT_FILENAME h
  else if ty =? EXFATFS_DIR_ENTRY_TYPE_TEX_FAT h
  then EXFATFS_TEX_FAT_VIRT_FILENAME h
  else EXFATFS_ACT_VIRT_FILENAME h.

(** A string literal that fits in the buffer [buf] with its terminating
    0: it is not empty and holds no 0. *)
Definition literal_fits (s buf : list Z) : Prop :=
  s <> [] /\ Forall (fun c => c <> 0) s /\ (length s < length buf)%nat.

(** An entry of the allocation bitmap. *)
Definition alloc_bitmap_dentry : FATFS_DENTRY := dentry_of [0x81].

(** ** The check sums *)

(** The accumulator [i] with other check sums. *)
Definition with_check_sums (e a : Z) (i : EXFATFS_FS_NAME_INFO)
  : EXFATFS_FS_NAME_INFO :=
  set_expected_check_sum e (set_actual_check_sum a i).

(** Accumulators, and states of the driver, that differ by their check
    sums at most. *)
Definition same_but_sums (i i' : EXFATFS_FS_NAME_INFO) : Prop :=
  exists e a, i' = with_check_sums e a i.

Definition states_same_but_sums (s s' : parse_state) : Prop :=
  exists i', same_but_sums (name_info s) i' /\ s' = set_name_info i' s.

(** Both computations abort, or both return and what they return is
    related. *)
Definition outcome_rel {A : Type} (R : A -> A -> Prop)
  (o o' : outcome A) : Prop :=
  match o, o' with
  | Ok a, Ok a' => R a a'
  | AssertFail, AssertFail => True
  | DivByZero, DivByZero => True
  | _, _ => False
  end.

Definition exits_same_but_sums (r r' : loop_exit parse_state) : Prop :=
  match r, r' with
  | Continue s, Continue s' => states_same_but_sums s s'
  | Return rv s, Return rv' s' => rv = rv' /\ states_same_but_sums s s'
  | _, _ => False
  end.

(** The entry [d'] is the entry [d], or [d] is a file entry and [d']
    differs from it in the bytes 2 and 3 at most, where a file entry
    stores the check sum of its set. *)
Definition same_but_check_sum (h : tsk_exfatfs_h) (d d' : FATFS_DENTRY)
  : Prop :=
  d' = d
  \/ ((data_at d 0 = EXFATFS_DIR_ENTRY_TYPE_FILE h
       \/ data_at d 0 = EXFATFS_DIR_ENTRY_TYPE_DELETED_FILE h)
      /\ forall k, k <> 2 -> k <> 3 -> data_at d' k = data_at d k).

(** The converter reads the units it is asked to convert and no byte
    after them: two sources that agree on the first [2 * n] bytes are
    converted alike. *)
Definition converter_reads_units
  (fatfs_utf16_inode_str_2_utf8 :
     FATFS_INFO -> list Z -> Z -> list Z -> Z -> Z ->
     TSKConversionResult * list Z) : Prop :=
  forall f src src' n dst sz inum,
    firstn (2 * Z.to_nat n) src = firstn (2 * Z.to_nat n) src' ->
    fatfs_utf16_inode_str_2_utf8 f src n dst sz inum
    = fatfs_utf16_inode_str_2_utf8 f src' n dst sz inum.

(** The units that the handler of label entries asks for (one more than
    the entry declares, line 436) lie in the entry [d], when it is a
    label entry. *)
Definition label_within_entry (h : tsk_exfatfs_h) (d : FATFS_DENTRY)
  : Prop :=
  entry_type d = EXFATFS_DIR_ENTRY_TYPE_VOLUME_LABEL h ->
  2 * size_t (utf16_char_count h d + 1)
  <= Z.of_nat
       (length (skipn (Z.to_nat (OFFSET_volume_label h)) (data d))).

(** The file entry of the file [HELLO] with another check sum, and the
    sector of the file with it. *)
Definition file_dentry_2_summed : FATFS_DENTRY :=
  dentry_of [0x85; 2; 0xAB; 0xCD; 0; 0].
Definition hello_buf_summed : list FATFS_DENTRY :=
  [file_dentry_2_summed; stream_dentry_5; name_dentry_HELLO]
  ++ repeat (dentry_of []) 13.

(** ** The characters of the name entries *)




(** ** The identity of a record *)

(** The name [n'] has the inode address, the file type and the
    allocation flag of the name [n]. *)
Definition same_identity (n n' : TSK_FS_NAME) : Prop :=
  meta_addr n' = meta_addr n /\ type n' = type n /\ flags n' = flags n.

(** The handler kept the name [fs_name i] under assembly, or it closed
    the set and added the name, or nothing, to the directory. *)
Definition kept_or_closed (h : tsk_exfatfs_h)
  (i i' : EXFATFS_FS_NAME_INFO) : Prop :=
  (fs_dir i' = fs_dir i /\ same_identity (fs_name i) (fs_name i'))
  \/ (closed h i'
      /\ (fs_dir i' = fs_dir i
          \/ exists r,
               names (fs_dir i') = names (fs_dir i) ++ [r]
               /\ same_identity (fs_name i) r)).

(** The stream entry of the set of the file [HELLO], met after the file
    entry of the set. *)
Definition name_info_after_file_2 : EXFATFS_FS_NAME_INFO :=
  set_fs_name
    (set_meta_addr 3 (set_type TSK_FS_NAME_TYPE_REG fs_name0))
    (set_last_dentry_type 0x85
       (set_expected_secondary_entry_count 2 name_info0)).

(** The file entry [deleted_file_dentry] before it was deleted. *)
Definition in_use_file_dentry : FATFS_DENTRY :=
  dentry_of [0x85; 2; 0x34; 0x12; 0x20; 0; 7; 9].

(** ** The assertions *)

(** What the handlers assert of the accumulator, in the driver: the
    capacity of the name is the capacity that the driver asked for, and
    the file system is the file system of the driver. *)
Definition asserted_inv (h : tsk_exfatfs_h) (f : FATFS_INFO)
  (s : parse_state) : Prop :=
  name_size (fs_name (name_info s)) = EXFATFS_MAX_NAME_LEN_UTF8 h
  /\ fatfs (name_info s) = f.

(** ** The name that a name entry leaves pending *)

(** The name buffer after the handler of name entries has dealt with the
    characters of the entry (lines 371-390): the buffer that the
    converter left, terminated at the new length when the conversion
    succeeded and at the old one when it failed; the buffer as it was
    when the characters do not fit. *)
Definition name_after_fragment (h : tsk_exfatfs_h)
  (fatfs_utf16_inode_str_2_utf8 :
     FATFS_INFO -> list Z -> Z -> list Z -> Z -> Z ->
     TSKConversionResult * list Z)
  (i : EXFATFS_FS_NAME_INFO) (d : FATFS_DENTRY) (inum : Z) : list Z :=
  if name_chars_fit h i then
    let (result, dest) :=
      name_conversion h fatfs_utf16_inode_str_2_utf8 i d inum in
    match result with
    | TSKconversionOK =>
        store dest (uint8 (actual_name_length i + num_chars_to_copy h i)) 0
    | _ => store dest (actual_name_length i) 0
    end
  else name (fs_name i).

(** * Properties *)

(** ** Arithmetic of the check sum *)

Lemma shifts_disjoint (c : Z) :
  0 <= c < 2 ^ 16 -> Z.land (Z.shiftl c 15) (Z.shiftr c 1) = 0.
Proof.
  intros Hc. apply Z.bits_inj'. intros n Hn.
  rewrite Z.land_spec, Z.bits_0.
  destruct (Z.lt_ge_cases n 15) as [Hlt | Hge].
  - rewrite Z.shiftl_spec_low by lia. reflexivity.
  - rewrite Z.shiftr_spec by lia.
    assert (Z.testbit c (n + 1) = false) as ->.
    { destruct (Z.eq_dec c 0) as [-> | Hnz]; [apply Z.bits_0 |].
      apply Z.bits_above_log2; [lia |].
      apply Z.log2_lt_pow2; [lia |].
      apply Z.lt_le_trans with (2 ^ 16); [lia |].
      apply Z.pow_le_mono_r; lia. }
    apply andb_false_r.
Qed.

Lemma rotate_step (c b : Z) :
  0 <= c < 2 ^ 16 ->
  uint16 (Z.lor (Z.shiftl c 15) (Z.shiftr c 1) + b) = spec_fold c b.
Proof.
  intros Hc. unfold uint16, spec_fold, rotr16.
  pose proof (Z.add_lor_land (Z.shiftl c 15) (Z.shiftr c 1)) as Hadd.
  rewrite shifts_disjoint in Hadd by assumption.
  rewrite Z.add_0_r in Hadd. rewrite Hadd.
  rewrite Z.shiftl_mul_pow2, Z.shiftr_div_pow2 by lia.
  change (2 ^ 1) with 2. change (2 ^ (16 - 1)) with (2 ^ 15).
  rewrite (Z.div_mod c 2) at 1 by lia.
  replace ((2 * (c / 2) + c mod 2) * 2 ^ 15 + c / 2 + b)
    with (c / 2 + c mod 2 * 2 ^ 15 + b + (c / 2) * 2 ^ 16) by lia.
  apply Z.mod_add. lia.
Qed.

Lemma rotr16_1_rotl16_15 (c : Z) : rotr16 c 1 = rotl16 c 15.
Proof.
  unfold rotr16, rotl16.
  change (2 ^ (16 - 15)) with (2 ^ 1). change (2 ^ (16 - 1)) with (2 ^ 15).
  change (2 ^ 16) with (2 ^ 1 * 2 ^ 15).
  rewrite Z.mul_mod_distr_r by lia. lia.
Qed.

Lemma spec_fold_range (c b : Z) : 0 <= spec_fold c b < 2 ^ 16.
Proof. unfold spec_fold. apply Z.mod_pos_bound. lia. Qed.

Lemma data_at_byte (d : FATFS_DENTRY) (i : Z) :
  Forall is_byte (data d) -> is_byte (data_at d i).
Proof.
  intros Hd. unfold data_at.
  destruct (nth_in_or_default (Z.to_nat i) (data d) 0) as [Hin | ->].
  - rewrite Forall_forall in Hd. auto.
  - unfold is_byte. lia.
Qed.

Lemma uint16_byte (z : Z) : is_byte z -> uint16 z = z.
Proof. unfold is_byte, uint16. intros Hz. apply Z.mod_small. lia. Qed.

(** The enumerators, one by one: they differ, and they are bytes. *)
Ltac tag_facts H :=
  let Hd := fresh "Hdistinct" in
  let Hb := fresh "Hbytes" in
  destruct H as [Hd Hb]; unfold dir_entry_types in Hd, Hb;
  repeat match type of Hd with
         | NoDup (_ :: _) =>
             let Hn := fresh "Hnotin" in
             apply NoDup_cons_iff in Hd; destruct Hd as [Hn Hd];
             simpl in Hn
         end;
  clear Hd;
  repeat match goal with
         | Hn : ~ (_ \/ _) |- _ =>
             let Hne := fresh "Hne" in
             apply Decidable.not_or in Hn; destruct Hn as [Hne Hn]
         | Hn : ~ False |- _ => clear Hn
         end;
  repeat match type of Hb with
         | Forall _ (_ :: _) =>
             let Hx := fresh "Hbyte" in
             apply Forall_cons_iff in Hb; destruct Hb as [Hx Hb];
             unfold is_byte in Hx
         end;
  clear Hb.

(** Decides the comparisons of enumerators in the goal. *)
Ltac tag_eqb :=
  repeat match goal with
         | |- context [?a =? ?a] => rewrite (Z.eqb_refl a)
         | |- context [?a =? ?b] =>
             let E := fresh "E" in
             destruct (Z.eqb_spec a b) as [E | E];
             [ exfalso; congruence | clear E ]
         end.

Lemma byte_to_add_spec (h : tsk_exfatfs_h) (d : FATFS_DENTRY) (i : Z) :
  tags_ok h -> Forall is_byte (data d) ->
  byte_to_add h (data_at d 0) d i =
  if i =? 0 then spec_folded_tag h (entry_type d) else data_at d i.
Proof.
  intros [_ Hb] Hd. unfold byte_to_add, spec_folded_tag, entry_type.
  pose proof (data_at_byte d 0 Hd) as H0.
  pose proof (data_at_byte d i Hd) as Hi.
  rewrite Forall_forall in Hb.
  assert (is_byte (EXFATFS_DIR_ENTRY_TYPE_FILE h)) as Hfile
    by (apply Hb; unfold dir_entry_types; simpl; tauto).
  assert (is_byte (EXFATFS_DIR_ENTRY_TYPE_FILE_STREAM h)) as Hstream
    by (apply Hb; unfold dir_entry_types; simpl; tauto).
  assert (is_byte (EXFATFS_DIR_ENTRY_TYPE_FILE_NAME h)) as Hname
    by (apply Hb; unfold dir_entry_types; simpl; tauto).
  repeat match goal with
         | |- context [if ?b then _ else _] => destruct b
         end; apply uint16_byte; assumption.
Qed.

Lemma checksum_loop_refines (h : tsk_exfatfs_h) (d : FATFS_DENTRY)
  (l : list Z) :
  tags_ok h -> Forall is_byte (data d) ->
  forall c, 0 <= c < 2 ^ 16 ->
  fold_left (checksum_loop_body h (data_at d 0) d) l c =
  fold_left spec_fold
    (map (fun i =>
            if i =? 0 then spec_folded_tag h (entry_type d)
            else data_at d i)
       (filter
          (fun i =>
             negb (spec_is_file_entry h (entry_type d)
                   && ((i =? 2) || (i =? 3)))) l)) c.
Proof.
  intros Hh Hd. induction l as [| i l IH]; intros c Hc.
  - reflexivity.
  - cbn [fold_left filter].
    unfold checksum_loop_body at 2.
    change ((data_at d 0 =? EXFATFS_DIR_ENTRY_TYPE_FILE h)
            || (data_at d 0 =? EXFATFS_DIR_ENTRY_TYPE_DELETED_FILE h))
      with (spec_is_file_entry h (entry_type d)).
    destruct (spec_is_file_entry h (entry_type d)
              && ((i =? 2) || (i =? 3))); cbn [negb map fold_left].
    + apply IH. assumption.
    + rewrite rotate_step by assumption.
      rewrite byte_to_add_spec by assumption.
      apply IH. apply spec_fold_range.
Qed.

(** ** C1: the check sum of an entry *)

(** C1. Applied to a 32-byte entry whose type is file, deleted file,
    stream, deleted stream, name or deleted name, the check sum update
    folds the bytes of the entry, in order, into the running 16-bit check
    sum, each by a rotation to the right by one bit (which is a rotation
    to the left by fifteen bits) followed by an addition modulo 2^16;
    the positions 2 and 3 are left out for a file or deleted file entry;
    at position 0 the tag of a deleted file, stream or name entry is
    replaced by the in-use tag, any other tag is folded as it is. Nothing
    else of the accumulator changes. *)
Theorem C1_checksum_update_folds_entry
  (h : tsk_exfatfs_h) (NDEBUG : bool) (a_name_info : EXFATFS_FS_NAME_INFO)
  (a_dentry : FATFS_DENTRY) :
  tags_ok h ->
  dentry_ok a_dentry ->
  checksum_dentry_type_asserted h (entry_type a_dentry) = true ->
  0 <= actual_check_sum a_name_info < 2 ^ 16 ->
  exfatfs_update_file_entry_set_checksum h NDEBUG a_name_info a_dentry =
    Ok (set_actual_check_sum
          (spec_checksum h (actual_check_sum a_name_info) a_dentry)
          a_name_info)
  /\ (forall c, rotr16 c 1 = rotl16 c 15)
  /\ (spec_is_file_entry h (entry_type a_dentry) = true ->
      spec_folded_positions h a_dentry
      = [0; 1; 4; 5; 6; 7; 8; 9; 10; 11; 12; 13; 14; 15; 16; 17; 18; 19;
         20; 21; 22; 23; 24; 25; 26; 27; 28; 29; 30; 31])
  /\ (spec_is_file_entry h (entry_type a_dentry) = false ->
      spec_folded_positions h a_dentry = upto 32).
Proof.
  intros Hh [Hlen Hbytes] Hty Hc. repeat split.
  - unfold exfatfs_update_file_entry_set_checksum.
    fold (entry_type a_dentry). unfold assert. rewrite Hty.
    unfold spec_checksum, spec_folded_bytes, spec_folded_positions.
    rewrite <- checksum_loop_refines by assumption.
    destruct NDEBUG; reflexivity.
  - apply rotr16_1_rotl16_15.
  - intros Hf. unfold spec_folded_positions. rewrite Hf. reflexivity.
  - intros Hf. unfold spec_folded_positions. rewrite Hf. reflexivity.
Qed.

Lemma exfat_h_tags_ok : tags_ok exfat_h.
Proof.
  split.
  - unfold dir_entry_types; simpl.
    repeat (apply NoDup_cons; [simpl; intuition lia |]). apply NoDup_nil.
  - unfold dir_entry_types; simpl.
    repeat (apply Forall_cons; [unfold is_byte; lia |]). apply Forall_nil.
Qed.

Lemma In_firstn (A : Type) (x : A) (l : list A) (n : nat) :
  In x (firstn n l) -> In x l.
Proof.
  revert n. induction l as [| y l IH]; intros [| n]; simpl; try tauto.
  intros [-> | Hx]; [now left | right; eauto].
Qed.

Lemma dentry_of_ok (l : list Z) :
  Forall is_byte l -> dentry_ok (dentry_of l).
Proof.
  intros Hl. unfold dentry_ok, dentry_of; cbn [data]. split.
  - rewrite length_firstn, length_app, repeat_length. lia.
  - apply Forall_forall. intros x Hx. apply In_firstn in Hx.
    apply in_app_or in Hx. destruct Hx as [Hin | Hin].
    + rewrite Forall_forall in Hl. auto.
    + apply repeat_spec in Hin. subst. unfold is_byte. lia.
Qed.

Lemma C1_checksum_update_folds_entry_witness :
  exfatfs_update_file_entry_set_checksum exfat_h false name_info0
    deleted_file_dentry
  = Ok (set_actual_check_sum
          (spec_checksum exfat_h 0 deleted_file_dentry) name_info0).
Proof.
  apply (C1_checksum_update_folds_entry exfat_h false name_info0
           deleted_file_dentry).
  - exact exfat_h_tags_ok.
  - apply dentry_of_ok.
    repeat (apply Forall_cons; [unfold is_byte; lia |]). apply Forall_nil.
  - reflexivity.
  - simpl. lia.
Defined.


(** Reduces the projections of the records and the assignments to their
    fields, and nothing else. *)
Ltac fields :=
  cbn [fatfs sector_is_allocated last_dentry_type
       expected_secondary_entry_count actual_secondary_entry_count
       expected_check_sum actual_check_sum expected_name_length
       actual_name_length fs_name fs_dir
       name name_size meta_addr type flags names
       set_name set_meta_addr set_type set_flags
       set_sector_is_allocated set_last_dentry_type
       set_expected_secondary_entry_count set_actual_secondary_entry_count
       set_expected_check_sum set_actual_check_sum
       set_expected_name_length set_actual_name_length
       set_fs_name set_fs_dir tsk_fs_dir_add
       name_info dentry entries_count invalid_entries_count is_corrupt_dir
       tsk_errno fs_name_live classifier_calls
       set_name_info set_dentry set_entries_count
       set_invalid_entries_count set_is_corrupt_dir set_tsk_errno
       tsk_fs_name_free record_classifier_call
       call_sector_is_allocated call_hint call_result
       retval result_errno result_dir result_leak result_of
       bind] in *.

(** ** The finalizer *)

Lemma strlen_store_0 (buf : list Z) : strlen (store buf 0 0) = 0.
Proof. destruct buf; reflexivity. Qed.

Lemma strlen_0_store (buf : list Z) :
  strlen buf = 0 -> store buf 0 0 = buf.
Proof.
  destruct buf as [| b t]; [reflexivity |].
  unfold strlen, store; simpl.
  destruct (Z.eqb_spec b 0) as [-> | Hb]; [reflexivity | lia].
Qed.

Lemma assert_true (NDEBUG : bool) (e : bool) :
  e = true -> assert NDEBUG e = Ok tt.
Proof. intros ->. destruct NDEBUG; reflexivity. Qed.

(** The state that the reset leaves. *)
Lemma reset_ok (h : tsk_exfatfs_h) (NDEBUG : bool)
  (i : EXFATFS_FS_NAME_INFO) :
  name_size_asserted h i = true ->
  exists i',
    exfatfs_reset_name_info h NDEBUG i = Ok i'
    /\ closed h i'
    /\ fs_dir i' = fs_dir i
    /\ fatfs i' = fatfs i
    /\ sector_is_allocated i' = sector_is_allocated i
    /\ name_size (fs_name i') = name_size (fs_name i)
    /\ name (fs_name i') = store (name (fs_name i)) 0 0.
Proof.
  intros Hsz. unfold exfatfs_reset_name_info.
  rewrite (assert_true _ _ Hsz). fields.
  eexists. split; [reflexivity |].
  unfold closed. fields. rewrite strlen_store_0. intuition reflexivity.
Qed.

(** The state that a finalization leaves. *)
Lemma finalize_ok (h : tsk_exfatfs_h) (NDEBUG : bool)
  (i : EXFATFS_FS_NAME_INFO) :
  name_size_asserted h i = true ->
  exists i',
    exfatfs_add_name_to_dir_and_reset_info h NDEBUG i = Ok i'
    /\ closed h i'
    /\ names (fs_dir i') = names (fs_dir i) ++ emitted_by_finalize i
    /\ fatfs i' = fatfs i
    /\ sector_is_allocated i' = sector_is_allocated i
    /\ name_size (fs_name i') = name_size (fs_name i)
    /\ name (fs_name i') = store (name (fs_name i)) 0 0.
Proof.
  intros Hsz.
  unfold exfatfs_add_name_to_dir_and_reset_info.
  rewrite (assert_true _ _ Hsz). fields.
  unfold emitted_by_finalize, pending_nonempty.
  destruct (strlen (name (fs_name i)) >? 0).
  - destruct (reset_ok h NDEBUG
                (set_fs_dir (tsk_fs_dir_add (fs_dir i) (fs_name i)) i) Hsz)
      as (i' & Hrun & Hc & Hdir & Hf & Hs & Hn & Hb).
    exists i'. rewrite Hdir. fields. auto 10.
  - destruct (reset_ok h NDEBUG i Hsz)
      as (i' & Hrun & Hc & Hdir & Hf & Hs & Hn & Hb).
    exists i'. rewrite Hdir, app_nil_r. auto 10.
Qed.

Lemma finalize_closed (h : tsk_exfatfs_h) (NDEBUG : bool)
  (i : EXFATFS_FS_NAME_INFO) :
  name_size_asserted h i = true -> closed h i ->
  exfatfs_add_name_to_dir_and_reset_info h NDEBUG i = Ok i.
Proof.
  intros Hsz Hc.
  unfold exfatfs_add_name_to_dir_and_reset_info, exfatfs_reset_name_info.
  rewrite (assert_true _ _ Hsz). fields.
  destruct Hc as (H1 & H2 & H3 & H4 & H5 & H6 & H7 & H8 & H9 & H10 & H11).
  rewrite H8. cbn [Z.gtb Z.compare].
  rewrite (assert_true _ _ Hsz). fields.
  rewrite (strlen_0_store _ H8).
  destruct i as [f sa l es acs ec ac en an [nm nsz ma ty fl] dir].
  fields. subst. reflexivity.
Qed.

Lemma set_fs_dir_same (i : EXFATFS_FS_NAME_INFO) : set_fs_dir (fs_dir i) i = i.
Proof. destruct i; reflexivity. Qed.

(** The finalization is a reset of the accumulator, whatever it emits. *)
Lemma finalize_resets (h : tsk_exfatfs_h) (NDEBUG : bool)
  (i i' : EXFATFS_FS_NAME_INFO) :
  name_size_asserted h i = true ->
  exfatfs_add_name_to_dir_and_reset_info h NDEBUG i = Ok i' ->
  exfatfs_reset_name_info h NDEBUG (set_fs_dir (fs_dir i') i) = Ok i'.
Proof.
  intros Hsz. unfold exfatfs_add_name_to_dir_and_reset_info.
  rewrite (assert_true _ _ Hsz). fields.
  destruct (strlen (name (fs_name i)) >? 0); intros Hrun.
  - destruct (reset_ok h NDEBUG
                (set_fs_dir (tsk_fs_dir_add (fs_dir i) (fs_name i)) i) Hsz)
      as (i2 & Hrun2 & _ & Hdir & _).
    rewrite Hrun in Hrun2. injection Hrun2 as <-.
    rewrite Hdir. exact Hrun.
  - destruct (reset_ok h NDEBUG i Hsz) as (i2 & Hrun2 & _ & Hdir & _).
    rewrite Hrun in Hrun2. injection Hrun2 as <-.
    rewrite Hdir, set_fs_dir_same. exact Hrun.
Qed.

(** ** C7: finalize and reset *)

(** C7. The finalization hands a record to the sink if and only if the
    pending name is not empty (one record, the pending name; none for an
    empty name) and then resets the accumulator whatever the name was;
    on a closed accumulator it is a no-op, which emits nothing and does
    not fail; doing it twice is doing it once. *)
Theorem C7_finalize_emits_nonempty_and_resets
  (h : tsk_exfatfs_h) (NDEBUG : bool) (i : EXFATFS_FS_NAME_INFO) :
  name_size_asserted h i = true ->
  (exists i',
     exfatfs_add_name_to_dir_and_reset_info h NDEBUG i = Ok i'
     /\ names (fs_dir i')
        = names (fs_dir i)
          ++ (if strlen (name (fs_name i)) >? 0 then [fs_name i] else [])
     /\ (names (fs_dir i') <> names (fs_dir i)
         <-> strlen (name (fs_name i)) > 0)
     /\ closed h i'
     /\ exfatfs_reset_name_info h NDEBUG (set_fs_dir (fs_dir i') i) = Ok i'
     /\ exfatfs_add_name_to_dir_and_reset_info h NDEBUG i' = Ok i')
  /\ (closed h i ->
      exfatfs_add_name_to_dir_and_reset_info h NDEBUG i = Ok i)
  /\ (i' <- exfatfs_add_name_to_dir_and_reset_info h NDEBUG i ;;
      exfatfs_add_name_to_dir_and_reset_info h NDEBUG i')
     = exfatfs_add_name_to_dir_and_reset_info h NDEBUG i.
Proof.
  intros Hsz.
  destruct (finalize_ok h NDEBUG i Hsz)
    as (i' & Hrun & Hclosed & Hnames & _ & _ & Hsz' & _).
  assert (name_size_asserted h i' = true) as Hsz''.
  { unfold name_size_asserted in *. rewrite Hsz'. exact Hsz. }
  pose proof (finalize_closed h NDEBUG i' Hsz'' Hclosed) as Hagain.
  unfold emitted_by_finalize, pending_nonempty in Hnames.
  split; [| split].
  - exists i'. split; [exact Hrun |]. split; [exact Hnames |].
    split; [split |].
    + intros Hne.
      destruct (strlen (name (fs_name i)) >? 0) eqn:Hs; [lia |].
      rewrite app_nil_r in Hnames. contradiction.
    + intros Hs Heq. rewrite Hnames in Heq.
      destruct (Z.gtb_spec (strlen (name (fs_name i))) 0); [| lia].
      apply (f_equal (@length _)) in Heq.
      rewrite length_app in Heq. cbn [length] in Heq. lia.
    + split; [exact Hclosed |]. split; [| exact Hagain].
      apply finalize_resets; assumption.
  - intros Hc. apply finalize_closed; assumption.
  - rewrite Hrun. fields. exact Hagain.
Qed.

Lemma C7_finalize_emits_nonempty_and_resets_witness :
  (i' <- exfatfs_add_name_to_dir_and_reset_info exfat_h false name_info_A ;;
   exfatfs_add_name_to_dir_and_reset_info exfat_h false i')
  = exfatfs_add_name_to_dir_and_reset_info exfat_h false name_info_A.
Proof.
  apply (C7_finalize_emits_nonempty_and_resets exfat_h false name_info_A).
  reflexivity.
Defined.

(** ** The file entry *)

Lemma andb3_true (a b c : bool) :
  a && b && c = true -> a = true /\ b = true /\ c = true.
Proof. destruct a, b, c; simpl; intuition congruence. Qed.

(** What the handler of file entries leaves. *)
Lemma file_dentry_ok (h : tsk_exfatfs_h) (NDEBUG : bool)
  (i : EXFATFS_FS_NAME_INFO) (d : FATFS_DENTRY) (inum : Z) :
  file_dentry_asserted h i d inum = true ->
  exists i',
    exfats_parse_file_dentry h NDEBUG i d inum = Ok i'
    /\ flags (fs_name i')
       = (if negb (sector_is_allocated i =? 0)
             && (entry_type d =? EXFATFS_DIR_ENTRY_TYPE_FILE h)
          then TSK_FS_NAME_FLAG_ALLOC else TSK_FS_NAME_FLAG_UNALLOC)
    /\ last_dentry_type i' = entry_type d
    /\ expected_secondary_entry_count i'
       = data_at d (OFFSET_secondary_entries_count h)
    /\ actual_secondary_entry_count i' = 0
    /\ meta_addr (fs_name i') = inum
    /\ strlen (name (fs_name i')) = 0
    /\ names (fs_dir i') = names (fs_dir i) ++ emitted_by_finalize i
    /\ name_size (fs_name i') = name_size (fs_name i)
    /\ sector_is_allocated i' = sector_is_allocated i
    /\ fatfs i' = fatfs i.
Proof.
  intros Hassert. unfold exfats_parse_file_dentry.
  rewrite (assert_true _ _ Hassert). fields.
  apply andb3_true in Hassert. destruct Hassert as (Hsz & Hty & Hin).
  destruct (finalize_ok h NDEBUG i Hsz)
    as (i1 & Hrun & Hclosed & Hnames & Hfat & Hsect & Hsz1 & _).
  rewrite Hrun. fields.
  destruct Hclosed as (_ & _ & H3 & _ & _ & _ & _ & H8 & _).
  unfold exfatfs_update_file_entry_set_checksum.
  assert (checksum_dentry_type_asserted h (data_at d 0) = true) as Hck.
  { unfold checksum_dentry_type_asserted. fold (entry_type d).
    rewrite Hty. reflexivity. }
  rewrite (assert_true _ _ Hck). fields.
  eexists. split; [reflexivity |].
  destruct (Z.land (data_at d (OFFSET_attrs h)) (FATFS_ATTR_DIRECTORY h)
            =? 0);
    cbn [negb]; fields; rewrite Hsect;
    destruct (negb (sector_is_allocated i =? 0)
              && (entry_type d =? EXFATFS_DIR_ENTRY_TYPE_FILE h));
    fields; auto 12.
Qed.

(** ** C3: the allocation flag of a file entry *)


(** ** C2: a secondary entry whose in-use variant differs *)

Lemma stream_mismatch_tests (h : tsk_exfatfs_h)
  (i : EXFATFS_FS_NAME_INFO) (d : FATFS_DENTRY) :
  tags_ok h ->
  (entry_type d = EXFATFS_DIR_ENTRY_TYPE_FILE_STREAM h
   \/ entry_type d = EXFATFS_DIR_ENTRY_TYPE_DELETED_FILE_STREAM h) ->
  (last_dentry_type i = EXFATFS_DIR_ENTRY_TYPE_FILE h
   \/ last_dentry_type i = EXFATFS_DIR_ENTRY_TYPE_DELETED_FILE h) ->
  stream_out_of_sequence h i = false
  /\ (stream_in_use_mismatch h i d = true
      <-> spec_in_use_variant h (last_dentry_type i)
          <> spec_in_use_variant h (entry_type d)).
Proof.
  intros Hh Hty Hlast. tag_facts Hh.
  unfold stream_out_of_sequence, stream_in_use_mismatch,
    spec_in_use_variant.
  destruct Hty as [-> | ->], Hlast as [-> | ->]; tag_eqb; cbn;
    (split; [reflexivity |]); split; intros H;
    first [ reflexivity | discriminate | exfalso; apply H; reflexivity ].
Qed.

Lemma name_mismatch_tests (h : tsk_exfatfs_h)
  (i : EXFATFS_FS_NAME_INFO) (d : FATFS_DENTRY) :
  tags_ok h ->
  (entry_type d = EXFATFS_DIR_ENTRY_TYPE_FILE_NAME h
   \/ entry_type d = EXFATFS_DIR_ENTRY_TYPE_DELETED_FILE_NAME h) ->
  (last_dentry_type i = EXFATFS_DIR_ENTRY_TYPE_FILE_STREAM h
   \/ last_dentry_type i = EXFATFS_DIR_ENTRY_TYPE_DELETED_FILE_STREAM h
   \/ last_dentry_type i = EXFATFS_DIR_ENTRY_TYPE_FILE_NAME h
   \/ last_dentry_type i = EXFATFS_DIR_ENTRY_TYPE_DELETED_FILE_NAME h) ->
  name_out_of_sequence h i = false
  /\ (name_in_use_mismatch h i d = true
      <-> spec_in_use_variant h (last_dentry_type i)
          <> spec_in_use_variant h (entry_type d)).
Proof.
  intros Hh Hty Hlast. tag_facts Hh.
  unfold name_out_of_sequence, name_in_use_mismatch, spec_in_use_variant.
  destruct Hty as [-> | ->], Hlast as [-> | [-> | [-> | ->]]];
    tag_eqb; cbn;
    (split; [reflexivity |]); split; intros H;
    first [ reflexivity | discriminate | exfalso; apply H; reflexivity ].
Qed.

Lemma andb3_intro (a b c : bool) :
  a = true -> b = true -> c = true -> a && b && c = true.
Proof. intros -> -> ->. reflexivity. Qed.

Lemma orb_eqb_intro (x a b : Z) :
  x = a \/ x = b -> (x =? a) || (x =? b) = true.
Proof.
  intros [-> | ->]; rewrite Z.eqb_refl; [reflexivity | apply orb_true_r].
Qed.

Lemma count_secondary_entry_ok (h : tsk_exfatfs_h) (NDEBUG : bool)
  (i : EXFATFS_FS_NAME_INFO) :
  name_size_asserted h i = true ->
  exists i',
    count_secondary_entry h NDEBUG i = Ok i'
    /\ (uint8 (actual_secondary_entry_count i + 1)
        = expected_secondary_entry_count i ->
        closed h i'
        /\ names (fs_dir i') = names (fs_dir i) ++ emitted_by_finalize i)
    /\ (uint8 (actual_secondary_entry_count i + 1)
        <> expected_secondary_entry_count i ->
        i' = set_actual_secondary_entry_count
               (uint8 (actual_secondary_entry_count i + 1)) i).
Proof.
  intros Hsz. unfold count_secondary_entry. fields.
  destruct (Z.eqb_spec (uint8 (actual_secondary_entry_count i + 1))
              (expected_secondary_entry_count i)) as [Heq | Hne].
  - destruct (finalize_ok h NDEBUG
                (set_actual_secondary_entry_count
                   (uint8 (actual_secondary_entry_count i + 1)) i) Hsz)
      as (i' & Hrun & Hclosed & Hnames & _).
    exists i'. split; [exact Hrun |]. split; [| contradiction].
    intros _. split; [exact Hclosed | exact Hnames].
  - eexists. split; [reflexivity |]. split; [contradiction | reflexivity].
Qed.

Lemma finalize_result_closed (h : tsk_exfatfs_h) (NDEBUG : bool)
  (i i' : EXFATFS_FS_NAME_INFO) :
  name_size_asserted h i = true ->
  exfatfs_add_name_to_dir_and_reset_info h NDEBUG i = Ok i' ->
  closed h i'.
Proof.
  intros Hsz Hrun.
  destruct (finalize_ok h NDEBUG i Hsz) as (i2 & Hrun2 & Hclosed & _).
  rewrite Hrun in Hrun2. injection Hrun2 as <-. exact Hclosed.
Qed.

Lemma closed_name_empty (h : tsk_exfatfs_h) (i : EXFATFS_FS_NAME_INFO) :
  closed h i -> strlen (name (fs_name i)) = 0.
Proof. intros (_ & _ & _ & _ & _ & _ & _ & H & _). exact H. Qed.

(** The handler of stream entries stores no character of a name. *)
Lemma file_stream_dentry_keeps_empty_name (h : tsk_exfatfs_h)
  (NDEBUG : bool) (i i' : EXFATFS_FS_NAME_INFO) (d : FATFS_DENTRY)
  (inum : Z) :
  file_stream_dentry_asserted h i d inum = true ->
  exfats_parse_file_stream_dentry h NDEBUG i d inum = Ok i' ->
  strlen (name (fs_name i)) = 0 ->
  strlen (name (fs_name i')) = 0.
Proof.
  intros Hassert. unfold exfats_parse_file_stream_dentry.
  rewrite (assert_true _ _ Hassert). fields.
  apply andb3_true in Hassert. destruct Hassert as (Hsz & Hty & Hin).
  destruct (stream_out_of_sequence h i).
  { intros Hrun _.
    apply closed_name_empty with h.
    apply (finalize_result_closed h NDEBUG i i' Hsz Hrun). }
  destruct (stream_in_use_mismatch h i d).
  { intros Hrun _.
    apply closed_name_empty with h.
    apply (finalize_result_closed h NDEBUG i i' Hsz Hrun). }
  unfold exfatfs_update_file_entry_set_checksum.
  rewrite assert_true
    by (unfold checksum_dentry_type_asserted; fold (entry_type d);
        apply orb_true_iff in Hty; destruct Hty as [-> | ->];
        repeat rewrite orb_true_r; reflexivity).
  fields.
  match goal with
  | |- count_secondary_entry _ _ ?x = _ -> _ =>
      destruct (count_secondary_entry_ok h NDEBUG x Hsz)
        as (i2 & Hrun2 & Hfire & Hstay)
  end.
  fields. intros Hrun Hempty.
  rewrite Hrun in Hrun2. injection Hrun2 as <-.
  destruct (Z.eq_dec (uint8 (actual_secondary_entry_count i + 1))
              (expected_secondary_entry_count i)) as [Heq | Hne].
  - apply closed_name_empty with h. apply (Hfire Heq).
  - rewrite (Hstay Hne). fields. exact Hempty.
Qed.

(** When the inode address of the entry is in range and the handler of
    the selected case returns, the iteration of the driver ends with the
    accumulator that the handler left and goes on to the next entry. *)
Lemma dentry_loop_body_secondary (h : tsk_exfatfs_h) (NDEBUG : bool)
  (dec : FATFS_INFO -> list Z -> Z -> list Z -> Z -> Z ->
         TSKConversionResult * list Z)
  (cls : FATFS_INFO -> FATFS_DENTRY -> bool -> Z)
  (a_fatfs : FATFS_INFO) (a_buf : list FATFS_DENTRY)
  (base : Z) (s : parse_state) (idx : Z) (i' : EXFATFS_FS_NAME_INFO) :
  fatfs_is_inum_in_range a_fatfs (uint64 (base + idx)) = true ->
  (select_case h
     (cls a_fatfs (current_dentry_of a_buf s) (classifier_hint s))
   = CaseFileStream
   /\ exfats_parse_file_stream_dentry h NDEBUG (name_info s)
        (current_dentry_of a_buf s) (uint64 (base + idx)) = Ok i')
  \/ (select_case h
        (cls a_fatfs (current_dentry_of a_buf s) (classifier_hint s))
      = CaseFileName
      /\ exfats_parse_file_name_dentry h NDEBUG dec (name_info s)
           (current_dentry_of a_buf s) (uint64 (base + idx)) = Ok i') ->
  exists s',
    dentry_loop_body h NDEBUG dec cls a_fatfs a_buf base s idx
    = Ok (Continue s')
    /\ name_info s' = i'
    /\ dentry s' = dentry s + 1.
Proof.
  intros Hin Hcase. unfold dentry_loop_body. rewrite Hin. cbn [negb].
  change (classifier_hint (set_entries_count (entries_count s + 1) s))
    with (classifier_hint s).
  change (current_dentry_of a_buf
            (set_entries_count (entries_count s + 1) s))
    with (current_dentry_of a_buf s).
  destruct Hcase as [[-> Hrun] | [-> Hrun]]; fields; rewrite Hrun;
    fields; eexists; (split; [reflexivity |]); fields; split; reflexivity.
Qed.

(** C2 (amended). A stream or name entry that is in sequence but whose
    in-use variant differs from the variant of the entry before it closes
    the set: the handler finalizes, so the name assembled so far is
    handed to the sink as one record if it is not empty, and no record is
    emitted if it is empty (as it is when only the file entry, or the file
    and stream entries, of the set were seen); the accumulator is reset,
    the entry itself adds nothing to it, the handler returns without a
    failure and the driver goes on to the next entry. *)
Theorem C2_in_use_mismatch_finalizes_set
  (h : tsk_exfatfs_h) (NDEBUG : bool)
  (fatfs_utf16_inode_str_2_utf8 :
     FATFS_INFO -> list Z -> Z -> list Z -> Z -> Z ->
     TSKConversionResult * list Z)
  (i : EXFATFS_FS_NAME_INFO) (d : FATFS_DENTRY) (inum : Z) :
  tags_ok h ->
  name_size_asserted h i = true ->
  fatfs_is_inum_in_range (fatfs i) inum = true ->
  spec_in_use_variant h (last_dentry_type i)
    <> spec_in_use_variant h (entry_type d) ->
  (entry_type d = EXFATFS_DIR_ENTRY_TYPE_FILE_STREAM h
   \/ entry_type d = EXFATFS_DIR_ENTRY_TYPE_DELETED_FILE_STREAM h ->
   last_dentry_type i = EXFATFS_DIR_ENTRY_TYPE_FILE h
   \/ last_dentry_type i = EXFATFS_DIR_ENTRY_TYPE_DELETED_FILE h ->
   exists i',
     exfats_parse_file_stream_dentry h NDEBUG i d inum = Ok i'
     /\ closed h i'
     /\ names (fs_dir i')
        = names (fs_dir i)
          ++ (if strlen (name (fs_name i)) >? 0 then [fs_name i] else [])
     /\ (forall i0 d0 inum0,
           file_dentry_asserted h i0 d0 inum0 = true ->
           exfats_parse_file_dentry h NDEBUG i0 d0 inum0 = Ok i ->
           names (fs_dir i') = names (fs_dir i)))
  /\ (entry_type d = EXFATFS_DIR_ENTRY_TYPE_FILE_NAME h
      \/ entry_type d = EXFATFS_DIR_ENTRY_TYPE_DELETED_FILE_NAME h ->
      last_dentry_type i = EXFATFS_DIR_ENTRY_TYPE_FILE_STREAM h
      \/ last_dentry_type i = EXFATFS_DIR_ENTRY_TYPE_DELETED_FILE_STREAM h
      \/ last_dentry_type i = EXFATFS_DIR_ENTRY_TYPE_FILE_NAME h
      \/ last_dentry_type i = EXFATFS_DIR_ENTRY_TYPE_DELETED_FILE_NAME h ->
      exists i',
        exfats_parse_file_name_dentry h NDEBUG fatfs_utf16_inode_str_2_utf8
          i d inum = Ok i'
        /\ closed h i'
        /\ names (fs_dir i')
           = names (fs_dir i)
             ++ (if strlen (name (fs_name i)) >? 0
                 then [fs_name i] else [])
        /\ (forall i0 d0 inum0 i1 d1 inum1,
              file_dentry_asserted h i0 d0 inum0 = true ->
              exfats_parse_file_dentry h NDEBUG i0 d0 inum0 = Ok i1 ->
              file_stream_dentry_asserted h i1 d1 inum1 = true ->
              exfats_parse_file_stream_dentry h NDEBUG i1 d1 inum1 = Ok i ->
              names (fs_dir i') = names (fs_dir i)))
  /\ (forall exfatfs_is_dentry a_fatfs a_buf base s idx i',
        name_info s = i ->
        current_dentry_of a_buf s = d ->
        uint64 (base + idx) = inum ->
        fatfs_is_inum_in_range a_fatfs inum = true ->
        (select_case h
           (exfatfs_is_dentry a_fatfs d (classifier_hint s))
         = CaseFileStream
         /\ exfats_parse_file_stream_dentry h NDEBUG i d inum = Ok i')
        \/ (select_case h
              (exfatfs_is_dentry a_fatfs d (classifier_hint s))
            = CaseFileName
            /\ exfats_parse_file_name_dentry h NDEBUG
                 fatfs_utf16_inode_str_2_utf8 i d inum = Ok i') ->
        exists s',
          dentry_loop_body h NDEBUG fatfs_utf16_inode_str_2_utf8
            exfatfs_is_dentry a_fatfs a_buf base s idx = Ok (Continue s')
          /\ name_info s' = i'
          /\ dentry s' = dentry s + 1).
Proof.
  intros Hh Hsz Hin Hdiff.
  destruct (finalize_ok h NDEBUG i Hsz)
    as (i' & Hrun & Hclosed & Hnames & _).
  unfold emitted_by_finalize, pending_nonempty in Hnames.
  split; [| split].
  - intros Hty Hlast.
    destruct (stream_mismatch_tests h i d Hh Hty Hlast) as [Hseq Hmis].
    apply Hmis in Hdiff.
    exists i'. unfold exfats_parse_file_stream_dentry.
    rewrite assert_true
      by (apply andb3_intro; [exact Hsz | apply orb_eqb_intro, Hty
                              | exact Hin]).
    fields. rewrite Hseq, Hdiff.
    split; [exact Hrun |]. split; [exact Hclosed |].
    split; [exact Hnames |].
    intros i0 d0 inum0 Hassert0 Hrun0.
    destruct (file_dentry_ok h NDEBUG i0 d0 inum0 Hassert0)
      as (i1 & Hrun1 & _ & _ & _ & _ & _ & Hempty & _).
    rewrite Hrun0 in Hrun1. injection Hrun1 as <-.
    rewrite Hnames, Hempty. apply app_nil_r.
  - intros Hty Hlast.
    destruct (name_mismatch_tests h i d Hh Hty Hlast) as [Hseq Hmis].
    apply Hmis in Hdiff.
    exists i'. unfold exfats_parse_file_name_dentry.
    rewrite assert_true
      by (apply andb3_intro; [exact Hsz | apply orb_eqb_intro, Hty
                              | exact Hin]).
    fields. rewrite Hseq, Hdiff.
    split; [exact Hrun |]. split; [exact Hclosed |].
    split; [exact Hnames |].
    intros i0 d0 inum0 i1 d1 inum1 Hassert0 Hrun0 Hassert1 Hrun1.
    destruct (file_dentry_ok h NDEBUG i0 d0 inum0 Hassert0)
      as (i1' & Hrun0' & _ & _ & _ & _ & _ & Hempty & _).
    rewrite Hrun0 in Hrun0'. injection Hrun0' as <-.
    pose proof (file_stream_dentry_keeps_empty_name h NDEBUG i1 i d1 inum1
                  Hassert1 Hrun1 Hempty) as Hempty'.
    rewrite Hnames, Hempty'. apply app_nil_r.
  - intros cls a_fatfs a_buf base s idx i2 Hi Hd Hinum Hin' Hcase.
    subst i d inum.
    apply dentry_loop_body_secondary; assumption.
Qed.

Lemma C2_in_use_mismatch_finalizes_set_witness :
  exists i',
    exfats_parse_file_stream_dentry exfat_h false name_info_after_file
      deleted_stream_dentry_20 4 = Ok i'
    /\ closed exfat_h i'
    /\ names (fs_dir i') = [].
Proof.
  destruct (C2_in_use_mismatch_finalizes_set exfat_h false ascii_decoder
              name_info_after_file deleted_stream_dentry_20 4
              exfat_h_tags_ok eq_refl eq_refl) as [Hstream _].
  - vm_compute. discriminate.
  - destruct Hstream as (i' & Hrun & Hclosed & Hnames & _).
    + right. reflexivity.
    + left. reflexivity.
    + exists i'. auto.
Defined.

(** The claim as the specification states it fails: the file entry, the
    stream entry and the in-use name entry [ABCDEFGHIJKLMNO] leave the
    sink empty and the set open; the deleted name entry that follows
    differs in its in-use variant, and the handler emits the name
    assembled so far. The whole parse of a sector that starts with these
    four entries ends with that one record in the directory. *)
Lemma C2_counterexample_mismatch_emits_partial_name :
  exists i3 i4 r,
    (i1 <- exfats_parse_file_dentry exfat_h false name_info0
             file_dentry_3 3 ;;
     i2 <- exfats_parse_file_stream_dentry exfat_h false i1
             stream_dentry_20 4 ;;
     exfats_parse_file_name_dentry exfat_h false ascii_decoder i2
       name_dentry_AO 5) = Ok i3
    /\ names (fs_dir i3) = []
    /\ spec_in_use_variant exfat_h (last_dentry_type i3) = Some true
    /\ spec_in_use_variant exfat_h (entry_type deleted_name_dentry_PT)
       = Some false
    /\ exfats_parse_file_name_dentry exfat_h false ascii_decoder i3
         deleted_name_dentry_PT 6 = Ok i4
    /\ dir_strings (fs_dir i4)
       = [[65; 66; 67; 68; 69; 70; 71; 72; 73; 74; 75; 76; 77; 78; 79]]
    /\ exfatfs_dent_parse_buf exfat_h false ascii_decoder
         (tag_classifier exfat_h) sectalloc_all sect_2_inode16
         name_alloc_ok (Some fatfs0) (Some {| names := [] |})
         (Some mismatch_buf) 512 (Some [0]) = Ok r
    /\ retval r = TSK_OK
    /\ option_map dir_strings (result_dir r)
       = Some [[65; 66; 67; 68; 69; 70; 71; 72; 73; 74; 75; 76; 77; 78;
                79]].
Proof.
  eexists. eexists. eexists.
  split; [vm_compute; reflexivity |].
  split; [reflexivity |].
  split; [reflexivity |].
  split; [reflexivity |].
  split; [vm_compute; reflexivity |].
  split; [reflexivity |].
  split; [vm_compute; reflexivity |].
  split; reflexivity.
Qed.

(** ** C10: the count of secondary entries *)

Lemma set_name_same (n : TSK_FS_NAME) : set_name (name n) n = n.
Proof. destruct n. reflexivity. Qed.

Lemma set_fs_name_same (i : EXFATFS_FS_NAME_INFO) :
  set_fs_name (fs_name i) i = i.
Proof. destruct i. reflexivity. Qed.

Lemma closed_last (h : tsk_exfatfs_h) (i : EXFATFS_FS_NAME_INFO) :
  closed h i -> last_dentry_type i = EXFATFS_DIR_ENTRY_TYPE_NONE h.
Proof. intros [H _]. exact H. Qed.

(** C10 (amended). The finalization by the count of secondary entries
    fires exactly when, after a stream or name entry is accepted, the
    observed count incremented modulo 256 (it is a [uint8_t]) equals the
    declared count; when it fires the set is closed and the pending
    name, if it is not empty, is emitted. Otherwise the handler leaves
    the set open, keeps the pending name and emits nothing, but for a
    name entry whose conversion fails, which emits the name and closes
    the set too. While the observed count is at or above the declared
    one and below 255 the path does not fire; at 255 the increment wraps
    to 0 and the path fires if zero secondary entries were declared. A
    name left pending is emitted by what finalizes later: the finalizer,
    the handler of a file entry that opens the next set, the default
    case of the driver for an entry that the classifier did not type,
    or the finalization that the driver runs after its loops. *)
Theorem C10_count_path_fires_on_equality_mod_256
  (h : tsk_exfatfs_h) (NDEBUG : bool)
  (fatfs_utf16_inode_str_2_utf8 :
     FATFS_INFO -> list Z -> Z -> list Z -> Z -> Z ->
     TSKConversionResult * list Z)
  (i : EXFATFS_FS_NAME_INFO) (d : FATFS_DENTRY) (inum : Z) :
  tags_ok h ->
  name_size_asserted h i = true ->
  fatfs_is_inum_in_range (fatfs i) inum = true ->
  let incremented := uint8 (actual_secondary_entry_count i + 1) in
  (entry_type d = EXFATFS_DIR_ENTRY_TYPE_FILE_STREAM h
   \/ entry_type d = EXFATFS_DIR_ENTRY_TYPE_DELETED_FILE_STREAM h ->
   stream_out_of_sequence h i = false ->
   stream_in_use_mismatch h i d = false ->
   exists i',
     exfats_parse_file_stream_dentry h NDEBUG i d inum = Ok i'
     /\ (last_dentry_type i' = EXFATFS_DIR_ENTRY_TYPE_NONE h
         <-> incremented = expected_secondary_entry_count i)
     /\ (incremented = expected_secondary_entry_count i ->
         closed h i'
         /\ names (fs_dir i') = names (fs_dir i) ++ emitted_by_finalize i)
     /\ (incremented <> expected_secondary_entry_count i ->
         last_dentry_type i' = entry_type d
         /\ actual_secondary_entry_count i' = incremented
         /\ expected_secondary_entry_count i'
            = expected_secondary_entry_count i
         /\ fs_dir i' = fs_dir i
         /\ fs_name i' = fs_name i))
  /\ (entry_type d = EXFATFS_DIR_ENTRY_TYPE_FILE_NAME h
      \/ entry_type d = EXFATFS_DIR_ENTRY_TYPE_DELETED_FILE_NAME h ->
      name_out_of_sequence h i = false ->
      name_in_use_mismatch h i d = false ->
      let failed :=
        name_chars_fit h i
        && negb (conversion_ok
                   (fst (name_conversion h fatfs_utf16_inode_str_2_utf8
                           i d inum))) in
      let pending :=
        set_name
          (name_after_fragment h fatfs_utf16_inode_str_2_utf8 i d inum)
          (fs_name i) in
      exists i',
        exfats_parse_file_name_dentry h NDEBUG fatfs_utf16_inode_str_2_utf8
          i d inum = Ok i'
        /\ (last_dentry_type i' = EXFATFS_DIR_ENTRY_TYPE_NONE h
            <-> failed = true
                \/ incremented = expected_secondary_entry_count i)
        /\ (failed = true
            \/ incremented = expected_secondary_entry_count i ->
            closed h i'
            /\ names (fs_dir i')
               = names (fs_dir i)
                 ++ emitted_by_finalize (set_fs_name pending i))
        /\ (failed = false ->
            incremented <> expected_secondary_entry_count i ->
            last_dentry_type i' = entry_type d
            /\ actual_secondary_entry_count i' = incremented
            /\ expected_secondary_entry_count i'
               = expected_secondary_entry_count i
            /\ fs_dir i' = fs_dir i
            /\ fs_name i' = pending))
  /\ (0 <= expected_secondary_entry_count i < 256 ->
      0 <= actual_secondary_entry_count i < 256 ->
      (expected_secondary_entry_count i <= actual_secondary_entry_count i ->
       actual_secondary_entry_count i < 255 ->
       incremented <> expected_secondary_entry_count i)
      /\ (actual_secondary_entry_count i = 255 ->
          (incremented = expected_secondary_entry_count i
           <-> expected_secondary_entry_count i = 0)))
  /\ (forall p,
        name_size_asserted h p = true ->
        (exists p',
           exfatfs_add_name_to_dir_and_reset_info h NDEBUG p = Ok p'
           /\ closed h p'
           /\ names (fs_dir p')
              = names (fs_dir p) ++ emitted_by_finalize p)
        /\ (forall d' inum',
              entry_type d' = EXFATFS_DIR_ENTRY_TYPE_FILE h
              \/ entry_type d' = EXFATFS_DIR_ENTRY_TYPE_DELETED_FILE h ->
              fatfs_is_inum_in_range (fatfs p) inum' = true ->
              exists p',
                exfats_parse_file_dentry h NDEBUG p d' inum' = Ok p'
                /\ names (fs_dir p')
                   = names (fs_dir p) ++ emitted_by_finalize p))
  /\ (forall exfatfs_is_dentry a_fatfs a_buf base s idx,
        name_size_asserted h (name_info s) = true ->
        fatfs_is_inum_in_range a_fatfs (uint64 (base + idx)) = true ->
        select_case h
          (exfatfs_is_dentry a_fatfs (current_dentry_of a_buf s)
             (classifier_hint s)) = CaseDefault ->
        exists s',
          dentry_loop_body h NDEBUG fatfs_utf16_inode_str_2_utf8
            exfatfs_is_dentry a_fatfs a_buf base s idx = Ok (Continue s')
          /\ closed h (name_info s')
          /\ names (fs_dir (name_info s'))
             = names (fs_dir (name_info s))
               ++ emitted_by_finalize (name_info s))
  /\ (forall exfatfs_is_dentry fatfs_is_sectalloc FATFS_SECT_2_INODE
        tsk_fs_name_alloc a_fatfs a_fs_dir a_buf a_sector_addrs a_buf_len
        n s,
        0 < a_buf_len ->
        tsk_fs_name_alloc (EXFATFS_MAX_NAME_LEN_UTF8 h) 0 = Some n ->
        parse_sectors h NDEBUG fatfs_utf16_inode_str_2_utf8
          exfatfs_is_dentry fatfs_is_sectalloc FATFS_SECT_2_INODE a_fatfs
          a_buf a_sector_addrs a_buf_len (initial_state a_fatfs a_fs_dir n)
        = Ok (Continue s) ->
        name_size_asserted h (name_info s) = true ->
        exists r,
          exfatfs_dent_parse_buf h NDEBUG fatfs_utf16_inode_str_2_utf8
            exfatfs_is_dentry fatfs_is_sectalloc FATFS_SECT_2_INODE
            tsk_fs_name_alloc (Some a_fatfs) (Some a_fs_dir) (Some a_buf)
            a_buf_len (Some a_sector_addrs) = Ok r
          /\ retval r = TSK_OK
          /\ option_map names (result_dir r)
             = Some (names (fs_dir (name_info s))
                     ++ emitted_by_finalize (name_info s))).
Proof.
  intros Hh Hsz Hin incremented.
  assert (forall ty,
            ty = EXFATFS_DIR_ENTRY_TYPE_FILE_STREAM h
            \/ ty = EXFATFS_DIR_ENTRY_TYPE_DELETED_FILE_STREAM h
            \/ ty = EXFATFS_DIR_ENTRY_TYPE_FILE_NAME h
            \/ ty = EXFATFS_DIR_ENTRY_TYPE_DELETED_FILE_NAME h ->
            ty <> EXFATFS_DIR_ENTRY_TYPE_NONE h) as Hnone.
  { tag_facts Hh. intros ty [-> | [-> | [-> | ->]]]; congruence. }
  split; [| split; [| split; [| split; [| split]]]].
  - intros Hty Hseq Hmis.
    unfold exfats_parse_file_stream_dentry.
    rewrite assert_true
      by (apply andb3_intro; [exact Hsz | apply orb_eqb_intro, Hty
                              | exact Hin]).
    fields. rewrite Hseq, Hmis.
    unfold exfatfs_update_file_entry_set_checksum.
    rewrite assert_true.
    2:{ unfold checksum_dentry_type_asserted. fold (entry_type d).
        destruct Hty as [-> | ->]; rewrite Z.eqb_refl;
          repeat rewrite orb_true_r; reflexivity. }
    fields.
    match goal with
    | |- exists i', count_secondary_entry _ _ ?x = _ /\ _ =>
        destruct (count_secondary_entry_ok h NDEBUG x Hsz)
          as (i' & Hrun & Hfire & Hstay)
    end.
    fields. fold incremented in Hfire, Hstay.
    exists i'. split; [exact Hrun |].
    destruct (Z.eq_dec incremented (expected_secondary_entry_count i))
      as [Heq | Hne].
    + destruct (Hfire Heq) as [Hclosed Hnames].
      split; [split; [auto | intros _; apply closed_last, Hclosed] |].
      split; [intros _; split; [exact Hclosed | exact Hnames]
             | contradiction].
    + rewrite (Hstay Hne). fields.
      split; [split; [| contradiction] |].
      * intros Hlast. exfalso. apply (Hnone (entry_type d)); tauto.
      * split; [contradiction | auto].
  - intros Hty Hseq Hmis failed pending.
    unfold exfats_parse_file_name_dentry.
    rewrite assert_true
      by (apply andb3_intro; [exact Hsz | apply orb_eqb_intro, Hty
                              | exact Hin]).
    fields. rewrite Hseq, Hmis.
    change (name_chars_fit h (set_last_dentry_type (entry_type d) i))
      with (name_chars_fit h i).
    change (name_conversion h fatfs_utf16_inode_str_2_utf8
              (set_last_dentry_type (entry_type d) i) d inum)
      with (name_conversion h fatfs_utf16_inode_str_2_utf8 i d inum).
    change (num_chars_to_copy h (set_last_dentry_type (entry_type d) i))
      with (num_chars_to_copy h i).
    subst failed pending. unfold name_after_fragment.
    destruct (name_chars_fit h i).
    + destruct (name_conversion h fatfs_utf16_inode_str_2_utf8 i d inum)
        as [result dest].
      cbn [fst andb].
      destruct result; cbn [conversion_ok negb]; fields.
      * match goal with
        | |- exists i', count_secondary_entry _ _ ?x = _ /\ _ =>
            destruct (count_secondary_entry_ok h NDEBUG x Hsz)
              as (i' & Hrun & Hfire & Hstay)
        end.
        fields. fold incremented in Hfire, Hstay.
        exists i'. split; [exact Hrun |].
        destruct (Z.eq_dec incremented (expected_secondary_entry_count i))
          as [Heq | Hne].
        -- destruct (Hfire Heq) as [Hclosed Hnames].
           split; [split; [auto | intros _; apply closed_last, Hclosed] |].
           split; [intros _; split; [exact Hclosed | exact Hnames]
                  | contradiction].
        -- rewrite (Hstay Hne). fields.
           split; [split |].
           ++ intros Hlast. exfalso. apply (Hnone (entry_type d)); tauto.
           ++ intros [Hf | Heq]; [discriminate | contradiction].
           ++ split; [intros [Hf | Heq]; [discriminate | contradiction] |].
              intros _ _. repeat split; reflexivity.
      * match goal with
        | |- exists i',
            exfatfs_add_name_to_dir_and_reset_info _ _ ?x = _ /\ _ =>
            destruct (finalize_ok h NDEBUG x Hsz)
              as (i' & Hrun & Hclosed & Hnames & _)
        end.
        exists i'. split; [exact Hrun |].
        split; [split; [auto | intros _; apply closed_last, Hclosed] |].
        split; [intros _; split; [exact Hclosed | exact Hnames]
               | discriminate].
      * match goal with
        | |- exists i',
            exfatfs_add_name_to_dir_and_reset_info _ _ ?x = _ /\ _ =>
            destruct (finalize_ok h NDEBUG x Hsz)
              as (i' & Hrun & Hclosed & Hnames & _)
        end.
        exists i'. split; [exact Hrun |].
        split; [split; [auto | intros _; apply closed_last, Hclosed] |].
        split; [intros _; split; [exact Hclosed | exact Hnames]
               | discriminate].
      * match goal with
        | |- exists i',
            exfatfs_add_name_to_dir_and_reset_info _ _ ?x = _ /\ _ =>
            destruct (finalize_ok h NDEBUG x Hsz)
              as (i' & Hrun & Hclosed & Hnames & _)
        end.
        exists i'. split; [exact Hrun |].
        split; [split; [auto | intros _; apply closed_last, Hclosed] |].
        split; [intros _; split; [exact Hclosed | exact Hnames]
               | discriminate].
    + cbn [andb]. rewrite set_name_same, set_fs_name_same.
      match goal with
      | |- exists i', count_secondary_entry _ _ ?x = _ /\ _ =>
          destruct (count_secondary_entry_ok h NDEBUG x Hsz)
            as (i' & Hrun & Hfire & Hstay)
      end.
      fields. fold incremented in Hfire, Hstay.
      exists i'. split; [exact Hrun |].
      destruct (Z.eq_dec incremented (expected_secondary_entry_count i))
        as [Heq | Hne].
      * destruct (Hfire Heq) as [Hclosed Hnames].
        split; [split; [auto | intros _; apply closed_last, Hclosed] |].
        split; [intros _; split; [exact Hclosed | exact Hnames]
               | contradiction].
      * rewrite (Hstay Hne). fields.
        split; [split |].
        -- intros Hlast. exfalso. apply (Hnone (entry_type d)); tauto.
        -- intros [Hf | Heq]; [discriminate | contradiction].
        -- split; [intros [Hf | Heq]; [discriminate | contradiction] |].
           intros _ _. repeat split; reflexivity.
  - intros He Ha. subst incremented. unfold uint8. split.
    + intros Hle Hlt. rewrite Z.mod_small; lia.
    + intros ->. change ((255 + 1) mod 2 ^ 8) with 0. lia.
  - intros p Hp. split.
    + destruct (finalize_ok h NDEBUG p Hp)
        as (p' & Hrun & Hclosed & Hnames & _).
      exists p'. auto.
    + intros d' inum' Hty' Hin'.
      destruct (file_dentry_ok h NDEBUG p d' inum')
        as (p' & Hrun & _ & _ & _ & _ & _ & _ & Hnames & _).
      { apply andb3_intro; [exact Hp | apply orb_eqb_intro, Hty'
                            | exact Hin']. }
      exists p'. auto.
  - intros cls a_fatfs a_buf base s idx Hs Hrange Hcase.
    unfold dentry_loop_body. rewrite Hrange. cbn [negb].
    change (classifier_hint (set_entries_count (entries_count s + 1) s))
      with (classifier_hint s).
    change (current_dentry_of a_buf
              (set_entries_count (entries_count s + 1) s))
      with (current_dentry_of a_buf s).
    rewrite Hcase. fields.
    destruct (finalize_ok h NDEBUG (name_info s) Hs)
      as (p' & Hrun & Hclosed & Hnames & _).
    match goal with
    | |- context [if ?b then _ else _] => destruct b
    end; fields; rewrite Hrun; fields;
      (eexists; split; [reflexivity |]; fields; auto).
  - intros cls sectalloc sect2inode alloc a_fatfs a_fs_dir a_buf
      a_sector_addrs a_buf_len n s Hlen Halloc Hrun Hs.
    unfold exfatfs_dent_parse_buf.
    rewrite assert_true by (apply Z.gtb_lt; lia). fields.
    destruct (Z.ltb_spec a_buf_len 0); [lia |].
    rewrite Halloc, Hrun. fields.
    destruct (finalize_ok h NDEBUG (name_info s) Hs)
      as (p' & Hfin & _ & Hnames & _).
    rewrite Hfin. fields.
    eexists. split; [reflexivity |]. fields.
    split; [reflexivity |]. cbn [option_map]. rewrite Hnames. reflexivity.
Qed.

Lemma C10_count_path_fires_on_equality_mod_256_witness :
  exists i',
    exfats_parse_file_name_dentry exfat_h false ascii_decoder
      name_info_after_stream name_dentry_A15 5 = Ok i'
    /\ closed exfat_h i'
    /\ dir_strings (fs_dir i') = [repeat 65 15].
Proof.
  destruct (C10_count_path_fires_on_equality_mod_256 exfat_h false
              ascii_decoder name_info_after_stream name_dentry_A15 5
              exfat_h_tags_ok eq_refl eq_refl) as (_ & Hname & _).
  destruct Hname as (i' & Hrun & _ & Hfire & _).
  - left. reflexivity.
  - reflexivity.
  - reflexivity.
  - destruct Hfire as [Hclosed Hnames]; [right; reflexivity |].
    exists i'. split; [exact Hrun |]. split; [exact Hclosed |].
    unfold dir_strings. rewrite Hnames. vm_compute. reflexivity.
Defined.

(** The claim as the specification states it fails: a file entry that
    declares zero secondary entries, followed by a stream entry and 254
    name entries, leaves the set open with an observed count of 255,
    which exceeds the declared count; the next name entry is accepted,
    the count wraps to 0, equals the declared count, and the count path
    closes the set. *)
Lemma C10_counterexample_count_wraps_to_declared :
  exists s i',
    parse_sectors exfat_h false ascii_decoder (tag_classifier exfat_h)
      sectalloc_all sect_2_inode16 fatfs0 long_set_buf long_set_addrs
      8192 (initial_state fatfs0 {| names := [] |} fs_name0)
    = Ok (Continue s)
    /\ entries_count s = 256
    /\ expected_secondary_entry_count (name_info s) = 0
    /\ actual_secondary_entry_count (name_info s) = 255
    /\ last_dentry_type (name_info s) = EXFATFS_DIR_ENTRY_TYPE_FILE_NAME exfat_h
    /\ name_out_of_sequence exfat_h (name_info s) = false
    /\ name_in_use_mismatch exfat_h (name_info s) name_dentry_A15 = false
    /\ conversion_ok
         (fst (name_conversion exfat_h ascii_decoder (name_info s)
                 name_dentry_A15 259)) = true
    /\ exfats_parse_file_name_dentry exfat_h false ascii_decoder
         (name_info s) name_dentry_A15 259 = Ok i'
    /\ last_dentry_type i' = EXFATFS_DIR_ENTRY_TYPE_NONE exfat_h
    /\ actual_secondary_entry_count i' = 0.
Proof.
  eexists. eexists.
  split; [vm_compute; reflexivity |].
  split; [reflexivity |].
  split; [reflexivity |].
  split; [reflexivity |].
  split; [reflexivity |].
  split; [reflexivity |].
  split; [reflexivity |].
  split; [vm_compute; reflexivity |].
  split; [vm_compute; reflexivity |].
  split; reflexivity.
Qed.

(** ** C6: the volume label entry *)

(** C6 (the code at the failing input). The handler of volume label
    entries first finalizes the open set. For an empty label it stops
    there: no name record. For a label it asks for one conversion, of
    the declared count of characters plus one, without a cap, from the
    label field on: if the conversion fails the label is discarded and
    nothing is emitted; if it succeeds the name is cut at the declared
    count, the tag [" (Volume Label Entry)"] is appended only if count
    and tag length stay below the capacity, the inode address is
    recorded, and the handler finalizes at once. So a label of five
    convertible characters is discarded when the unit that follows them
    in the field is not convertible; a label that declares 200
    characters has 201 units converted; and for a label that fills the
    field, the last unit converted is made of the first two bytes of
    the entry that follows the label in the buffer. *)
Theorem C6_volume_label_conversion_length
  (h : tsk_exfatfs_h) (NDEBUG : bool)
  (fatfs_utf16_inode_str_2_utf8 :
     FATFS_INFO -> list Z -> Z -> list Z -> Z -> Z ->
     TSKConversionResult * list Z)
  (i : EXFATFS_FS_NAME_INFO) (d : FATFS_DENTRY) (following : list Z)
  (inum : Z) :
  tags_ok h ->
  vol_label_dentry_asserted h i d inum = true ->
  (exists i1,
     exfatfs_add_name_to_dir_and_reset_info h NDEBUG i = Ok i1
     /\ (entry_type d = EXFATFS_DIR_ENTRY_TYPE_VOLUME_LABEL_EMPTY h ->
         exfats_parse_vol_label_dentry h NDEBUG
           fatfs_utf16_inode_str_2_utf8 i d following inum
         = Ok (set_last_dentry_type (entry_type d) i1))
     /\ (entry_type d = EXFATFS_DIR_ENTRY_TYPE_VOLUME_LABEL h ->
         let conversion :=
           fatfs_utf16_inode_str_2_utf8 (fatfs i1)
             (skipn (Z.to_nat (OFFSET_volume_label h)) (data d)
              ++ following)
             (size_t (utf16_char_count h d + 1))
             (name (fs_name i1)) (name_size (fs_name i1)) inum in
         let cut :=
           store (snd conversion) (uint8 (utf16_char_count h d)) 0 in
         let label :=
           if size_t (uint8 (utf16_char_count h d) + strlen vol_label_tag)
              <? EXFATFS_MAX_NAME_LEN_UTF8 h
           then strcat cut vol_label_tag else cut in
         exists i',
           exfats_parse_vol_label_dentry h NDEBUG
             fatfs_utf16_inode_str_2_utf8 i d following inum = Ok i'
           /\ closed h i'
           /\ (conversion_ok (fst conversion) = false ->
               fs_dir i' = fs_dir i1)
           /\ (conversion_ok (fst conversion) = true ->
               names (fs_dir i')
               = names (fs_dir i1)
                 ++ (if strlen label >? 0
                     then [set_meta_addr inum
                             (set_name label (fs_name i1))]
                     else []))))
  /\ (exists i5,
        ascii_units
          (skipn (Z.to_nat (OFFSET_volume_label exfat_h))
             (data label_dentry_LABEL))
          (Z.to_nat (spec_label_units 11 5))
        = Some [76; 65; 66; 69; 76]
        /\ exfats_parse_vol_label_dentry exfat_h false ascii_decoder
             name_info0 label_dentry_LABEL [] 9 = Ok i5
        /\ names (fs_dir i5) = [])
  /\ (exists i200,
        exfats_parse_vol_label_dentry exfat_h false length_probe
          name_info0 label_dentry_200 [] 9 = Ok i200
        /\ dir_strings (fs_dir i200) = [201 :: vol_label_tag]
        /\ forall limit, spec_label_units limit 200 <> 201)
  /\ (exists i15,
        exfats_parse_vol_label_dentry exfat_h false last_unit_probe
          name_info0 label_dentry_15 (data file_dentry_2) 9 = Ok i15
        /\ dir_strings (fs_dir i15)
           = [firstn 2 (data file_dentry_2) ++ vol_label_tag]).
Proof.
  intros Hh Hassert. split.
  - pose proof Hassert as Hassert'.
    apply andb3_true in Hassert'. destruct Hassert' as (Hsz & Hty & Hin).
    destruct (finalize_ok h NDEBUG i Hsz)
      as (i1 & Hrun & Hclosed & Hnames & Hfat & Hsect & Hsz1 & _).
    assert (name_size_asserted h i1 = true) as Hsz1'.
    { unfold name_size_asserted in *. rewrite Hsz1. exact Hsz. }
    assert (EXFATFS_DIR_ENTRY_TYPE_VOLUME_LABEL h
            <> EXFATFS_DIR_ENTRY_TYPE_VOLUME_LABEL_EMPTY h) as Hne
      by (tag_facts Hh; congruence).
    exists i1. split; [exact Hrun |].
    unfold exfats_parse_vol_label_dentry.
    rewrite (assert_true _ _ Hassert). fields. rewrite Hrun. fields.
    unfold vol_label_conversion, vol_label_source. fields.
    split.
    + intros ->. rewrite Z.eqb_refl. reflexivity.
    + intros Hlabel. rewrite Hlabel.
      destruct (Z.eqb_spec (EXFATFS_DIR_ENTRY_TYPE_VOLUME_LABEL h)
                  (EXFATFS_DIR_ENTRY_TYPE_VOLUME_LABEL_EMPTY h));
        [contradiction |].
      cbn [negb].
      destruct Hclosed as (_ & _ & _ & _ & _ & _ & Hlen & _).
      rewrite Hlen, Z.add_0_l.
      destruct (fatfs_utf16_inode_str_2_utf8 (fatfs i1)
                  (skipn (Z.to_nat (OFFSET_volume_label h)) (data d)
                   ++ following)
                  (size_t (utf16_char_count h d + 1))
                  (name (fs_name i1)) (name_size (fs_name i1)) inum)
        as [result dest].
      cbn [fst snd].
      destruct result; cbn [conversion_ok]; fields.
      * destruct (size_t (uint8 (utf16_char_count h d)
                          + strlen vol_label_tag)
                  <? EXFATFS_MAX_NAME_LEN_UTF8 h); fields;
          match goal with
          | |- exists i',
              exfatfs_add_name_to_dir_and_reset_info _ _ ?x = _ /\ _ =>
              destruct (finalize_ok h NDEBUG x Hsz1')
                as (i' & Hrun' & Hclosed' & Hnames' & _)
          end;
          (exists i'; split; [exact Hrun' |]; split; [exact Hclosed' |];
           split; [discriminate |]; intros _; rewrite Hnames';
           unfold emitted_by_finalize, pending_nonempty; fields;
           reflexivity).
      * match goal with
        | |- exists i', exfatfs_reset_name_info _ _ ?x = _ /\ _ =>
            destruct (reset_ok h NDEBUG x Hsz1')
              as (i' & Hrun' & Hclosed' & Hdir' & _)
        end.
        exists i'. split; [exact Hrun' |]. split; [exact Hclosed' |].
        split; [intros _; exact Hdir' | discriminate].
      * match goal with
        | |- exists i', exfatfs_reset_name_info _ _ ?x = _ /\ _ =>
            destruct (reset_ok h NDEBUG x Hsz1')
              as (i' & Hrun' & Hclosed' & Hdir' & _)
        end.
        exists i'. split; [exact Hrun' |]. split; [exact Hclosed' |].
        split; [intros _; exact Hdir' | discriminate].
      * match goal with
        | |- exists i', exfatfs_reset_name_info _ _ ?x = _ /\ _ =>
            destruct (reset_ok h NDEBUG x Hsz1')
              as (i' & Hrun' & Hclosed' & Hdir' & _)
        end.
        exists i'. split; [exact Hrun' |]. split; [exact Hclosed' |].
        split; [intros _; exact Hdir' | discriminate].
  - split; [| split].
    + eexists. split; [reflexivity |].
      split; [vm_compute; reflexivity | reflexivity].
    + eexists. split; [vm_compute; reflexivity |].
      split; [reflexivity |].
      intros limit. unfold spec_label_units. lia.
    + eexists. split; [vm_compute; reflexivity |]. reflexivity.
Qed.

Lemma C6_volume_label_conversion_length_witness :
  exists i',
    exfats_parse_vol_label_dentry exfat_h false ascii_decoder name_info0
      label_dentry_FOO [] 9 = Ok i'
    /\ closed exfat_h i'
    /\ dir_strings (fs_dir i') = [[70; 79; 79] ++ vol_label_tag]
    /\ map meta_addr (names (fs_dir i')) = [9].
Proof.
  destruct (C6_volume_label_conversion_length exfat_h false ascii_decoder
              name_info0 label_dentry_FOO [] 9 exfat_h_tags_ok eq_refl)
    as ((i1 & Hrun1 & _ & Hlabel) & _).
  destruct (Hlabel eq_refl) as (i' & Hrun & Hclosed & _ & Hnames).
  specialize (Hnames eq_refl).
  assert (i1 = name_info0) as ->.
  { vm_compute in Hrun1. injection Hrun1 as <-. reflexivity. }
  exists i'. split; [exact Hrun |]. split; [exact Hclosed |].
  unfold dir_strings. rewrite Hnames. split; vm_compute; reflexivity.
Defined.

(** The same in a run of the driver: in a sector that holds the label
    [ABCDEFGHIJKLMNO] and then the set of the file [HELLO], the
    converter is given sixteen units for the label, the last of them
    the type byte and the count of secondary entries of the file
    entry. *)
Lemma label_conversion_reads_next_entry :
  exists r,
    exfatfs_dent_parse_buf exfat_h false last_unit_probe
      (tag_classifier exfat_h) sectalloc_all sect_2_inode16 name_alloc_ok
      (Some fatfs0) (Some {| names := [] |})
      (Some (label_dentry_15 :: firstn 15 hello_buf)) 512 (Some [0])
    = Ok r
    /\ option_map dir_strings (result_dir r)
       = Some [[0x85; 2] ++ vol_label_tag; [79]].
Proof.
  eexists. split; [vm_compute; reflexivity |]. reflexivity.
Qed.

(** A label of fifteen characters followed in its sector by entries of
    zeros: the sixteenth unit that the converter is given is the first
    unit of the next entry, and the label is recorded. *)
Lemma label_of_fifteen_characters :
  exists r,
    exfatfs_dent_parse_buf exfat_h false ascii_decoder
      (tag_classifier exfat_h) sectalloc_all sect_2_inode16 name_alloc_ok
      (Some fatfs0) (Some {| names := [] |})
      (Some (label_dentry_15 :: repeat (dentry_of []) 15)) 512 (Some [0])
    = Ok r
    /\ retval r = TSK_OK
    /\ option_map dir_strings (result_dir r)
       = Some [[65; 66; 67; 68; 69; 70; 71; 72; 73; 74; 75; 76; 77; 78; 79]
               ++ vol_label_tag].
Proof.
  eexists. split; [vm_compute; reflexivity |]. split; reflexivity.
Qed.

(** ** The loops of the driver *)

Lemma for_loop_invariant (S : Type)
  (body : S -> Z -> outcome (loop_exit S)) (I R : S -> Prop) :
  (forall s i r,
     I s -> body s i = Ok r ->
     match r with
     | Continue s' => I s'
     | Return _ s' => R s'
     end) ->
  forall l s r,
    I s -> for_loop body s l = Ok r ->
    match r with
    | Continue s' => I s'
    | Return _ s' => R s'
    end.
Proof.
  intros Hbody. induction l as [| i l IH]; intros s r Hs Hrun.
  - cbn in Hrun. injection Hrun as <-. exact Hs.
  - cbn [for_loop] in Hrun.
    destruct (body s i) as [[s1 | rv s1] | |] eqn:Hstep;
      cbn [bind] in Hrun.
    + apply (IH s1 r); [| exact Hrun].
      apply (Hbody s i (Continue s1) Hs Hstep).
    + injection Hrun as <-.
      apply (Hbody s i (Return rv s1) Hs Hstep).
    + discriminate.
    + discriminate.
Qed.

(** The loop over the sectors is reached when the size of a sector is
    not 0. *)
Lemma parse_sectors_loop
  (h : tsk_exfatfs_h) (NDEBUG : bool)
  (dec : FATFS_INFO -> list Z -> Z -> list Z -> Z -> Z ->
         TSKConversionResult * list Z)
  (cls : FATFS_INFO -> FATFS_DENTRY -> bool -> Z)
  (alloc : FATFS_INFO -> Z -> Z) (s2i : FATFS_INFO -> Z -> Z)
  (a_fatfs : FATFS_INFO) (a_buf : list FATFS_DENTRY) (addrs : list Z)
  (a_buf_len : Z) (s : parse_state) (r : loop_exit parse_state) :
  parse_sectors h NDEBUG dec cls alloc s2i a_fatfs a_buf addrs a_buf_len s
  = Ok r ->
  ssize a_fatfs <> 0
  /\ for_loop
       (sector_loop_body h NDEBUG dec cls alloc s2i a_fatfs a_buf addrs)
       s (upto (Z.quot a_buf_len (ssize a_fatfs))) = Ok r.
Proof.
  unfold parse_sectors, c_div.
  destruct (Z.eqb_spec (ssize a_fatfs) 0); cbn [bind];
    [discriminate | auto].
Qed.

Lemma parse_sectors_nonzero
  (h : tsk_exfatfs_h) (NDEBUG : bool)
  (dec : FATFS_INFO -> list Z -> Z -> list Z -> Z -> Z ->
         TSKConversionResult * list Z)
  (cls : FATFS_INFO -> FATFS_DENTRY -> bool -> Z)
  (alloc : FATFS_INFO -> Z -> Z) (s2i : FATFS_INFO -> Z -> Z)
  (a_fatfs : FATFS_INFO) (a_buf : list FATFS_DENTRY) (addrs : list Z)
  (a_buf_len : Z) (s : parse_state) :
  ssize a_fatfs <> 0 ->
  parse_sectors h NDEBUG dec cls alloc s2i a_fatfs a_buf addrs a_buf_len s
  = for_loop
      (sector_loop_body h NDEBUG dec cls alloc s2i a_fatfs a_buf addrs)
      s (upto (Z.quot a_buf_len (ssize a_fatfs))).
Proof.
  intros Hss. unfold parse_sectors, c_div.
  destruct (Z.eqb_spec (ssize a_fatfs) 0); [contradiction | reflexivity].
Qed.

(** What an iteration of the loop over the entries does to the counters,
    the flag and the history of the classifier. *)
Lemma dentry_loop_body_counters
  (h : tsk_exfatfs_h) (NDEBUG : bool)
  (dec : FATFS_INFO -> list Z -> Z -> list Z -> Z -> Z ->
         TSKConversionResult * list Z)
  (cls : FATFS_INFO -> FATFS_DENTRY -> bool -> Z)
  (a_fatfs : FATFS_INFO) (a_buf : list FATFS_DENTRY)
  (base : Z) (s : parse_state) (idx : Z) (r : loop_exit parse_state) :
  dentry_loop_body h NDEBUG dec cls a_fatfs a_buf base s idx = Ok r ->
  match r with
  | Return rv s' =>
      rv = TSK_ERR
      /\ is_corrupt_dir s' = is_corrupt_dir s
      /\ classifier_calls s' = classifier_calls s
  | Continue s' =>
      exists ty,
        ty = cls a_fatfs (current_dentry_of a_buf s) (classifier_hint s)
        /\ classifier_calls s'
           = classifier_calls s
             ++ [{| call_sector_is_allocated :=
                      sector_is_allocated (name_info s);
                    call_hint := classifier_hint s;
                    call_result := ty |}]
        /\ entries_count s' = entries_count s + 1
        /\ invalid_entries_count s'
           = (if default_case h ty then invalid_entries_count s + 1
              else invalid_entries_count s)
        /\ is_corrupt_dir s'
           = (if default_case h ty
                 && (entries_count s + 1 =? 4)
                 && (invalid_entries_count s + 1 =? 4)
              then true else is_corrupt_dir s)
  end.
Proof.
  unfold dentry_loop_body. fields.
  destruct (negb (fatfs_is_inum_in_range a_fatfs (uint64 (base + idx)))).
  - intros Hrun. injection Hrun as <-. fields. auto.
  - unfold default_case.
    change (classifier_hint (set_entries_count (entries_count s + 1) s))
      with (classifier_hint s).
    destruct (select_case h
                (cls a_fatfs (current_dentry_of a_buf s)
                   (classifier_hint s))) eqn:Hcase;
      match goal with
      | |- context [bind (bind ?c _) _] =>
          destruct c as [i | |]; fields; [| discriminate | discriminate]
      end;
      intros Hrun; injection Hrun as <-; fields;
      eexists; (split; [reflexivity |]); rewrite Hcase; cbn [andb];
      repeat split; try reflexivity.
    all: destruct ((entries_count s + 1 =? 4)
                   && (invalid_entries_count s + 1 =? 4));
      reflexivity.
Qed.

(** ** The corrupt-directory flag *)

Lemma firstn_snoc_le (A : Type) (l : list A) (c : A) (k : nat) :
  (k <= length l)%nat -> firstn k (l ++ [c]) = firstn k l.
Proof.
  intros Hk. rewrite firstn_app.
  replace (k - length l)%nat with 0%nat by lia.
  cbn [firstn]. apply app_nil_r.
Qed.

Lemma first_four_snoc (h : tsk_exfatfs_h) (l : list classifier_call)
  (c : classifier_call) :
  first_four_unclassifiable h (l ++ [c])
  = (if unclassifiable h (call_result c)
        && (Z.of_nat (length l) + 1 =? 4)
        && (Z.of_nat
              (length
                 (filter (fun c => unclassifiable h (call_result c)) l))
            + 1 =? 4)
     then true else first_four_unclassifiable h l).
Proof.
  unfold first_four_unclassifiable.
  destruct l as [| c1 [| c2 [| c3 [| c4 l]]]].
  - cbn. rewrite andb_false_r. reflexivity.
  - cbn. rewrite andb_false_r. reflexivity.
  - cbn. rewrite andb_false_r. reflexivity.
  - cbn -[Z.of_nat Z.add Z.eqb].
    destruct (unclassifiable h (call_result c1)),
      (unclassifiable h (call_result c2)),
      (unclassifiable h (call_result c3)),
      (unclassifiable h (call_result c));
      reflexivity.
  - change (firstn 4 ((c1 :: c2 :: c3 :: c4 :: l) ++ [c]))
      with [c1; c2; c3; c4].
    change (firstn 4 (c1 :: c2 :: c3 :: c4 :: l)) with [c1; c2; c3; c4].
    rewrite length_app.
    cbn [length Nat.add Nat.leb].
    destruct (Z.eqb_spec
                (Z.of_nat (S (S (S (S (length l))))) + 1) 4);
      [lia |].
    rewrite andb_false_r. reflexivity.
Qed.

Lemma hints_snoc (h : tsk_exfatfs_h) (l : list classifier_call)
  (c : classifier_call) :
  hints_as_specified h l ->
  call_hint c = expected_hint h l c ->
  hints_as_specified h (l ++ [c]).
Proof.
  intros Hl Hc k c' Hk.
  destruct (Nat.lt_ge_cases k (length l)) as [Hlt | Hge].
  - rewrite nth_error_app1 in Hk by exact Hlt.
    rewrite firstn_snoc_le by lia. apply Hl, Hk.
  - rewrite nth_error_app2 in Hk by exact Hge.
    destruct (k - length l)%nat as [| m] eqn:Hm.
    + cbn in Hk. injection Hk as <-.
      assert (k = length l) as -> by lia.
      rewrite firstn_snoc_le by lia. rewrite firstn_all. exact Hc.
    + destruct m; discriminate.
Qed.

(** The [switch] of the driver takes its [default] case exactly for the
    entries that the classifier rejects: every other enumerator is the
    label of a case. *)
Lemma default_case_unclassifiable (h : tsk_exfatfs_h) (ty : Z) :
  tags_ok h -> In ty (dir_entry_types h) ->
  default_case h ty = unclassifiable h ty.
Proof.
  intros Hh Hin. tag_facts Hh.
  unfold default_case, unclassifiable, select_case.
  unfold dir_entry_types in Hin. cbn [In] in Hin.
  repeat (destruct Hin as [Hin | Hin];
          [subst ty; tag_eqb; reflexivity |]).
  contradiction.
Qed.

(** An iteration of the loop over the entries keeps the invariants. *)
Lemma dentry_loop_body_inv
  (h : tsk_exfatfs_h) (NDEBUG : bool)
  (dec : FATFS_INFO -> list Z -> Z -> list Z -> Z -> Z ->
         TSKConversionResult * list Z)
  (cls : FATFS_INFO -> FATFS_DENTRY -> bool -> Z)
  (a_fatfs : FATFS_INFO) (a_buf : list FATFS_DENTRY)
  (base : Z) (s : parse_state) (idx : Z) (r : loop_exit parse_state) :
  tags_ok h ->
  classifier_answers_enum h cls ->
  counters_inv h s /\ flag_inv h s ->
  dentry_loop_body h NDEBUG dec cls a_fatfs a_buf base s idx = Ok r ->
  match r with
  | Continue s' => counters_inv h s' /\ flag_inv h s'
  | Return _ s' => flag_inv h s'
  end.
Proof.
  intros Hh Henum [[Hec Hic] [Hflag Hhints]] Hrun.
  apply dentry_loop_body_counters in Hrun.
  destruct r as [s' | rv s'].
  - destruct Hrun as (ty & Hty & Hcalls & Hec' & Hic' & Hflag').
    rewrite (default_case_unclassifiable h ty Hh) in Hic', Hflag'
      by (rewrite Hty; apply Henum).
    unfold counters_inv, flag_inv.
    rewrite Hcalls, Hec', Hic', Hflag'.
    rewrite first_four_snoc. cbn [call_result].
    rewrite filter_app, !length_app. cbn [filter call_result].
    rewrite <- Hec, <- Hic, <- Hflag.
    split; [split | split].
    + cbn [length]. lia.
    + destruct (unclassifiable h ty); cbn [length]; lia.
    + reflexivity.
    + apply hints_snoc; [exact Hhints |].
      unfold expected_hint, classifier_hint. cbn [call_hint
        call_sector_is_allocated]. rewrite Hflag. reflexivity.
  - destruct Hrun as (_ & Hflag' & Hcalls).
    unfold flag_inv. rewrite Hcalls, Hflag'. split; assumption.
Qed.

Lemma sector_loop_body_inv
  (h : tsk_exfatfs_h) (NDEBUG : bool)
  (dec : FATFS_INFO -> list Z -> Z -> list Z -> Z -> Z ->
         TSKConversionResult * list Z)
  (cls : FATFS_INFO -> FATFS_DENTRY -> bool -> Z)
  (alloc : FATFS_INFO -> Z -> Z) (s2i : FATFS_INFO -> Z -> Z)
  (a_fatfs : FATFS_INFO) (a_buf : list FATFS_DENTRY) (addrs : list Z)
  (s : parse_state) (idx : Z) (r : loop_exit parse_state) :
  tags_ok h ->
  classifier_answers_enum h cls ->
  counters_inv h s /\ flag_inv h s ->
  sector_loop_body h NDEBUG dec cls alloc s2i a_fatfs a_buf addrs s idx
  = Ok r ->
  match r with
  | Continue s' => counters_inv h s' /\ flag_inv h s'
  | Return _ s' => flag_inv h s'
  end.
Proof.
  intros Hh Henum Hinv. unfold sector_loop_body.
  destruct (s2i a_fatfs (nth (Z.to_nat idx) addrs 0)
            >? last_inum (fs_info a_fatfs)).
  - intros Hrun. injection Hrun as <-. exact (proj2 Hinv).
  - match goal with
    | |- context [if ?b then _ else _] => destruct b
    end.
    + intros Hrun. injection Hrun as <-. exact Hinv.
    + apply (for_loop_invariant parse_state _
               (fun s => counters_inv h s /\ flag_inv h s) (flag_inv h)).
      * intros s0 i0 r0. apply dentry_loop_body_inv; assumption.
      * exact Hinv.
Qed.

Lemma parse_sectors_inv
  (h : tsk_exfatfs_h) (NDEBUG : bool)
  (dec : FATFS_INFO -> list Z -> Z -> list Z -> Z -> Z ->
         TSKConversionResult * list Z)
  (cls : FATFS_INFO -> FATFS_DENTRY -> bool -> Z)
  (alloc : FATFS_INFO -> Z -> Z) (s2i : FATFS_INFO -> Z -> Z)
  (a_fatfs : FATFS_INFO) (a_buf : list FATFS_DENTRY) (addrs : list Z)
  (a_buf_len : Z) (a_fs_dir : TSK_FS_DIR) (n : TSK_FS_NAME)
  (r : loop_exit parse_state) :
  tags_ok h ->
  classifier_answers_enum h cls ->
  parse_sectors h NDEBUG dec cls alloc s2i a_fatfs a_buf addrs a_buf_len
    (initial_state a_fatfs a_fs_dir n) = Ok r ->
  flag_inv h (state_of r).
Proof.
  intros Hh Henum Hrun. apply parse_sectors_loop in Hrun.
  destruct Hrun as [_ Hrun].
  apply (for_loop_invariant parse_state _
           (fun s => counters_inv h s /\ flag_inv h s) (flag_inv h))
    in Hrun.
  - destruct r; [exact (proj2 Hrun) | exact Hrun].
  - intros s0 i0 r0. apply sector_loop_body_inv; assumption.
  - split; split; try reflexivity.
    intros k c Hk. destruct k; discriminate.
Qed.

Lemma first_four_sticky (h : tsk_exfatfs_h)
  (calls : list classifier_call) (k k' : nat) :
  (k <= k')%nat ->
  first_four_unclassifiable h (firstn k calls) = true ->
  first_four_unclassifiable h (firstn k' calls) = true.
Proof.
  unfold first_four_unclassifiable. intros Hk H.
  apply andb_true_iff in H. destruct H as [Hlen Hall].
  apply Nat.leb_le in Hlen. rewrite length_firstn in Hlen.
  rewrite firstn_firstn in Hall.
  replace (Nat.min 4 k) with 4%nat in Hall by lia.
  apply andb_true_iff. split.
  - apply Nat.leb_le. rewrite length_firstn. lia.
  - rewrite firstn_firstn.
    replace (Nat.min 4 k') with 4%nat by lia. exact Hall.
Qed.

(** ** A build without assertions returns *)

Lemma finalize_total (h : tsk_exfatfs_h) (i : EXFATFS_FS_NAME_INFO) :
  exists i', exfatfs_add_name_to_dir_and_reset_info h true i = Ok i'.
Proof. eexists. reflexivity. Qed.

Lemma count_secondary_entry_total (h : tsk_exfatfs_h)
  (i : EXFATFS_FS_NAME_INFO) :
  exists i', count_secondary_entry h true i = Ok i'.
Proof.
  unfold count_secondary_entry.
  match goal with
  | |- context [if ?b then _ else _] => destruct b
  end; [apply finalize_total | eexists; reflexivity].
Qed.

Lemma file_dentry_total (h : tsk_exfatfs_h) (i : EXFATFS_FS_NAME_INFO)
  (d : FATFS_DENTRY) (inum : Z) :
  exists i', exfats_parse_file_dentry h true i d inum = Ok i'.
Proof. eexists. reflexivity. Qed.

Lemma file_stream_dentry_total (h : tsk_exfatfs_h)
  (i : EXFATFS_FS_NAME_INFO) (d : FATFS_DENTRY) (inum : Z) :
  exists i', exfats_parse_file_stream_dentry h true i d inum = Ok i'.
Proof.
  unfold exfats_parse_file_stream_dentry. cbn [assert bind].
  destruct (stream_out_of_sequence h i); [apply finalize_total |].
  destruct (stream_in_use_mismatch h i d); [apply finalize_total |].
  cbn [exfatfs_update_file_entry_set_checksum assert bind].
  apply count_secondary_entry_total.
Qed.

Lemma file_name_dentry_total (h : tsk_exfatfs_h)
  (dec : FATFS_INFO -> list Z -> Z -> list Z -> Z -> Z ->
         TSKConversionResult * list Z)
  (i : EXFATFS_FS_NAME_INFO) (d : FATFS_DENTRY) (inum : Z) :
  exists i', exfats_parse_file_name_dentry h true dec i d inum = Ok i'.
Proof.
  unfold exfats_parse_file_name_dentry. cbn [assert bind].
  destruct (name_out_of_sequence h i); [apply finalize_total |].
  destruct (name_in_use_mismatch h i d); [apply finalize_total |].
  destruct (name_chars_fit h (set_last_dentry_type (entry_type d) i));
    [| apply count_secondary_entry_total].
  destruct (name_conversion h dec (set_last_dentry_type (entry_type d) i)
              d inum) as [[| | |] dest];
    first [apply count_secondary_entry_total | apply finalize_total].
Qed.

Lemma vol_label_dentry_total (h : tsk_exfatfs_h)
  (dec : FATFS_INFO -> list Z -> Z -> list Z -> Z -> Z ->
         TSKConversionResult * list Z)
  (i : EXFATFS_FS_NAME_INFO) (d : FATFS_DENTRY) (following : list Z)
  (inum : Z) :
  exists i',
    exfats_parse_vol_label_dentry h true dec i d following inum = Ok i'.
Proof.
  unfold exfats_parse_vol_label_dentry. cbn [assert bind].
  destruct (finalize_total h i) as [i1 ->]. cbn [bind].
  destruct (negb (entry_type d
                  =? EXFATFS_DIR_ENTRY_TYPE_VOLUME_LABEL_EMPTY h));
    [| eexists; reflexivity].
  destruct (vol_label_conversion h dec
              (set_last_dentry_type (entry_type d) i1) d following inum)
    as [[| | |] dest];
    first [apply finalize_total | eexists; reflexivity].
Qed.

Lemma special_file_dentry_total (h : tsk_exfatfs_h)
  (i : EXFATFS_FS_NAME_INFO) (d : FATFS_DENTRY) (inum : Z) :
  exists i', exfats_parse_special_file_dentry h true i d inum = Ok i'.
Proof. eexists. reflexivity. Qed.

Lemma for_loop_total (S : Type)
  (body : S -> Z -> outcome (loop_exit S)) :
  (forall s i, exists r, body s i = Ok r) ->
  forall l s, exists r, for_loop body s l = Ok r.
Proof.
  intros Hbody. induction l as [| i l IH]; intros s.
  - eexists. reflexivity.
  - cbn [for_loop]. destruct (Hbody s i) as [[s' | rv s'] ->]; cbn [bind].
    + apply IH.
    + eexists. reflexivity.
Qed.

Lemma dentry_loop_body_total (h : tsk_exfatfs_h)
  (dec : FATFS_INFO -> list Z -> Z -> list Z -> Z -> Z ->
         TSKConversionResult * list Z)
  (cls : FATFS_INFO -> FATFS_DENTRY -> bool -> Z)
  (a_fatfs : FATFS_INFO) (a_buf : list FATFS_DENTRY)
  (base : Z) (s : parse_state) (idx : Z) :
  exists r, dentry_loop_body h true dec cls a_fatfs a_buf base s idx = Ok r.
Proof.
  unfold dentry_loop_body.
  match goal with
  | |- context [if ?b then _ else _] => destruct b
  end; [eexists; reflexivity |].
  match goal with
  | |- context [select_case h ?ty] => destruct (select_case h ty)
  end;
    match goal with
    | |- context [bind (bind ?c _) _] =>
        let Htot := fresh "Htot" in
        assert (exists i', c = Ok i') as Htot
          by first [ apply file_dentry_total
                   | apply file_stream_dentry_total
                   | apply file_name_dentry_total
                   | apply vol_label_dentry_total
                   | apply special_file_dentry_total
                   | apply finalize_total ];
        destruct Htot as [i' ->]
    end; eexists; reflexivity.
Qed.

Lemma parse_sectors_total (h : tsk_exfatfs_h)
  (dec : FATFS_INFO -> list Z -> Z -> list Z -> Z -> Z ->
         TSKConversionResult * list Z)
  (cls : FATFS_INFO -> FATFS_DENTRY -> bool -> Z)
  (alloc : FATFS_INFO -> Z -> Z) (s2i : FATFS_INFO -> Z -> Z)
  (a_fatfs : FATFS_INFO) (a_buf : list FATFS_DENTRY) (addrs : list Z)
  (a_buf_len : Z) (s : parse_state) :
  ssize a_fatfs <> 0 ->
  exists r,
    parse_sectors h true dec cls alloc s2i a_fatfs a_buf addrs a_buf_len s
    = Ok r.
Proof.
  intros Hss. rewrite parse_sectors_nonzero by exact Hss.
  apply for_loop_total. clear s.
  intros s idx. unfold sector_loop_body.
  repeat match goal with
         | |- context [if ?b then _ else _] =>
             destruct b; [eexists; reflexivity |]
         end.
  apply for_loop_total. intros s0 i0. apply dentry_loop_body_total.
Qed.

(** ** C8: the corrupt-directory flag *)

(** C8. The classifier answers with an enumerator, and the [switch] of
    the driver takes its [default] case exactly for the entries that the
    classifier rejects ([EXFATFS_DIR_ENTRY_TYPE_NONE]). During one call
    of the driver every iteration records the answer of the classifier
    for the current entry, and the corrupt-directory flag is set exactly
    when four entries at least were processed and the classifier
    rejected the first four of them; it is never cleared afterwards;
    and the hint given to the classifier for an entry is the allocation
    status of the sector as long as the flag is not set, and is off once
    it is set, also in an allocated sector. A build without assertions
    reaches the end of the loops when the size of a sector is not 0. *)
Theorem C8_corrupt_flag_first_four_and_sticky
  (h : tsk_exfatfs_h) (NDEBUG : bool)
  (fatfs_utf16_inode_str_2_utf8 :
     FATFS_INFO -> list Z -> Z -> list Z -> Z -> Z ->
     TSKConversionResult * list Z)
  (exfatfs_is_dentry : FATFS_INFO -> FATFS_DENTRY -> bool -> Z)
  (fatfs_is_sectalloc : FATFS_INFO -> Z -> Z)
  (FATFS_SECT_2_INODE : FATFS_INFO -> Z -> Z)
  (a_fatfs : FATFS_INFO) (a_buf : list FATFS_DENTRY)
  (a_sector_addrs : list Z) (a_buf_len : Z)
  (a_fs_dir : TSK_FS_DIR) (n : TSK_FS_NAME) :
  tags_ok h ->
  classifier_answers_enum h exfatfs_is_dentry ->
  (forall ty,
     In ty (dir_entry_types h) ->
     (select_case h ty = CaseDefault <-> unclassifiable h ty = true))
  /\ (forall base s idx s',
        dentry_loop_body h NDEBUG fatfs_utf16_inode_str_2_utf8
          exfatfs_is_dentry a_fatfs a_buf base s idx = Ok (Continue s') ->
        let answer :=
          exfatfs_is_dentry a_fatfs (current_dentry_of a_buf s)
            (classifier_hint s) in
        classifier_calls s'
        = classifier_calls s
          ++ [{| call_sector_is_allocated :=
                   sector_is_allocated (name_info s);
                 call_hint := classifier_hint s;
                 call_result := answer |}]
        /\ invalid_entries_count s'
           = (if unclassifiable h answer then invalid_entries_count s + 1
              else invalid_entries_count s)
        /\ is_corrupt_dir s'
           = (if unclassifiable h answer
                 && (entries_count s + 1 =? 4)
                 && (invalid_entries_count s + 1 =? 4)
              then true else is_corrupt_dir s))
  /\ (forall r,
        parse_sectors h NDEBUG fatfs_utf16_inode_str_2_utf8
          exfatfs_is_dentry fatfs_is_sectalloc FATFS_SECT_2_INODE a_fatfs
          a_buf a_sector_addrs a_buf_len (initial_state a_fatfs a_fs_dir n)
        = Ok r ->
        is_corrupt_dir (state_of r)
        = first_four_unclassifiable h (classifier_calls (state_of r))
        /\ (forall k c,
              nth_error (classifier_calls (state_of r)) k = Some c ->
              call_hint c
              = negb (first_four_unclassifiable h
                        (firstn k (classifier_calls (state_of r))))
                && negb (call_sector_is_allocated c =? 0)))
  /\ (forall calls k k',
        (k <= k')%nat ->
        first_four_unclassifiable h (firstn k calls) = true ->
        first_four_unclassifiable h (firstn k' calls) = true)
  /\ (forall base s idx s',
        dentry_loop_body h NDEBUG fatfs_utf16_inode_str_2_utf8
          exfatfs_is_dentry a_fatfs a_buf base s idx = Ok (Continue s') ->
        is_corrupt_dir s = true ->
        is_corrupt_dir s' = true
        /\ exists c,
             classifier_calls s' = classifier_calls s ++ [c]
             /\ call_hint c = false)
  /\ (ssize a_fatfs <> 0 ->
      exists r,
        parse_sectors h true fatfs_utf16_inode_str_2_utf8
          exfatfs_is_dentry fatfs_is_sectalloc FATFS_SECT_2_INODE a_fatfs
          a_buf a_sector_addrs a_buf_len (initial_state a_fatfs a_fs_dir n)
        = Ok r).
Proof.
  intros Hh Henum. split; [| split; [| split; [| split; [| split]]]].
  - intros ty Hin.
    rewrite <- (default_case_unclassifiable h ty Hh Hin).
    unfold default_case.
    destruct (select_case h ty); split; intros H;
      first [reflexivity | discriminate H].
  - intros base s idx s' Hrun answer.
    apply dentry_loop_body_counters in Hrun.
    destruct Hrun as (ty & Hty & Hcalls & _ & Hic & Hflag).
    fold answer in Hty. subst ty.
    rewrite (default_case_unclassifiable h answer Hh) in Hic, Hflag
      by apply Henum.
    auto.
  - intros r Hrun. apply parse_sectors_inv in Hrun; [| assumption ..].
    destruct Hrun as [Hflag Hhints]. split; [exact Hflag |].
    intros k c Hk. apply (Hhints k c Hk).
  - apply first_four_sticky.
  - intros base s idx s' Hrun Hset.
    apply dentry_loop_body_counters in Hrun.
    destruct Hrun as (ty & _ & Hcalls & _ & _ & Hflag).
    split.
    + rewrite Hflag, Hset.
      match goal with
      | |- (if ?b then _ else _) = _ => destruct b
      end; reflexivity.
    + eexists. split; [exact Hcalls |].
      cbn [call_hint]. unfold classifier_hint. rewrite Hset. reflexivity.
  - apply parse_sectors_total.
Qed.

Lemma tag_classifier_answers_enum (h : tsk_exfatfs_h) :
  classifier_answers_enum h (tag_classifier h).
Proof.
  intros f d hint. unfold tag_classifier.
  destruct (existsb (Z.eqb (data_at d 0)) (dir_entry_types h)) eqn:Hex.
  - apply existsb_exists in Hex. destruct Hex as (x & Hin & Heq).
    apply Z.eqb_eq in Heq. rewrite Heq. exact Hin.
  - unfold dir_entry_types. cbn [In]. auto.
Qed.

Lemma C8_corrupt_flag_first_four_and_sticky_witness :
  exists s,
    parse_sectors exfat_h false ascii_decoder (tag_classifier exfat_h)
      sectalloc_all sect_2_inode16 fatfs0 corrupt_then_file_buf [0] 512
      (initial_state fatfs0 {| names := [] |} fs_name0) = Ok (Continue s)
    /\ is_corrupt_dir s = true
    /\ map call_result (firstn 5 (classifier_calls s))
       = [0xFF; 0xFF; 0xFF; 0xFF; 0x85]
    /\ map call_hint (classifier_calls s)
       = [true; true; true; true; false; false; false; false;
          false; false; false; false; false; false; false; false].
Proof.
  eexists. split; [vm_compute; reflexivity |].
  split; [| split; reflexivity].
  match goal with
  | |- is_corrupt_dir ?s = true =>
      destruct (C8_corrupt_flag_first_four_and_sticky exfat_h false
                  ascii_decoder (tag_classifier exfat_h) sectalloc_all
                  sect_2_inode16 fatfs0 corrupt_then_file_buf [0] 512
                  {| names := [] |} fs_name0 exfat_h_tags_ok
                  (tag_classifier_answers_enum exfat_h))
        as (_ & _ & Hrun & _);
      destruct (Hrun (Continue s)) as [Hflag _];
        [vm_compute; reflexivity |];
      cbn [state_of] in Hflag; rewrite Hflag; reflexivity
  end.
Defined.

(** ** C4: an inode address out of range *)

(** C4 (the code at the failing input). When the inode address of a
    sector exceeds the last inode address the driver frees the name and
    returns [TSK_COR]; when the inode address of an entry is out of range
    it frees the name and returns [TSK_ERR], the value it returns for an
    argument error, and sets no error number. On a file system whose last
    inode address is 10 the parse of the sector of the inode addresses 3
    to 18 returns [TSK_ERR]. *)
Theorem C4_entry_inode_out_of_range_returns_TSK_ERR
  (h : tsk_exfatfs_h) (NDEBUG : bool)
  (fatfs_utf16_inode_str_2_utf8 :
     FATFS_INFO -> list Z -> Z -> list Z -> Z -> Z ->
     TSKConversionResult * list Z)
  (exfatfs_is_dentry : FATFS_INFO -> FATFS_DENTRY -> bool -> Z)
  (fatfs_is_sectalloc : FATFS_INFO -> Z -> Z)
  (FATFS_SECT_2_INODE : FATFS_INFO -> Z -> Z)
  (a_fatfs : FATFS_INFO) (a_buf : list FATFS_DENTRY)
  (a_sector_addrs : list Z) (s : parse_state) :
  (forall base idx,
     fatfs_is_inum_in_range a_fatfs (uint64 (base + idx)) = false ->
     dentry_loop_body h NDEBUG fatfs_utf16_inode_str_2_utf8
       exfatfs_is_dentry a_fatfs a_buf base s idx
     = Ok (Return TSK_ERR
             (tsk_fs_name_free (set_entries_count (entries_count s + 1) s))))
  /\ (forall idx,
        FATFS_SECT_2_INODE a_fatfs (nth (Z.to_nat idx) a_sector_addrs 0)
          > last_inum (fs_info a_fatfs) ->
        sector_loop_body h NDEBUG fatfs_utf16_inode_str_2_utf8
          exfatfs_is_dentry fatfs_is_sectalloc FATFS_SECT_2_INODE a_fatfs
          a_buf a_sector_addrs s idx
        = Ok (Return TSK_COR
                (tsk_fs_name_free (set_tsk_errno (Some TSK_ERR_FS_ARG) s))))
  /\ TSK_ERR <> TSK_COR
  /\ exfatfs_dent_parse_buf exfat_h true ascii_decoder
       (tag_classifier exfat_h) sectalloc_all sect_2_inode16 name_alloc_ok
       (Some fatfs_small) (Some {| names := [] |}) (Some corrupt_buf) 512
       (Some [0])
     = Ok {| retval := TSK_ERR; result_errno := None;
             result_dir := Some {| names := [] |}; result_leak := false |}
  /\ exfatfs_dent_parse_buf exfat_h true ascii_decoder
       (tag_classifier exfat_h) sectalloc_all sect_2_inode16 name_alloc_ok
       (Some fatfs_small) (Some {| names := [] |}) (Some corrupt_buf) 512
       (Some [1])
     = Ok {| retval := TSK_COR; result_errno := Some TSK_ERR_FS_ARG;
             result_dir := Some {| names := [] |}; result_leak := false |}.
Proof.
  split; [| split; [| split; [| split]]].
  - intros base idx Hout. unfold dentry_loop_body. rewrite Hout.
    reflexivity.
  - intros idx Hout. unfold sector_loop_body.
    destruct (Z.gtb_spec
                (FATFS_SECT_2_INODE a_fatfs
                   (nth (Z.to_nat idx) a_sector_addrs 0))
                (last_inum (fs_info a_fatfs))); [reflexivity | lia].
  - discriminate.
  - vm_compute. reflexivity.
  - vm_compute. reflexivity.
Qed.

(** ** C5: the length of the buffer *)

(** C5 (the code at the failing input). A null pointer among the
    arguments makes the driver return [TSK_ERR] with the error number of
    an argument error, and so does a negative length in a build without
    assertions. With the length 0 and no null pointer the driver never
    returns an argument error: a build with assertions aborts on
    [assert(a_buf_len > 0)], a build without them goes on, finds no
    sector, and returns [TSK_OK] (if the name can be allocated); the
    only other way out is the division by a sector size 0. *)
Theorem C5_zero_length_is_not_an_argument_error
  (h : tsk_exfatfs_h) (NDEBUG : bool)
  (fatfs_utf16_inode_str_2_utf8 :
     FATFS_INFO -> list Z -> Z -> list Z -> Z -> Z ->
     TSKConversionResult * list Z)
  (exfatfs_is_dentry : FATFS_INFO -> FATFS_DENTRY -> bool -> Z)
  (fatfs_is_sectalloc : FATFS_INFO -> Z -> Z)
  (FATFS_SECT_2_INODE : FATFS_INFO -> Z -> Z)
  (tsk_fs_name_alloc : Z -> Z -> option TSK_FS_NAME)
  (a_fatfs : FATFS_INFO) (a_fs_dir : TSK_FS_DIR)
  (a_buf : list FATFS_DENTRY) (a_sector_addrs : list Z) :
  let parse :=
    exfatfs_dent_parse_buf h NDEBUG fatfs_utf16_inode_str_2_utf8
      exfatfs_is_dentry fatfs_is_sectalloc FATFS_SECT_2_INODE
      tsk_fs_name_alloc in
  let argument_error dir :=
    Ok {| retval := TSK_ERR; result_errno := Some TSK_ERR_FS_ARG;
          result_dir := dir; result_leak := false |} in
  (forall len,
     parse None (Some a_fs_dir) (Some a_buf) len (Some a_sector_addrs)
     = argument_error (Some a_fs_dir)
     /\ parse (Some a_fatfs) None (Some a_buf) len (Some a_sector_addrs)
        = argument_error None
     /\ parse (Some a_fatfs) (Some a_fs_dir) None len (Some a_sector_addrs)
        = argument_error (Some a_fs_dir)
     /\ parse (Some a_fatfs) (Some a_fs_dir) (Some a_buf) len None
        = argument_error (Some a_fs_dir))
  /\ (forall len,
        len < 0 ->
        parse (Some a_fatfs) (Some a_fs_dir) (Some a_buf) len
          (Some a_sector_addrs)
        = (if NDEBUG then argument_error (Some a_fs_dir) else AssertFail))
  /\ match
       parse (Some a_fatfs) (Some a_fs_dir) (Some a_buf) 0
         (Some a_sector_addrs)
     with
     | AssertFail => NDEBUG = false
     | DivByZero => NDEBUG = true /\ ssize a_fatfs = 0
     | Ok r =>
         NDEBUG = true
         /\ result_errno r <> Some TSK_ERR_FS_ARG
         /\ (retval r = TSK_OK
             \/ tsk_fs_name_alloc (EXFATFS_MAX_NAME_LEN_UTF8 h) 0 = None)
     end.
Proof.
  intros parse argument_error. subst parse argument_error.
  split; [| split].
  - intros len. repeat split; reflexivity.
  - intros len Hlen. unfold exfatfs_dent_parse_buf, assert.
    destruct (Z.gtb_spec len 0); [lia |].
    destruct (Z.ltb_spec len 0); [| lia].
    destruct NDEBUG; reflexivity.
  - unfold exfatfs_dent_parse_buf, assert.
    destruct NDEBUG; cbn [Z.gtb Z.ltb Z.compare bind]; [| reflexivity].
    destruct (tsk_fs_name_alloc (EXFATFS_MAX_NAME_LEN_UTF8 h) 0)
      as [n |].
    + unfold parse_sectors, c_div.
      destruct (Z.eqb_spec (ssize a_fatfs) 0) as [Hz | Hnz].
      * cbn. split; [reflexivity | exact Hz].
      * cbn. split; [reflexivity |]. split; [discriminate | left].
        reflexivity.
    + cbn. split; [reflexivity |]. split; [discriminate | right].
      reflexivity.
Qed.

(** ** C9: the entries given to the handler of special files *)

(** C9 (the code at the failing input). The [switch] of the driver sends
    an entry that the classifier typed as TexFAT to the handler of
    special file entries, and the assertion of that handler on the type
    byte does not list TexFAT: for an entry whose type byte is the TexFAT
    tag the asserted condition is false, a build with assertions aborts
    in the handler and so does the iteration of the driver that
    dispatches the entry. *)
Theorem C9_tex_fat_dispatched_fails_assertion
  (h : tsk_exfatfs_h)
  (fatfs_utf16_inode_str_2_utf8 :
     FATFS_INFO -> list Z -> Z -> list Z -> Z -> Z ->
     TSKConversionResult * list Z)
  (exfatfs_is_dentry : FATFS_INFO -> FATFS_DENTRY -> bool -> Z)
  (a_fatfs : FATFS_INFO) (a_buf : list FATFS_DENTRY)
  (base : Z) (s : parse_state) (idx : Z) :
  tags_ok h ->
  data_at (current_dentry_of a_buf s) 0 = EXFATFS_DIR_ENTRY_TYPE_TEX_FAT h ->
  exfatfs_is_dentry a_fatfs (current_dentry_of a_buf s) (classifier_hint s)
  = EXFATFS_DIR_ENTRY_TYPE_TEX_FAT h ->
  fatfs_is_inum_in_range a_fatfs (uint64 (base + idx)) = true ->
  select_case h (EXFATFS_DIR_ENTRY_TYPE_TEX_FAT h) = CaseSpecialFile
  /\ special_file_type_asserted h (current_dentry_of a_buf s) = false
  /\ (forall i inum,
        exfats_parse_special_file_dentry h false i (current_dentry_of a_buf s)
          inum = AssertFail)
  /\ dentry_loop_body h false fatfs_utf16_inode_str_2_utf8
       exfatfs_is_dentry a_fatfs a_buf base s idx = AssertFail.
Proof.
  intros Hh Hbyte Hcls Hin.
  assert (select_case h (EXFATFS_DIR_ENTRY_TYPE_TEX_FAT h)
          = CaseSpecialFile) as Hcase.
  { tag_facts Hh. unfold select_case. tag_eqb. reflexivity. }
  assert (special_file_type_asserted h (current_dentry_of a_buf s)
          = false) as Hassert.
  { tag_facts Hh. unfold special_file_type_asserted. rewrite Hbyte.
    tag_eqb. reflexivity. }
  assert (forall i inum,
            exfats_parse_special_file_dentry h false i
              (current_dentry_of a_buf s) inum = AssertFail) as Hfail.
  { intros i inum. unfold exfats_parse_special_file_dentry,
      special_file_dentry_asserted, assert.
    rewrite Hassert, andb_false_r. reflexivity. }
  split; [exact Hcase |]. split; [exact Hassert |].
  split; [exact Hfail |].
  unfold dentry_loop_body. rewrite Hin. cbn [negb].
  change (classifier_hint (set_entries_count (entries_count s + 1) s))
    with (classifier_hint s).
  change (current_dentry_of a_buf
            (set_entries_count (entries_count s + 1) s))
    with (current_dentry_of a_buf s).
  rewrite Hcls, Hcase. fields. rewrite Hfail. reflexivity.
Qed.

Lemma C9_tex_fat_dispatched_fails_assertion_witness :
  select_case exfat_h 0xA1 = CaseSpecialFile
  /\ special_file_type_asserted exfat_h tex_fat_dentry = false
  /\ dentry_loop_body exfat_h false ascii_decoder (tag_classifier exfat_h)
       fatfs0 tex_fat_buf 3
       (initial_state fatfs0 {| names := [] |} fs_name0) 0 = AssertFail.
Proof.
  destruct (C9_tex_fat_dispatched_fails_assertion exfat_h ascii_decoder
              (tag_classifier exfat_h) fatfs0 tex_fat_buf 3
              (initial_state fatfs0 {| names := [] |} fs_name0) 0
              exfat_h_tags_ok eq_refl eq_refl eq_refl)
    as (Hcase & Hassert & _ & Hbody).
  split; [exact Hcase |]. split; [exact Hassert | exact Hbody].
Defined.

(** The whole parse of a sector that starts with a TexFAT entry: a build
    with assertions aborts, a build without them names the entry. *)
Lemma tex_fat_sector_parse :
  exfatfs_dent_parse_buf exfat_h false ascii_decoder
    (tag_classifier exfat_h) sectalloc_all sect_2_inode16 name_alloc_ok
    (Some fatfs0) (Some {| names := [] |}) (Some tex_fat_buf) 512
    (Some [0]) = AssertFail
  /\ exists r,
       exfatfs_dent_parse_buf exfat_h true ascii_decoder
         (tag_classifier exfat_h) sectalloc_all sect_2_inode16
         name_alloc_ok (Some fatfs0) (Some {| names := [] |})
         (Some tex_fat_buf) 512 (Some [0]) = Ok r
       /\ retval r = TSK_OK
       /\ option_map dir_strings (result_dir r)
          = Some [EXFATFS_TEX_FAT_VIRT_FILENAME exfat_h].
Proof.
  split; [vm_compute; reflexivity |].
  eexists. split; [vm_compute; reflexivity |]. split; reflexivity.
Qed.

(** ** Runs of the whole parser *)

(** The file [HELLO] in an allocated sector: one record, a regular file,
    allocated, with the inode address of its file entry. *)
Lemma simple_file_parse :
  exists r,
    exfatfs_dent_parse_buf exfat_h false ascii_decoder
      (tag_classifier exfat_h) sectalloc_all sect_2_inode16 name_alloc_ok
      (Some fatfs0) (Some {| names := [] |}) (Some hello_buf) 512
      (Some [0]) = Ok r
    /\ retval r = TSK_OK
    /\ result_leak r = false
    /\ option_map dir_strings (result_dir r) = Some [[72; 69; 76; 76; 79]]
    /\ option_map (fun d => map type (names d)) (result_dir r)
       = Some [TSK_FS_NAME_TYPE_REG]
    /\ option_map (fun d => map flags (names d)) (result_dir r)
       = Some [TSK_FS_NAME_FLAG_ALLOC]
    /\ option_map (fun d => map meta_addr (names d)) (result_dir r)
       = Some [3].
Proof.
  eexists. split; [vm_compute; reflexivity |]. repeat split; reflexivity.
Qed.

(** ** The check sum of a deleted entry *)

Lemma data_at_tail (d d' : FATFS_DENTRY) (k : nat) :
  tl (data d) = tl (data d') ->
  data_at d (Z.of_nat (S k)) = data_at d' (Z.of_nat (S k)).
Proof.
  intros Htl. unfold data_at. rewrite Nat2Z.id.
  destruct (data d) as [| a l], (data d') as [| a' l'];
    cbn [tl] in Htl; subst; try reflexivity.
  - cbn [nth]. destruct k; reflexivity.
  - cbn [nth]. destruct k; reflexivity.
Qed.

(** X11. An entry marked as deleted has the check sum it had when it was in
    use: the entries [d] and [d'] differ in their type byte only, [d]
    with an in-use tag and [d'] with the deleted tag that pairs with
    it. *)
Lemma checksum_of_deleted_entry (h : tsk_exfatfs_h) (NDEBUG : bool)
  (i : EXFATFS_FS_NAME_INFO) (d d' : FATFS_DENTRY) :
  tags_ok h ->
  dentry_ok d -> dentry_ok d' ->
  tl (data d) = tl (data d') ->
  (entry_type d = EXFATFS_DIR_ENTRY_TYPE_FILE h
   /\ entry_type d' = EXFATFS_DIR_ENTRY_TYPE_DELETED_FILE h)
  \/ (entry_type d = EXFATFS_DIR_ENTRY_TYPE_FILE_STREAM h
      /\ entry_type d' = EXFATFS_DIR_ENTRY_TYPE_DELETED_FILE_STREAM h)
  \/ (entry_type d = EXFATFS_DIR_ENTRY_TYPE_FILE_NAME h
      /\ entry_type d' = EXFATFS_DIR_ENTRY_TYPE_DELETED_FILE_NAME h) ->
  0 <= actual_check_sum i < 2 ^ 16 ->
  exfatfs_update_file_entry_set_checksum h NDEBUG i d
  = exfatfs_update_file_entry_set_checksum h NDEBUG i d'.
Proof.
  intros Hh [_ Hd] [_ Hd'] Htl Hpair Hc.
  unfold exfatfs_update_file_entry_set_checksum.
  fold (entry_type d) (entry_type d').
  assert (checksum_dentry_type_asserted h (entry_type d) = true
          /\ checksum_dentry_type_asserted h (entry_type d') = true)
    as [Ha Ha'].
  { unfold checksum_dentry_type_asserted.
    destruct Hpair as [[-> ->] | [[-> ->] | [-> ->]]];
      rewrite !Z.eqb_refl; repeat rewrite orb_true_r; split; reflexivity. }
  rewrite !assert_true by assumption. fields.
  unfold entry_type.
  rewrite !checksum_loop_refines by assumption.
  assert (spec_is_file_entry h (entry_type d)
          = spec_is_file_entry h (entry_type d')
          /\ spec_folded_tag h (entry_type d)
             = spec_folded_tag h (entry_type d')) as [Hfile Htag].
  { pose proof Hh as Hh'. tag_facts Hh'.
    unfold spec_is_file_entry, spec_folded_tag.
    destruct Hpair as [[-> ->] | [[-> ->] | [-> ->]]];
      tag_eqb; split; reflexivity. }
  rewrite Hfile, Htag.
  do 3 f_equal. apply map_ext_in. intros z Hz.
  apply filter_In in Hz. destruct Hz as [Hz _].
  unfold upto in Hz. apply in_map_iff in Hz.
  destruct Hz as (k & <- & _).
  destruct k as [| k]; [reflexivity |].
  destruct (Z.eqb_spec (Z.of_nat (S k)) 0); [lia |].
  apply data_at_tail, Htl.
Qed.

(** * More properties of the parser *)

(** ** What the functions return, when they return *)

Lemma assert_inv (NDEBUG e : bool) (u : unit) :
  assert NDEBUG e = Ok u -> NDEBUG = true \/ e = true.
Proof. unfold assert. destruct NDEBUG, e; auto; discriminate. Qed.

Lemma Ok_inj (A : Type) (a b : A) : Ok a = Ok b -> a = b.
Proof. intros H. injection H as ->. reflexivity. Qed.

Lemma bind_assert_inv (A : Type) (NDEBUG e : bool) (k : outcome A) (a : A) :
  (assert NDEBUG e ;;; k) = Ok a -> k = Ok a.
Proof. unfold assert. destruct NDEBUG, e; cbn [bind]; auto; discriminate. Qed.

Lemma reset_inv (h : tsk_exfatfs_h) (NDEBUG : bool)
  (i i' : EXFATFS_FS_NAME_INFO) :
  exfatfs_reset_name_info h NDEBUG i = Ok i' -> i' = reset_value h i.
Proof.
  unfold exfatfs_reset_name_info. intros Hrun.
  apply bind_assert_inv in Hrun. injection Hrun as <-. reflexivity.
Qed.

Lemma finalize_inv (h : tsk_exfatfs_h) (NDEBUG : bool)
  (i i' : EXFATFS_FS_NAME_INFO) :
  exfatfs_add_name_to_dir_and_reset_info h NDEBUG i = Ok i' ->
  i' = finalize_value h i.
Proof.
  unfold exfatfs_add_name_to_dir_and_reset_info. intros Hrun.
  apply bind_assert_inv in Hrun. apply reset_inv in Hrun. exact Hrun.
Qed.

Lemma count_inv (h : tsk_exfatfs_h) (NDEBUG : bool)
  (i i' : EXFATFS_FS_NAME_INFO) :
  count_secondary_entry h NDEBUG i = Ok i' -> i' = count_value h i.
Proof.
  unfold count_secondary_entry, count_value. cbv zeta.
  match goal with
  | |- context [if ?b then _ else _] => destruct b
  end; intros Hrun.
  - apply finalize_inv in Hrun. exact Hrun.
  - injection Hrun as <-. reflexivity.
Qed.

(** ** The directory only grows *)

Lemma dir_extends_refl (d : TSK_FS_DIR) : dir_extends d d.
Proof. exists []. rewrite app_nil_r. auto. Qed.

Lemma dir_extends_trans (d1 d2 d3 : TSK_FS_DIR) :
  dir_extends d1 d2 -> dir_extends d2 d3 -> dir_extends d1 d3.
Proof.
  intros (l1 & H1 & F1) (l2 & H2 & F2). exists (l1 ++ l2).
  rewrite H2, H1, app_assoc. split; [reflexivity |].
  apply Forall_app. auto.
Qed.

Lemma frame_refl (i : EXFATFS_FS_NAME_INFO) : frame i i.
Proof. unfold frame. auto using dir_extends_refl. Qed.

Lemma frame_trans (i1 i2 i3 : EXFATFS_FS_NAME_INFO) :
  frame i1 i2 -> frame i2 i3 -> frame i1 i3.
Proof.
  intros (D1 & F1 & S1 & N1) (D2 & F2 & S2 & N2). unfold frame.
  split; [eapply dir_extends_trans; eassumption |]. split; [congruence |].
  split; congruence.
Qed.

Lemma frame_finalize_value (h : tsk_exfatfs_h) (i : EXFATFS_FS_NAME_INFO) :
  frame i (finalize_value h i).
Proof.
  unfold frame, finalize_value, reset_value.
  destruct (Z.gtb_spec (strlen (name (fs_name i))) 0) as [Hpos | Hnone];
    fields.
  - split; [| auto]. exists [fs_name i]. split; [reflexivity |].
    constructor; [| constructor]. unfold nonempty_name. lia.
  - split; [apply dir_extends_refl | auto].
Qed.

Lemma frame_count_value (h : tsk_exfatfs_h) (i : EXFATFS_FS_NAME_INFO) :
  frame i (count_value h i).
Proof.
  unfold count_value. cbv zeta.
  match goal with
  | |- context [if ?b then _ else _] => destruct b
  end.
  - apply (frame_trans i
             (set_actual_secondary_entry_count
                (uint8 (actual_secondary_entry_count i + 1)) i)).
    + unfold frame. fields. auto using dir_extends_refl.
    + apply frame_finalize_value.
  - unfold frame. fields. auto using dir_extends_refl.
Qed.

(** ** What the handlers keep *)

Ltac step_bind H :=
  match type of H with
  | bind ?c _ = Ok _ =>
      let x := fresh "i" in
      let E := fresh "E" in
      destruct c as [x | |] eqn:E; cbn [bind] in H;
        [| discriminate H | discriminate H]
  end.

Lemma checksum_inv (h : tsk_exfatfs_h) (NDEBUG : bool)
  (i i' : EXFATFS_FS_NAME_INFO) (d : FATFS_DENTRY) :
  exfatfs_update_file_entry_set_checksum h NDEBUG i d = Ok i' ->
  exists c, i' = set_actual_check_sum c i.
Proof.
  unfold exfatfs_update_file_entry_set_checksum. cbv zeta. intros Hrun.
  apply bind_assert_inv in Hrun. apply Ok_inj in Hrun. subst i'.
  eexists. reflexivity.
Qed.

Lemma name_length_inv_finalize_value (h : tsk_exfatfs_h)
  (i : EXFATFS_FS_NAME_INFO) :
  name_length_inv h (finalize_value h i).
Proof.
  unfold name_length_inv, finalize_value, reset_value. fields.
  repeat split; lia.
Qed.

Lemma name_length_inv_count_value (h : tsk_exfatfs_h)
  (i : EXFATFS_FS_NAME_INFO) :
  name_length_inv h i -> name_length_inv h (count_value h i).
Proof.
  intros Hinv. unfold count_value. cbv zeta.
  match goal with
  | |- context [if ?b then _ else _] => destruct b
  end; [apply name_length_inv_finalize_value | exact Hinv].
Qed.

Lemma file_dentry_keeps (h : tsk_exfatfs_h) (NDEBUG : bool)
  (i i' : EXFATFS_FS_NAME_INFO) (d : FATFS_DENTRY) (inum : Z) :
  exfats_parse_file_dentry h NDEBUG i d inum = Ok i' ->
  frame i i' /\ name_length_inv h i'.
Proof.
  unfold exfats_parse_file_dentry. intros Hrun.
  apply bind_assert_inv in Hrun. step_bind Hrun.
  apply finalize_inv in E. subst i0.
  apply checksum_inv in Hrun. destruct Hrun as [c ->].
  pose proof (frame_finalize_value h i) as Hf.
  pose proof (name_length_inv_finalize_value h i) as Hn.
  split.
  - destruct Hf as (D & F & S & N). unfold frame.
    repeat match goal with
           | |- context [if ?b then _ else _] => destruct b
           end; fields; auto.
  - unfold name_length_inv in *.
    repeat match goal with
           | |- context [if ?b then _ else _] => destruct b
           end; fields; split; try apply Hn; split; try apply Hn;
      intros _; unfold finalize_value, reset_value; fields; reflexivity.
Qed.

Lemma file_stream_dentry_keeps (h : tsk_exfatfs_h) (NDEBUG : bool)
  (i i' : EXFATFS_FS_NAME_INFO) (d : FATFS_DENTRY) (inum : Z) :
  exfats_parse_file_stream_dentry h NDEBUG i d inum = Ok i' ->
  frame i i'
  /\ (name_length_inv h i -> Forall is_byte (data d) ->
      name_length_inv h i').
Proof.
  unfold exfats_parse_file_stream_dentry. intros Hrun.
  apply bind_assert_inv in Hrun.
  destruct (stream_out_of_sequence h i) eqn:Hseq.
  { apply finalize_inv in Hrun. subst i'.
    split; [apply frame_finalize_value |].
    intros _ _. apply name_length_inv_finalize_value. }
  destruct (stream_in_use_mismatch h i d) eqn:Hmis.
  { apply finalize_inv in Hrun. subst i'.
    split; [apply frame_finalize_value |].
    intros _ _. apply name_length_inv_finalize_value. }
  step_bind Hrun. apply checksum_inv in E. destruct E as [c ->].
  apply count_inv in Hrun. subst i'.
  split.
  - eapply frame_trans; [| apply frame_count_value].
    unfold frame. fields. auto using dir_extends_refl.
  - intros (Hle & Hlt & Hfile) Hd.
    apply name_length_inv_count_value.
    assert (actual_name_length i = 0) as Hzero.
    { apply Hfile. unfold stream_out_of_sequence in Hseq.
      destruct (Z.eqb_spec (last_dentry_type i)
                  (EXFATFS_DIR_ENTRY_TYPE_FILE h)); [auto |].
      destruct (Z.eqb_spec (last_dentry_type i)
                  (EXFATFS_DIR_ENTRY_TYPE_DELETED_FILE h)); [auto |].
      discriminate. }
    pose proof (data_at_byte d (OFFSET_file_name_length h) Hd) as Hb.
    unfold is_byte in Hb.
    unfold name_length_inv. fields. rewrite Hzero. repeat split; lia.
Qed.

Lemma name_length_inv_reset_value (h : tsk_exfatfs_h)
  (i : EXFATFS_FS_NAME_INFO) :
  name_length_inv h (reset_value h i).
Proof.
  unfold name_length_inv, reset_value. fields. repeat split; lia.
Qed.

Lemma frame_reset_value (h : tsk_exfatfs_h) (i : EXFATFS_FS_NAME_INFO) :
  frame i (reset_value h i).
Proof. unfold frame, reset_value. fields. auto using dir_extends_refl. Qed.

(** The number of characters asked of the converter for a name entry. *)
Lemma num_chars_to_copy_bounds (h : tsk_exfatfs_h)
  (i : EXFATFS_FS_NAME_INFO) :
  0 <= EXFATFS_MAX_FILE_NAME_SEGMENT_LENGTH h ->
  0 <= actual_name_length i <= expected_name_length i ->
  expected_name_length i < 256 ->
  0 <= num_chars_to_copy h i <= EXFATFS_MAX_FILE_NAME_SEGMENT_LENGTH h
  /\ actual_name_length i + num_chars_to_copy h i
     <= expected_name_length i.
Proof.
  intros Hseg Hle Hlt. unfold num_chars_to_copy, size_t. cbv zeta.
  rewrite Z.mod_small by lia.
  destruct (Z.gtb_spec (expected_name_length i - actual_name_length i)
              (EXFATFS_MAX_FILE_NAME_SEGMENT_LENGTH h)); lia.
Qed.

Lemma file_name_dentry_keeps (h : tsk_exfatfs_h) (NDEBUG : bool)
  (dec : FATFS_INFO -> list Z -> Z -> list Z -> Z -> Z ->
         TSKConversionResult * list Z)
  (i i' : EXFATFS_FS_NAME_INFO) (d : FATFS_DENTRY) (inum : Z) :
  exfats_parse_file_name_dentry h NDEBUG dec i d inum = Ok i' ->
  frame i i'
  /\ (name_length_inv h i ->
      0 <= EXFATFS_MAX_FILE_NAME_SEGMENT_LENGTH h ->
      tags_ok h ->
      entry_type d = EXFATFS_DIR_ENTRY_TYPE_FILE_NAME h
      \/ entry_type d = EXFATFS_DIR_ENTRY_TYPE_DELETED_FILE_NAME h ->
      name_length_inv h i').
Proof.
  unfold exfats_parse_file_name_dentry. intros Hrun.
  apply bind_assert_inv in Hrun.
  destruct (name_out_of_sequence h i).
  { apply finalize_inv in Hrun. subst i'.
    split; [apply frame_finalize_value |].
    intros. apply name_length_inv_finalize_value. }
  destruct (name_in_use_mismatch h i d).
  { apply finalize_inv in Hrun. subst i'.
    split; [apply frame_finalize_value |].
    intros. apply name_length_inv_finalize_value. }
  cbv zeta in Hrun.
  change (num_chars_to_copy h (set_last_dentry_type (entry_type d) i))
    with (num_chars_to_copy h i) in Hrun.
  assert (tags_ok h ->
          entry_type d = EXFATFS_DIR_ENTRY_TYPE_FILE_NAME h
          \/ entry_type d = EXFATFS_DIR_ENTRY_TYPE_DELETED_FILE_NAME h ->
          entry_type d = EXFATFS_DIR_ENTRY_TYPE_FILE h
          \/ entry_type d = EXFATFS_DIR_ENTRY_TYPE_DELETED_FILE h ->
          False) as Hnofile.
  { intros Hh Hty Hfile. tag_facts Hh.
    destruct Hty as [Hty | Hty], Hfile as [Hfile | Hfile]; congruence. }
  destruct (name_chars_fit h (set_last_dentry_type (entry_type d) i)).
  - destruct (name_conversion h dec
                (set_last_dentry_type (entry_type d) i) d inum)
      as [[| | |] dest]; fields.
    + apply count_inv in Hrun. subst i'. split.
      * eapply frame_trans; [| apply frame_count_value].
        unfold frame. fields. auto using dir_extends_refl.
      * intros (Hle & Hlt & Hfile) Hseg Hh Hty.
        apply name_length_inv_count_value.
        destruct (num_chars_to_copy_bounds h i Hseg Hle Hlt) as [Hn Hsum].
        unfold name_length_inv. fields. unfold uint8.
        rewrite Z.mod_small by lia.
        split; [lia |]. split; [lia |].
        intros Hf. exfalso. exact (Hnofile Hh Hty Hf).
    + apply finalize_inv in Hrun. subst i'. split.
      * eapply frame_trans; [| apply frame_finalize_value].
        unfold frame. fields. auto using dir_extends_refl.
      * intros. apply name_length_inv_finalize_value.
    + apply finalize_inv in Hrun. subst i'. split.
      * eapply frame_trans; [| apply frame_finalize_value].
        unfold frame. fields. auto using dir_extends_refl.
      * intros. apply name_length_inv_finalize_value.
    + apply finalize_inv in Hrun. subst i'. split.
      * eapply frame_trans; [| apply frame_finalize_value].
        unfold frame. fields. auto using dir_extends_refl.
      * intros. apply name_length_inv_finalize_value.
  - apply count_inv in Hrun. subst i'. split.
    + eapply frame_trans; [| apply frame_count_value].
      unfold frame. fields. auto using dir_extends_refl.
    + intros (Hle & Hlt & Hfile) Hseg Hh Hty.
      apply name_length_inv_count_value.
      unfold name_length_inv. fields.
      split; [lia |]. split; [lia |].
      intros Hf. exfalso. exact (Hnofile Hh Hty Hf).
Qed.

Lemma vol_label_dentry_keeps (h : tsk_exfatfs_h) (NDEBUG : bool)
  (dec : FATFS_INFO -> list Z -> Z -> list Z -> Z -> Z ->
         TSKConversionResult * list Z)
  (i i' : EXFATFS_FS_NAME_INFO) (d : FATFS_DENTRY)
  (following : list Z) (inum : Z) :
  exfats_parse_vol_label_dentry h NDEBUG dec i d following inum = Ok i' ->
  frame i i' /\ name_length_inv h i'.
Proof.
  unfold exfats_parse_vol_label_dentry. intros Hrun.
  apply bind_assert_inv in Hrun. step_bind Hrun.
  apply finalize_inv in E. subst i0.
  pose proof (frame_finalize_value h i) as Hf.
  destruct (negb (entry_type d
                  =? EXFATFS_DIR_ENTRY_TYPE_VOLUME_LABEL_EMPTY h)).
  - destruct (vol_label_conversion h dec
                (set_last_dentry_type (entry_type d) (finalize_value h i))
                d following inum) as [[| | |] dest]; fields.
    + apply finalize_inv in Hrun. subst i'.
      split; [| apply name_length_inv_finalize_value].
      eapply frame_trans; [exact Hf |].
      eapply frame_trans; [| apply frame_finalize_value].
      unfold frame.
      match goal with
      | |- context [if ?b then _ else _] => destruct b
      end; fields; auto using dir_extends_refl.
    + apply reset_inv in Hrun. subst i'.
      split; [| apply name_length_inv_reset_value].
      eapply frame_trans; [exact Hf |].
      eapply frame_trans; [| apply frame_reset_value].
      unfold frame. fields. auto using dir_extends_refl.
    + apply reset_inv in Hrun. subst i'.
      split; [| apply name_length_inv_reset_value].
      eapply frame_trans; [exact Hf |].
      eapply frame_trans; [| apply frame_reset_value].
      unfold frame. fields. auto using dir_extends_refl.
    + apply reset_inv in Hrun. subst i'.
      split; [| apply name_length_inv_reset_value].
      eapply frame_trans; [exact Hf |].
      eapply frame_trans; [| apply frame_reset_value].
      unfold frame. fields. auto using dir_extends_refl.
  - apply Ok_inj in Hrun. subst i'. split.
    + eapply frame_trans; [exact Hf |].
      unfold frame. fields. auto using dir_extends_refl.
    + unfold name_length_inv, finalize_value, reset_value. fields.
      repeat split; lia.
Qed.

Lemma special_file_dentry_keeps (h : tsk_exfatfs_h) (NDEBUG : bool)
  (i i' : EXFATFS_FS_NAME_INFO) (d : FATFS_DENTRY) (inum : Z) :
  exfats_parse_special_file_dentry h NDEBUG i d inum = Ok i' ->
  frame i i' /\ name_length_inv h i'.
Proof.
  unfold exfats_parse_special_file_dentry. intros Hrun.
  apply bind_assert_inv in Hrun. step_bind Hrun.
  apply finalize_inv in E. subst i0.
  apply finalize_inv in Hrun. subst i'.
  split; [| apply name_length_inv_finalize_value].
  eapply frame_trans; [apply (frame_finalize_value h i) |].
  eapply frame_trans; [| apply frame_finalize_value].
  unfold frame. fields. auto using dir_extends_refl.
Qed.

(** ** What the loops of the driver keep *)

Lemma select_case_name (h : tsk_exfatfs_h) (ty : Z) :
  select_case h ty = CaseFileName ->
  ty = EXFATFS_DIR_ENTRY_TYPE_FILE_NAME h
  \/ ty = EXFATFS_DIR_ENTRY_TYPE_DELETED_FILE_NAME h.
Proof.
  unfold select_case.
  repeat match goal with
         | |- context [if ?b then _ else _] =>
             let E := fresh "E" in destruct b eqn:E; try discriminate
         end.
  intros _.
  match goal with
  | E : (_ =? EXFATFS_DIR_ENTRY_TYPE_FILE_NAME h) || _ = true |- _ =>
      apply orb_true_iff in E; destruct E as [E | E];
      apply Z.eqb_eq in E; auto
  end.
Qed.

Lemma current_dentry_bytes (a_buf : list FATFS_DENTRY) (s : parse_state) :
  buf_ok a_buf -> Forall is_byte (data (current_dentry_of a_buf s)).
Proof.
  intros Hbuf. unfold current_dentry_of.
  destruct (nth_in_or_default (Z.to_nat (dentry s)) a_buf {| data := [] |})
    as [Hin | ->].
  - unfold buf_ok in Hbuf. rewrite Forall_forall in Hbuf. auto.
  - constructor.
Qed.

(** An iteration of the loop over the entries: the directory grows, the
    name is freed exactly when the function returns, the entry pointer
    advances by one when it does not. *)
Lemma dentry_loop_body_keeps
  (h : tsk_exfatfs_h) (NDEBUG : bool)
  (dec : FATFS_INFO -> list Z -> Z -> list Z -> Z -> Z ->
         TSKConversionResult * list Z)
  (cls : FATFS_INFO -> FATFS_DENTRY -> bool -> Z)
  (a_fatfs : FATFS_INFO) (a_buf : list FATFS_DENTRY)
  (base : Z) (s : parse_state) (idx : Z) (r : loop_exit parse_state) :
  dentry_loop_body h NDEBUG dec cls a_fatfs a_buf base s idx = Ok r ->
  dir_extends (fs_dir (name_info s)) (fs_dir (name_info (state_of r)))
  /\ tsk_errno (state_of r) = tsk_errno s
  /\ match r with
     | Continue s' =>
         fs_name_live s' = fs_name_live s /\ dentry s' = dentry s + 1
     | Return _ s' => fs_name_live s' = false /\ dentry s' = dentry s
     end
  /\ (tags_ok h ->
      0 <= EXFATFS_MAX_FILE_NAME_SEGMENT_LENGTH h ->
      classifier_sound h cls ->
      buf_ok a_buf ->
      name_length_inv h (name_info s) ->
      name_length_inv h (name_info (state_of r))).
Proof.
  unfold dentry_loop_body. fields.
  destruct (negb (fatfs_is_inum_in_range a_fatfs (uint64 (base + idx)))).
  { intros Hrun. apply Ok_inj in Hrun. subst r. cbn [state_of]. fields.
    auto 10 using dir_extends_refl. }
  change (classifier_hint (set_entries_count (entries_count s + 1) s))
    with (classifier_hint s).
  change (current_dentry_of a_buf
            (set_entries_count (entries_count s + 1) s))
    with (current_dentry_of a_buf s).
  set (d := current_dentry_of a_buf s).
  set (ty := cls a_fatfs d (classifier_hint s)).
  destruct (select_case h ty) eqn:Hcase; intros Hrun;
    step_bind Hrun; apply Ok_inj in Hrun; subst r;
    step_bind E; apply Ok_inj in E; subst i;
    cbn [state_of]; fields.
  - apply file_dentry_keeps in E0. destruct E0 as [(D & _) Hinv].
    auto 10.
  - apply file_stream_dentry_keeps in E0. destruct E0 as [(D & _) Hinv].
    split; [exact D |]. split; [reflexivity |]. split; [auto |].
    intros _ _ _ Hbuf Hpre. apply Hinv; [exact Hpre |].
    apply current_dentry_bytes, Hbuf.
  - apply file_name_dentry_keeps in E0. destruct E0 as [(D & _) Hinv].
    split; [exact D |]. split; [reflexivity |]. split; [auto |].
    intros Hh Hseg Hcls _ Hpre. apply Hinv; try assumption.
    assert (default_case h ty = false) as Hknown
      by (unfold default_case; rewrite Hcase; reflexivity).
    apply Hcls in Hknown. fold ty in Hknown. unfold entry_type.
    rewrite <- Hknown. apply select_case_name, Hcase.
  - apply vol_label_dentry_keeps in E0. destruct E0 as [(D & _) Hinv].
    auto 10.
  - apply special_file_dentry_keeps in E0.
    destruct E0 as [(D & _) Hinv]. auto 10.
  - match type of E0 with
    | exfatfs_add_name_to_dir_and_reset_info _ _ (name_info ?x) = _ =>
        assert (name_info x = name_info s) as Hsame
          by (match goal with
              | |- context [if ?b then _ else _] => destruct b
              end; reflexivity);
        assert (tsk_errno x = tsk_errno s
                /\ fs_name_live x = fs_name_live s
                /\ dentry x = dentry s) as (He & Hl & Hd)
          by (match goal with
              | |- context [if ?b then _ else _] => destruct b
              end; auto)
    end.
    rewrite Hsame in E0. apply finalize_inv in E0. subst i0.
    rewrite He, Hl, Hd.
    split; [apply frame_finalize_value |]. split; [reflexivity |].
    split; [auto |]. intros. apply name_length_inv_finalize_value.
Qed.

Lemma sector_loop_body_keeps
  (h : tsk_exfatfs_h) (NDEBUG : bool)
  (dec : FATFS_INFO -> list Z -> Z -> list Z -> Z -> Z ->
         TSKConversionResult * list Z)
  (cls : FATFS_INFO -> FATFS_DENTRY -> bool -> Z)
  (alloc : FATFS_INFO -> Z -> Z) (s2i : FATFS_INFO -> Z -> Z)
  (a_fatfs : FATFS_INFO) (a_buf : list FATFS_DENTRY) (addrs : list Z)
  (dir0 : TSK_FS_DIR) (s : parse_state) (idx : Z)
  (r : loop_exit parse_state) :
  let P :=
    tags_ok h /\ 0 <= EXFATFS_MAX_FILE_NAME_SEGMENT_LENGTH h
    /\ classifier_sound h cls /\ buf_ok a_buf in
  loop_inv h P dir0 true s ->
  sector_loop_body h NDEBUG dec cls alloc s2i a_fatfs a_buf addrs s idx
  = Ok r ->
  match r with
  | Continue s' => loop_inv h P dir0 true s'
  | Return _ s' => loop_inv h P dir0 false s'
  end.
Proof.
  intros P Hinv. unfold sector_loop_body.
  destruct (s2i a_fatfs (nth (Z.to_nat idx) addrs 0)
            >? last_inum (fs_info a_fatfs)).
  { intros Hrun. apply Ok_inj in Hrun. subst r.
    destruct Hinv as (D & L & N). unfold loop_inv. fields. auto. }
  match goal with
  | |- context [if ?b then _ else _] => destruct b
  end.
  { intros Hrun. apply Ok_inj in Hrun. subst r.
    destruct Hinv as (D & L & N). unfold loop_inv. fields. auto. }
  apply (for_loop_invariant parse_state _
           (loop_inv h P dir0 true) (loop_inv h P dir0 false)).
  - clear. intros s i r (D & L & N) Hrun.
    apply dentry_loop_body_keeps in Hrun.
    destruct Hrun as (D' & _ & Hlive & N').
    assert (P -> name_length_inv h (name_info (state_of r))) as N''.
    { intros HP. pose proof HP as (Hh & Hseg & Hcls & Hbuf).
      apply N'; auto. }
    destruct r as [s' | rv s']; cbn [state_of] in *;
      destruct Hlive as [Hl _]; unfold loop_inv;
      (split; [eapply dir_extends_trans; eassumption |]);
      (split; [congruence | exact N'']).
  - destruct Hinv as (D & L & N). unfold loop_inv. fields. auto.
Qed.

Lemma parse_sectors_keeps
  (h : tsk_exfatfs_h) (NDEBUG : bool)
  (dec : FATFS_INFO -> list Z -> Z -> list Z -> Z -> Z ->
         TSKConversionResult * list Z)
  (cls : FATFS_INFO -> FATFS_DENTRY -> bool -> Z)
  (alloc : FATFS_INFO -> Z -> Z) (s2i : FATFS_INFO -> Z -> Z)
  (a_fatfs : FATFS_INFO) (a_buf : list FATFS_DENTRY) (addrs : list Z)
  (a_buf_len : Z) (a_fs_dir : TSK_FS_DIR) (n : TSK_FS_NAME)
  (r : loop_exit parse_state) :
  let P :=
    tags_ok h /\ 0 <= EXFATFS_MAX_FILE_NAME_SEGMENT_LENGTH h
    /\ classifier_sound h cls /\ buf_ok a_buf in
  parse_sectors h NDEBUG dec cls alloc s2i a_fatfs a_buf addrs a_buf_len
    (initial_state a_fatfs a_fs_dir n) = Ok r ->
  match r with
  | Continue s' => loop_inv h P a_fs_dir true s'
  | Return _ s' => loop_inv h P a_fs_dir false s'
  end.
Proof.
  intros P Hrun. apply parse_sectors_loop in Hrun.
  destruct Hrun as [_ Hrun].
  apply (for_loop_invariant parse_state _
           (loop_inv h P a_fs_dir true) (loop_inv h P a_fs_dir false))
    in Hrun.
  - exact Hrun.
  - intros s0 i0 r0. apply sector_loop_body_keeps.
  - unfold loop_inv, initial_state. fields.
    split; [apply dir_extends_refl |]. split; [reflexivity |].
    intros _. unfold name_length_inv. fields. repeat split; lia.
Qed.

(** ** The name is freed and the directory only grows *)

(** X1. Whatever [exfatfs_dent_parse_buf] returns, it has freed the name it
    allocated. *)
Theorem parse_buf_frees_name
  (h : tsk_exfatfs_h) (NDEBUG : bool)
  (fatfs_utf16_inode_str_2_utf8 :
     FATFS_INFO -> list Z -> Z -> list Z -> Z -> Z ->
     TSKConversionResult * list Z)
  (exfatfs_is_dentry : FATFS_INFO -> FATFS_DENTRY -> bool -> Z)
  (fatfs_is_sectalloc : FATFS_INFO -> Z -> Z)
  (FATFS_SECT_2_INODE : FATFS_INFO -> Z -> Z)
  (tsk_fs_name_alloc : Z -> Z -> option TSK_FS_NAME)
  (a_fatfs : option FATFS_INFO) (a_fs_dir : option TSK_FS_DIR)
  (a_buf : option (list FATFS_DENTRY)) (a_buf_len : Z)
  (a_sector_addrs : option (list Z)) (r : parse_result) :
  exfatfs_dent_parse_buf h NDEBUG fatfs_utf16_inode_str_2_utf8
    exfatfs_is_dentry fatfs_is_sectalloc FATFS_SECT_2_INODE
    tsk_fs_name_alloc a_fatfs a_fs_dir a_buf a_buf_len a_sector_addrs
  = Ok r ->
  result_leak r = false.
Proof.
  unfold exfatfs_dent_parse_buf.
  destruct a_fatfs as [f |], a_fs_dir as [dir |], a_buf as [buf |],
    a_sector_addrs as [addrs |];
    try (intros Hrun; apply Ok_inj in Hrun; subst r; reflexivity).
  intros Hrun. apply bind_assert_inv in Hrun.
  destruct (a_buf_len <? 0);
    [apply Ok_inj in Hrun; subst r; reflexivity |].
  destruct (tsk_fs_name_alloc (EXFATFS_MAX_NAME_LEN_UTF8 h) 0) as [n |];
    [| apply Ok_inj in Hrun; subst r; reflexivity].
  step_bind Hrun. apply parse_sectors_keeps in E.
  destruct i as [s | rv s].
  - step_bind Hrun. apply Ok_inj in Hrun. subst r. reflexivity.
  - apply Ok_inj in Hrun. subst r. destruct E as (_ & L & _).
    exact L.
Qed.

(** X2. Whatever [exfatfs_dent_parse_buf] returns, the directory it leaves is
    the directory it was given with records added at its end, and none
    of the records added has an empty name. *)
Theorem parse_buf_extends_directory
  (h : tsk_exfatfs_h) (NDEBUG : bool)
  (fatfs_utf16_inode_str_2_utf8 :
     FATFS_INFO -> list Z -> Z -> list Z -> Z -> Z ->
     TSKConversionResult * list Z)
  (exfatfs_is_dentry : FATFS_INFO -> FATFS_DENTRY -> bool -> Z)
  (fatfs_is_sectalloc : FATFS_INFO -> Z -> Z)
  (FATFS_SECT_2_INODE : FATFS_INFO -> Z -> Z)
  (tsk_fs_name_alloc : Z -> Z -> option TSK_FS_NAME)
  (a_fatfs : option FATFS_INFO) (a_fs_dir : TSK_FS_DIR)
  (a_buf : option (list FATFS_DENTRY)) (a_buf_len : Z)
  (a_sector_addrs : option (list Z)) (r : parse_result) :
  exfatfs_dent_parse_buf h NDEBUG fatfs_utf16_inode_str_2_utf8
    exfatfs_is_dentry fatfs_is_sectalloc FATFS_SECT_2_INODE
    tsk_fs_name_alloc a_fatfs (Some a_fs_dir) a_buf a_buf_len
    a_sector_addrs = Ok r ->
  exists dir',
    result_dir r = Some dir'
    /\ exists added,
         names dir' = names a_fs_dir ++ added
         /\ Forall (fun n => strlen (name n) > 0) added.
Proof.
  unfold exfatfs_dent_parse_buf.
  destruct a_fatfs as [f |], a_buf as [buf |],
    a_sector_addrs as [addrs |];
    try (intros Hrun; apply Ok_inj in Hrun; subst r;
         exists a_fs_dir; split; [reflexivity |];
         exact (dir_extends_refl a_fs_dir)).
  intros Hrun. apply bind_assert_inv in Hrun.
  destruct (a_buf_len <? 0);
    [apply Ok_inj in Hrun; subst r; exists a_fs_dir;
     split; [reflexivity | exact (dir_extends_refl a_fs_dir)] |].
  destruct (tsk_fs_name_alloc (EXFATFS_MAX_NAME_LEN_UTF8 h) 0) as [n |];
    [| apply Ok_inj in Hrun; subst r; exists a_fs_dir;
       split; [reflexivity | exact (dir_extends_refl a_fs_dir)]].
  step_bind Hrun. apply parse_sectors_keeps in E.
  destruct i as [s | rv s].
  - step_bind Hrun. apply Ok_inj in Hrun. subst r.
    apply finalize_inv in E0. subst i.
    destruct E as (D & _ & _).
    eexists. split; [reflexivity |]. fields.
    apply (dir_extends_trans _ _ _ D).
    apply frame_finalize_value.
  - apply Ok_inj in Hrun. subst r. destruct E as (D & _ & _).
    eexists. split; [reflexivity |]. exact D.
Qed.

Lemma parse_buf_frees_name_witness :
  exists r,
    exfatfs_dent_parse_buf exfat_h true ascii_decoder
      (tag_classifier exfat_h) sectalloc_all sect_2_inode16 name_alloc_ok
      (Some fatfs_small) (Some {| names := [] |}) (Some corrupt_buf) 512
      (Some [0]) = Ok r
    /\ retval r = TSK_ERR
    /\ result_leak r = false.
Proof.
  eexists. split; [vm_compute; reflexivity |]. split; [reflexivity |].
  apply (parse_buf_frees_name exfat_h true ascii_decoder
           (tag_classifier exfat_h) sectalloc_all sect_2_inode16
           name_alloc_ok (Some fatfs_small) (Some {| names := [] |})
           (Some corrupt_buf) 512 (Some [0])).
  vm_compute. reflexivity.
Defined.

Lemma parse_buf_extends_directory_witness :
  exists dir',
    option_map result_dir
      (match
         exfatfs_dent_parse_buf exfat_h false ascii_decoder
           (tag_classifier exfat_h) sectalloc_all sect_2_inode16
           name_alloc_ok (Some fatfs0) (Some {| names := [fs_name0] |})
           (Some hello_buf) 512 (Some [0])
       with
       | Ok r => Some r
       | _ => None
       end) = Some (Some dir')
    /\ exists added,
         names dir' = fs_name0 :: added
         /\ Forall (fun n => strlen (name n) > 0) added.
Proof.
  destruct (exfatfs_dent_parse_buf exfat_h false ascii_decoder
              (tag_classifier exfat_h) sectalloc_all sect_2_inode16
              name_alloc_ok (Some fatfs0) (Some {| names := [fs_name0] |})
              (Some hello_buf) 512 (Some [0])) as [r | |] eqn:Hrun;
    [| vm_compute in Hrun; discriminate Hrun ..].
  destruct (parse_buf_extends_directory exfat_h false ascii_decoder
              (tag_classifier exfat_h) sectalloc_all sect_2_inode16
              name_alloc_ok (Some fatfs0) {| names := [fs_name0] |}
              (Some hello_buf) 512 (Some [0]) r Hrun)
    as (dir' & Hdir & added & Hnames & Hall).
  exists dir'. cbn [option_map]. rewrite Hdir.
  split; [reflexivity |]. exists added. split; assumption.
Defined.

(** ** The length of the name *)

Lemma tag_classifier_sound : classifier_sound exfat_h (tag_classifier exfat_h).
Proof.
  intros f d hint. unfold tag_classifier.
  destruct (existsb (Z.eqb (data_at d 0)) (dir_entry_types exfat_h));
    [reflexivity |].
  intros H. vm_compute in H. discriminate H.
Qed.

Lemma dentry_of_bytes (l : list Z) :
  Forall is_byte l -> Forall is_byte (data (dentry_of l)).
Proof. intros Hl. apply (dentry_of_ok l Hl). Qed.

Ltac bytes :=
  repeat (apply Forall_cons; [unfold is_byte; lia |]); apply Forall_nil.

Lemma hello_buf_ok : buf_ok hello_buf.
Proof.
  unfold buf_ok, hello_buf. apply Forall_app. split.
  - repeat (apply Forall_cons; [apply dentry_of_bytes; bytes |]).
    apply Forall_nil.
  - apply Forall_forall. intros d Hd. apply repeat_spec in Hd. subst d.
    apply dentry_of_bytes. apply Forall_nil.
Qed.

(** X3. Between the entries of a buffer of bytes, with a classifier that
    answers with the type byte of the entries it recognises: the number
    of characters of the name counted so far is at most the length that
    the stream entry declared, every iteration of the driver keeps it
    so, and the handler of name entries then asks the converter for no
    more characters than a name entry holds and than are left of the
    declared length. *)
Theorem parse_keeps_name_length_within_declared
  (h : tsk_exfatfs_h) (NDEBUG : bool)
  (fatfs_utf16_inode_str_2_utf8 :
     FATFS_INFO -> list Z -> Z -> list Z -> Z -> Z ->
     TSKConversionResult * list Z)
  (exfatfs_is_dentry : FATFS_INFO -> FATFS_DENTRY -> bool -> Z)
  (fatfs_is_sectalloc : FATFS_INFO -> Z -> Z)
  (FATFS_SECT_2_INODE : FATFS_INFO -> Z -> Z)
  (a_fatfs : FATFS_INFO) (a_buf : list FATFS_DENTRY)
  (a_sector_addrs : list Z) (a_buf_len : Z)
  (a_fs_dir : TSK_FS_DIR) (n : TSK_FS_NAME) :
  tags_ok h ->
  0 <= EXFATFS_MAX_FILE_NAME_SEGMENT_LENGTH h ->
  classifier_sound h exfatfs_is_dentry ->
  buf_ok a_buf ->
  (forall r,
     parse_sectors h NDEBUG fatfs_utf16_inode_str_2_utf8 exfatfs_is_dentry
       fatfs_is_sectalloc FATFS_SECT_2_INODE a_fatfs a_buf a_sector_addrs
       a_buf_len (initial_state a_fatfs a_fs_dir n) = Ok r ->
     0 <= actual_name_length (name_info (state_of r))
       <= expected_name_length (name_info (state_of r))
     /\ expected_name_length (name_info (state_of r)) < 256)
  /\ (forall base s idx r,
        name_length_inv h (name_info s) ->
        dentry_loop_body h NDEBUG fatfs_utf16_inode_str_2_utf8
          exfatfs_is_dentry a_fatfs a_buf base s idx = Ok r ->
        name_length_inv h (name_info (state_of r)))
  /\ (forall i,
        name_length_inv h i ->
        0 <= num_chars_to_copy h i
          <= EXFATFS_MAX_FILE_NAME_SEGMENT_LENGTH h
        /\ actual_name_length i + num_chars_to_copy h i
           <= expected_name_length i).
Proof.
  intros Hh Hseg Hcls Hbuf. split; [| split].
  - intros r Hrun. apply parse_sectors_keeps in Hrun.
    assert (name_length_inv h (name_info (state_of r))) as (Hle & Hlt & _).
    { destruct r as [s | rv s]; destruct Hrun as (_ & _ & N);
        apply N; auto. }
    auto.
  - intros base s idx r Hinv Hrun.
    apply dentry_loop_body_keeps in Hrun.
    destruct Hrun as (_ & _ & _ & N). apply N; assumption.
  - intros i (Hle & Hlt & _).
    apply num_chars_to_copy_bounds; assumption.
Qed.

Lemma parse_keeps_name_length_within_declared_witness :
  exists s,
    parse_sectors exfat_h false ascii_decoder (tag_classifier exfat_h)
      sectalloc_all sect_2_inode16 fatfs0 hello_buf [0] 512
      (initial_state fatfs0 {| names := [] |} fs_name0) = Ok (Continue s)
    /\ 0 <= actual_name_length (name_info s)
         <= expected_name_length (name_info s).
Proof.
  eexists. split; [vm_compute; reflexivity |].
  destruct (parse_keeps_name_length_within_declared exfat_h false
              ascii_decoder (tag_classifier exfat_h) sectalloc_all
              sect_2_inode16 fatfs0 hello_buf [0] 512 {| names := [] |}
              fs_name0 exfat_h_tags_ok)
    as (Hrun & _).
  - simpl. lia.
  - exact tag_classifier_sound.
  - exact hello_buf_ok.
  - match goal with
    | |- 0 <= actual_name_length (name_info ?s) <= _ =>
        destruct (Hrun (Continue s)) as [Hle _];
          [vm_compute; reflexivity | exact Hle]
    end.
Defined.

(** ** The value that the driver returns *)

Lemma In_upto (n i : Z) : In i (upto n) <-> 0 <= i < n.
Proof.
  unfold upto. rewrite in_map_iff. split.
  - intros (k & <- & Hk). apply in_seq in Hk. lia.
  - intros Hi. exists (Z.to_nat i). split; [lia |].
    apply in_seq. lia.
Qed.

(** A loop that returns does so in one of its iterations. *)
Lemma for_loop_return (S : Type)
  (body : S -> Z -> outcome (loop_exit S)) (l : list Z) :
  forall s rv s',
    for_loop body s l = Ok (Return rv s') ->
    exists s0 i, In i l /\ body s0 i = Ok (Return rv s').
Proof.
  induction l as [| i l IH]; intros s rv s' Hrun.
  - discriminate Hrun.
  - cbn [for_loop] in Hrun.
    destruct (body s i) as [[s1 | rv1 s1] | |] eqn:Hstep;
      cbn [bind] in Hrun.
    + destruct (IH s1 rv s' Hrun) as (s0 & j & Hj & Hbody).
      exists s0, j. split; [right; exact Hj | exact Hbody].
    + apply Ok_inj in Hrun. injection Hrun as -> ->.
      exists s, i. split; [left; reflexivity | exact Hstep].
    + discriminate Hrun.
    + discriminate Hrun.
Qed.

Lemma dentry_loop_body_return
  (h : tsk_exfatfs_h) (NDEBUG : bool)
  (dec : FATFS_INFO -> list Z -> Z -> list Z -> Z -> Z ->
         TSKConversionResult * list Z)
  (cls : FATFS_INFO -> FATFS_DENTRY -> bool -> Z)
  (a_fatfs : FATFS_INFO) (a_buf : list FATFS_DENTRY)
  (base : Z) (s : parse_state) (idx : Z) (rv : TSK_RETVAL_ENUM)
  (s' : parse_state) :
  dentry_loop_body h NDEBUG dec cls a_fatfs a_buf base s idx
  = Ok (Return rv s') ->
  rv = TSK_ERR
  /\ fatfs_is_inum_in_range a_fatfs (uint64 (base + idx)) = false.
Proof.
  unfold dentry_loop_body.
  destruct (fatfs_is_inum_in_range a_fatfs (uint64 (base + idx)));
    cbn [negb]; intros Hrun.
  - step_bind Hrun. apply Ok_inj in Hrun. discriminate Hrun.
  - apply Ok_inj in Hrun. injection Hrun as <- _. auto.
Qed.

(** The error number is not touched by the loop over the entries. *)
Lemma dentry_loop_errno
  (h : tsk_exfatfs_h) (NDEBUG : bool)
  (dec : FATFS_INFO -> list Z -> Z -> list Z -> Z -> Z ->
         TSKConversionResult * list Z)
  (cls : FATFS_INFO -> FATFS_DENTRY -> bool -> Z)
  (a_fatfs : FATFS_INFO) (a_buf : list FATFS_DENTRY)
  (base : Z) (l : list Z) (s : parse_state) (r : loop_exit parse_state) :
  for_loop (dentry_loop_body h NDEBUG dec cls a_fatfs a_buf base) s l
  = Ok r ->
  tsk_errno (state_of r) = tsk_errno s.
Proof.
  intros Hrun.
  apply (for_loop_invariant parse_state _
           (fun s' => tsk_errno s' = tsk_errno s)
           (fun s' => tsk_errno s' = tsk_errno s)) in Hrun.
  - destruct r; exact Hrun.
  - intros s0 i0 r0 He Hstep. apply dentry_loop_body_keeps in Hstep.
    destruct Hstep as (_ & He' & _).
    destruct r0; cbn [state_of] in He'; congruence.
  - reflexivity.
Qed.

(** How an iteration of the loop over the sectors ends. *)
Lemma sector_loop_body_exit
  (h : tsk_exfatfs_h) (NDEBUG : bool)
  (dec : FATFS_INFO -> list Z -> Z -> list Z -> Z -> Z ->
         TSKConversionResult * list Z)
  (cls : FATFS_INFO -> FATFS_DENTRY -> bool -> Z)
  (alloc : FATFS_INFO -> Z -> Z) (s2i : FATFS_INFO -> Z -> Z)
  (a_fatfs : FATFS_INFO) (a_buf : list FATFS_DENTRY) (addrs : list Z)
  (s : parse_state) (k : Z) (r : loop_exit parse_state) :
  tsk_errno s = None ->
  sector_loop_body h NDEBUG dec cls alloc s2i a_fatfs a_buf addrs s k
  = Ok r ->
  let addr := nth (Z.to_nat k) addrs 0 in
  match r with
  | Continue s' => tsk_errno s' = None
  | Return rv s' =>
      (rv = TSK_COR
       /\ tsk_errno s' = Some TSK_ERR_FS_ARG
       /\ s2i a_fatfs addr > last_inum (fs_info a_fatfs))
      \/ (rv = TSK_ERR
          /\ tsk_errno s' = None
          /\ s2i a_fatfs addr <= last_inum (fs_info a_fatfs)
          /\ alloc a_fatfs addr <> -1
          /\ exists idx,
               0 <= idx < dentry_cnt_se a_fatfs
               /\ fatfs_is_inum_in_range a_fatfs
                    (uint64 (s2i a_fatfs addr + idx)) = false)
  end.
Proof.
  intros Herr. unfold sector_loop_body. cbv zeta.
  destruct (Z.gtb_spec (s2i a_fatfs (nth (Z.to_nat k) addrs 0))
              (last_inum (fs_info a_fatfs))) as [Hbig | Hsmall].
  { intros Hrun. apply Ok_inj in Hrun. subst r. left. fields.
    split; [reflexivity |]. split; [reflexivity | lia]. }
  fields.
  destruct (Z.eqb_spec (alloc a_fatfs (nth (Z.to_nat k) addrs 0)) (-1))
    as [Hfail | Hok].
  { intros Hrun. apply Ok_inj in Hrun. subst r. reflexivity. }
  intros Hrun. pose proof (dentry_loop_errno _ _ _ _ _ _ _ _ _ _ Hrun) as He.
  fields. rewrite Herr in He.
  destruct r as [s' | rv s']; cbn [state_of] in He; [exact He |].
  right. apply for_loop_return in Hrun.
  destruct Hrun as (s0 & idx & Hidx & Hstep).
  apply dentry_loop_body_return in Hstep. destruct Hstep as [-> Hout].
  apply In_upto in Hidx.
  split; [reflexivity |]. split; [exact He |]. split; [lia |].
  split; [exact Hok |]. exists idx. split; assumption.
Qed.

Lemma for_loop_return_inv (S : Type)
  (body : S -> Z -> outcome (loop_exit S)) (I : S -> Prop) (l : list Z) :
  (forall s i s', I s -> body s i = Ok (Continue s') -> I s') ->
  forall s r,
    I s -> for_loop body s l = Ok r ->
    match r with
    | Continue s' => I s'
    | Return rv s' =>
        exists s0 i, I s0 /\ In i l /\ body s0 i = Ok (Return rv s')
    end.
Proof.
  intros Hbody. induction l as [| i l IH]; intros s r Hs Hrun.
  - apply Ok_inj in Hrun. subst r. exact Hs.
  - cbn [for_loop] in Hrun.
    destruct (body s i) as [[s1 | rv1 s1] | |] eqn:Hstep;
      cbn [bind] in Hrun.
    + specialize (IH s1 r (Hbody s i s1 Hs Hstep) Hrun).
      destruct r as [s' | rv s']; [exact IH |].
      destruct IH as (s0 & j & H0 & Hj & Hb).
      exists s0, j. split; [exact H0 |]. split; [right; exact Hj |].
      exact Hb.
    + apply Ok_inj in Hrun. subst r.
      exists s, i. split; [exact Hs |]. split; [left; reflexivity |].
      exact Hstep.
    + discriminate Hrun.
    + discriminate Hrun.
Qed.

(** ** The value that [exfatfs_dent_parse_buf] returns *)

Lemma parse_buf_return_cases
  (h : tsk_exfatfs_h) (NDEBUG : bool)
  (fatfs_utf16_inode_str_2_utf8 :
     FATFS_INFO -> list Z -> Z -> list Z -> Z -> Z ->
     TSKConversionResult * list Z)
  (exfatfs_is_dentry : FATFS_INFO -> FATFS_DENTRY -> bool -> Z)
  (fatfs_is_sectalloc : FATFS_INFO -> Z -> Z)
  (FATFS_SECT_2_INODE : FATFS_INFO -> Z -> Z)
  (tsk_fs_name_alloc : Z -> Z -> option TSK_FS_NAME)
  (a_fatfs : FATFS_INFO) (a_fs_dir : TSK_FS_DIR)
  (a_buf : list FATFS_DENTRY) (a_buf_len : Z) (a_sector_addrs : list Z)
  (r : parse_result) :
  exfatfs_dent_parse_buf h NDEBUG fatfs_utf16_inode_str_2_utf8
    exfatfs_is_dentry fatfs_is_sectalloc FATFS_SECT_2_INODE
    tsk_fs_name_alloc (Some a_fatfs) (Some a_fs_dir) (Some a_buf)
    a_buf_len (Some a_sector_addrs) = Ok r ->
  let num_sectors := Z.quot a_buf_len (ssize a_fatfs) in
  let base k :=
    FATFS_SECT_2_INODE a_fatfs (nth (Z.to_nat k) a_sector_addrs 0) in
  let skipped k :=
    fatfs_is_sectalloc a_fatfs (nth (Z.to_nat k) a_sector_addrs 0) = -1 in
  let sector_out_of_range :=
    exists k,
      0 <= k < num_sectors /\ base k > last_inum (fs_info a_fatfs) in
  let entry_out_of_range :=
    exists k idx,
      0 <= k < num_sectors
      /\ base k <= last_inum (fs_info a_fatfs)
      /\ ~ skipped k
      /\ 0 <= idx < dentry_cnt_se a_fatfs
      /\ fatfs_is_inum_in_range a_fatfs (uint64 (base k + idx)) = false in
  match retval r with
  | TSK_OK => 0 <= a_buf_len /\ result_errno r = None
  | TSK_COR =>
      result_errno r = Some TSK_ERR_FS_ARG /\ sector_out_of_range
  | TSK_ERR =>
      (a_buf_len < 0 /\ result_errno r = Some TSK_ERR_FS_ARG)
      \/ (tsk_fs_name_alloc (EXFATFS_MAX_NAME_LEN_UTF8 h) 0 = None
          /\ result_errno r = Some TSK_ERR_AUX_MALLOC)
      \/ (result_errno r = None /\ entry_out_of_range)
  end.
Proof.
  intros Hrun num_sectors base skipped sector_out_of_range
    entry_out_of_range.
  unfold exfatfs_dent_parse_buf in Hrun.
  apply bind_assert_inv in Hrun.
  destruct (Z.ltb_spec a_buf_len 0) as [Hneg | Hpos].
  { apply Ok_inj in Hrun. subst r. left. split; [lia | reflexivity]. }
  destruct (tsk_fs_name_alloc (EXFATFS_MAX_NAME_LEN_UTF8 h) 0)
    as [n |].
  2:{ apply Ok_inj in Hrun. subst r. right. left. auto. }
  step_bind Hrun. apply parse_sectors_loop in E.
  destruct E as [Hss E].
  apply (for_loop_return_inv parse_state _
           (fun s => tsk_errno s = None)) in E.
  - destruct i as [s | rv s].
    + step_bind Hrun. apply Ok_inj in Hrun. subst r.
      fields. split; [exact Hpos | exact E].
    + apply Ok_inj in Hrun. subst r. fields.
      destruct E as (s0 & k & Herr & Hk & Hstep).
      apply In_upto in Hk.
      apply (sector_loop_body_exit _ _ _ _ _ _ _ _ _ _ _ _ Herr)
        in Hstep.
      destruct Hstep as [(-> & He & Hbig)
                        | (-> & He & Hsmall & Hok & idx & Hidx & Hout)].
      * split; [exact He |]. exists k. split; assumption.
      * right. right. split; [exact He |].
        exists k, idx. auto 10.
  - intros s0 k s1 Herr Hstep.
    apply (sector_loop_body_exit _ _ _ _ _ _ _ _ _ _ _ _ Herr) in Hstep.
    exact Hstep.
  - reflexivity.
Qed.

(** X4. Called without a null pointer, when [exfatfs_dent_parse_buf]
    returns, it returns [TSK_COR], with the error number of an argument
    error, only when the inode address of one of the sectors of the
    buffer exceeds the last inode address; it returns [TSK_ERR] only for
    a negative length, a name that cannot be allocated, or an entry, in
    a sector that is not skipped, whose inode address is out of range,
    and then without an error number; it returns [TSK_OK] without an
    error number. A build without assertions does return when the size
    of a sector is not 0, and returns [TSK_OK] if the length is not
    negative, the name is allocated and no sector and no entry of a
    sector that is not skipped has such an inode address. It does not
    return in a build with assertions when the length is not positive,
    nor, in a build without them, when the size of a sector is 0 and the
    division is reached. *)
Theorem parse_buf_return_value
  (h : tsk_exfatfs_h) (NDEBUG : bool)
  (fatfs_utf16_inode_str_2_utf8 :
     FATFS_INFO -> list Z -> Z -> list Z -> Z -> Z ->
     TSKConversionResult * list Z)
  (exfatfs_is_dentry : FATFS_INFO -> FATFS_DENTRY -> bool -> Z)
  (fatfs_is_sectalloc : FATFS_INFO -> Z -> Z)
  (FATFS_SECT_2_INODE : FATFS_INFO -> Z -> Z)
  (tsk_fs_name_alloc : Z -> Z -> option TSK_FS_NAME)
  (a_fatfs : FATFS_INFO) (a_fs_dir : TSK_FS_DIR)
  (a_buf : list FATFS_DENTRY) (a_buf_len : Z) (a_sector_addrs : list Z) :
  let parse_buf NDEBUG :=
    exfatfs_dent_parse_buf h NDEBUG fatfs_utf16_inode_str_2_utf8
      exfatfs_is_dentry fatfs_is_sectalloc FATFS_SECT_2_INODE
      tsk_fs_name_alloc (Some a_fatfs) (Some a_fs_dir) (Some a_buf)
      a_buf_len (Some a_sector_addrs) in
  let num_sectors := Z.quot a_buf_len (ssize a_fatfs) in
  let base k :=
    FATFS_SECT_2_INODE a_fatfs (nth (Z.to_nat k) a_sector_addrs 0) in
  let skipped k :=
    fatfs_is_sectalloc a_fatfs (nth (Z.to_nat k) a_sector_addrs 0) = -1 in
  let sector_out_of_range :=
    exists k,
      0 <= k < num_sectors /\ base k > last_inum (fs_info a_fatfs) in
  let entry_out_of_range :=
    exists k idx,
      0 <= k < num_sectors
      /\ base k <= last_inum (fs_info a_fatfs)
      /\ ~ skipped k
      /\ 0 <= idx < dentry_cnt_se a_fatfs
      /\ fatfs_is_inum_in_range a_fatfs (uint64 (base k + idx)) = false in
  (forall r,
     parse_buf NDEBUG = Ok r ->
     match retval r with
     | TSK_OK => 0 <= a_buf_len /\ result_errno r = None
     | TSK_COR =>
         result_errno r = Some TSK_ERR_FS_ARG /\ sector_out_of_range
     | TSK_ERR =>
         (a_buf_len < 0 /\ result_errno r = Some TSK_ERR_FS_ARG)
         \/ (tsk_fs_name_alloc (EXFATFS_MAX_NAME_LEN_UTF8 h) 0 = None
             /\ result_errno r = Some TSK_ERR_AUX_MALLOC)
         \/ (result_errno r = None /\ entry_out_of_range)
     end)
  /\ (ssize a_fatfs <> 0 ->
      exists r,
        parse_buf true = Ok r
        /\ (0 <= a_buf_len ->
            tsk_fs_name_alloc (EXFATFS_MAX_NAME_LEN_UTF8 h) 0 <> None ->
            ~ sector_out_of_range ->
            ~ entry_out_of_range ->
            retval r = TSK_OK))
  /\ (a_buf_len <= 0 -> parse_buf false = AssertFail)
  /\ (0 <= a_buf_len ->
      tsk_fs_name_alloc (EXFATFS_MAX_NAME_LEN_UTF8 h) 0 <> None ->
      ssize a_fatfs = 0 ->
      parse_buf true = DivByZero).
Proof.
  intros parse_buf num_sectors base skipped sector_out_of_range
    entry_out_of_range.
  split; [| split; [| split]].
  - intros r Hrun.
    exact (parse_buf_return_cases h NDEBUG fatfs_utf16_inode_str_2_utf8
             exfatfs_is_dentry fatfs_is_sectalloc FATFS_SECT_2_INODE
             tsk_fs_name_alloc a_fatfs a_fs_dir a_buf a_buf_len
             a_sector_addrs r Hrun).
  - intros Hss.
    assert (exists r, parse_buf true = Ok r) as [r Hrun].
    { subst parse_buf. cbv beta. unfold exfatfs_dent_parse_buf, assert.
      cbn [bind].
      destruct (a_buf_len <? 0); [eexists; reflexivity |].
      destruct (tsk_fs_name_alloc (EXFATFS_MAX_NAME_LEN_UTF8 h) 0)
        as [n |]; [| eexists; reflexivity].
      destruct (parse_sectors_total h fatfs_utf16_inode_str_2_utf8
                  exfatfs_is_dentry fatfs_is_sectalloc FATFS_SECT_2_INODE
                  a_fatfs a_buf a_sector_addrs a_buf_len
                  (initial_state a_fatfs a_fs_dir n) Hss) as [x Hx].
      rewrite Hx. cbn [bind]. destruct x as [s | rv s].
      - destruct (finalize_total h (name_info s)) as [i' Hi'].
        rewrite Hi'. cbn [bind]. eexists. reflexivity.
      - eexists. reflexivity. }
    exists r. split; [exact Hrun |].
    intros Hpos Halloc Hsect Hentry.
    pose proof (parse_buf_return_cases h true fatfs_utf16_inode_str_2_utf8
                  exfatfs_is_dentry fatfs_is_sectalloc FATFS_SECT_2_INODE
                  tsk_fs_name_alloc a_fatfs a_fs_dir a_buf a_buf_len
                  a_sector_addrs r Hrun) as Hmain.
    cbv zeta in Hmain.
    destruct (retval r); [reflexivity | |].
    + destruct Hmain as [[Hneg _] | [[Hnone _] | [_ Hbad]]];
        [lia | contradiction | contradiction].
    + destruct Hmain as [_ Hbad]. contradiction.
  - intros Hlen. subst parse_buf. cbv beta.
    unfold exfatfs_dent_parse_buf, assert. cbn [negb].
    destruct (Z.gtb_spec a_buf_len 0); [lia | reflexivity].
  - intros Hpos Halloc Hss. subst parse_buf. cbv beta.
    unfold exfatfs_dent_parse_buf, assert. cbn [bind].
    destruct (Z.ltb_spec a_buf_len 0); [lia |].
    destruct (tsk_fs_name_alloc (EXFATFS_MAX_NAME_LEN_UTF8 h) 0)
      as [n |]; [| contradiction].
    unfold parse_sectors, c_div. rewrite Hss. reflexivity.
Qed.

Lemma parse_buf_return_value_witness :
  exists k,
    0 <= k < 1
    /\ sect_2_inode16 fatfs_small (nth (Z.to_nat k) [1] 0)
       > last_inum (fs_info fatfs_small).
Proof.
  pose proof (parse_buf_return_value exfat_h true ascii_decoder
                (tag_classifier exfat_h) sectalloc_all sect_2_inode16
                name_alloc_ok fatfs_small {| names := [] |} corrupt_buf
                512 [1]) as Hthm.
  cbv zeta in Hthm. destruct Hthm as [Hcases _].
  specialize (Hcases {| retval := TSK_COR;
                        result_errno := Some TSK_ERR_FS_ARG;
                        result_dir := Some {| names := [] |};
                        result_leak := false |}).
  cbn [retval] in Hcases.
  destruct Hcases as [_ Hsector]; [vm_compute; reflexivity |].
  exact Hsector.
Defined.

(** ** The entry pointer of the driver *)

Lemma for_loop_measure (S : Type)
  (body : S -> Z -> outcome (loop_exit S)) (m : S -> Z) (w : Z -> Z)
  (l : list Z) :
  (forall s i s', body s i = Ok (Continue s') -> m s' = m s + w i) ->
  forall s s',
    for_loop body s l = Ok (Continue s') ->
    m s' = m s + Zsum (map w l).
Proof.
  intros Hbody. induction l as [| i l IH]; intros s s' Hrun.
  - apply Ok_inj in Hrun. injection Hrun as <-. cbn. lia.
  - cbn [for_loop] in Hrun.
    destruct (body s i) as [[s1 | rv1 s1] | |] eqn:Hstep;
      cbn [bind] in Hrun.
    + rewrite (IH s1 s' Hrun), (Hbody s i s1 Hstep).
      cbn [map Zsum fold_right]. unfold Zsum. lia.
    + apply Ok_inj in Hrun. discriminate Hrun.
    + discriminate Hrun.
    + discriminate Hrun.
Qed.

Lemma Zsum_ones (A : Type) (l : list A) :
  Zsum (map (fun _ => 1) l) = Z.of_nat (length l).
Proof.
  induction l as [| a l IH]; [reflexivity |].
  cbn [map Zsum fold_right length]. unfold Zsum in IH. rewrite IH. lia.
Qed.

Lemma Zsum_filter (p : Z -> bool) (c : Z) (l : list Z) :
  Zsum (map (fun k => if p k then c else 0) l)
  = c * Z.of_nat (length (filter p l)).
Proof.
  induction l as [| a l IH]; [cbn; lia |].
  cbn [map Zsum fold_right filter]. unfold Zsum in IH. rewrite IH.
  destruct (p a); cbn [length]; lia.
Qed.

Lemma length_upto (n : Z) : Z.of_nat (length (upto n)) = Z.max 0 n.
Proof. unfold upto. rewrite length_map, length_seq. lia. Qed.

(** X5. The driver consumes the entries of the buffer one after the other,
    and none for a sector that it skips: when the loops end, the entry
    pointer has advanced by the number of entries of a sector for every
    sector whose allocation status could be looked up, whatever the
    place of the sector in the buffer, and it counts the entries
    processed and the calls of the classifier. *)
Theorem parse_sectors_entry_pointer
  (h : tsk_exfatfs_h) (NDEBUG : bool)
  (fatfs_utf16_inode_str_2_utf8 :
     FATFS_INFO -> list Z -> Z -> list Z -> Z -> Z ->
     TSKConversionResult * list Z)
  (exfatfs_is_dentry : FATFS_INFO -> FATFS_DENTRY -> bool -> Z)
  (fatfs_is_sectalloc : FATFS_INFO -> Z -> Z)
  (FATFS_SECT_2_INODE : FATFS_INFO -> Z -> Z)
  (a_fatfs : FATFS_INFO) (a_buf : list FATFS_DENTRY)
  (a_sector_addrs : list Z) (a_buf_len : Z)
  (a_fs_dir : TSK_FS_DIR) (n : TSK_FS_NAME) (s : parse_state) :
  parse_sectors h NDEBUG fatfs_utf16_inode_str_2_utf8 exfatfs_is_dentry
    fatfs_is_sectalloc FATFS_SECT_2_INODE a_fatfs a_buf a_sector_addrs
    a_buf_len (initial_state a_fatfs a_fs_dir n) = Ok (Continue s) ->
  let looked_up k :=
    negb (fatfs_is_sectalloc a_fatfs (nth (Z.to_nat k) a_sector_addrs 0)
          =? -1) in
  dentry s
  = Z.max 0 (dentry_cnt_se a_fatfs)
    * Z.of_nat
        (length
           (filter looked_up (upto (Z.quot a_buf_len (ssize a_fatfs)))))
  /\ entries_count s = dentry s
  /\ Z.of_nat (length (classifier_calls s)) = dentry s.
Proof.
  intros Hrun looked_up. apply parse_sectors_loop in Hrun.
  destruct Hrun as [_ Hrun].
  assert (forall base l s0 s1,
            for_loop
              (dentry_loop_body h NDEBUG fatfs_utf16_inode_str_2_utf8
                 exfatfs_is_dentry a_fatfs a_buf base) s0 l
            = Ok (Continue s1) ->
            dentry s1 = dentry s0 + Z.of_nat (length l)
            /\ entries_count s1 = entries_count s0 + Z.of_nat (length l)
            /\ Z.of_nat (length (classifier_calls s1))
               = Z.of_nat (length (classifier_calls s0))
                 + Z.of_nat (length l)) as Hinner.
  { intros base l s0 s1 Hloop. rewrite <- (Zsum_ones Z l).
    split; [| split].
    - apply (for_loop_measure parse_state _ dentry (fun _ => 1) l)
        in Hloop; [exact Hloop |].
      intros s2 i s3 Hstep. apply dentry_loop_body_keeps in Hstep.
      destruct Hstep as (_ & _ & [_ Hd] & _). exact Hd.
    - apply (for_loop_measure parse_state _ entries_count (fun _ => 1) l)
        in Hloop; [exact Hloop |].
      intros s2 i s3 Hstep. apply dentry_loop_body_counters in Hstep.
      destruct Hstep as (ty & _ & _ & He & _). exact He.
    - apply (for_loop_measure parse_state _
               (fun s => Z.of_nat (length (classifier_calls s)))
               (fun _ => 1) l) in Hloop; [exact Hloop |].
      intros s2 i s3 Hstep. apply dentry_loop_body_counters in Hstep.
      destruct Hstep as (ty & _ & Hc & _). rewrite Hc, length_app.
      cbn [length]. lia. }
  assert (forall k s0 s1,
            sector_loop_body h NDEBUG fatfs_utf16_inode_str_2_utf8
              exfatfs_is_dentry fatfs_is_sectalloc FATFS_SECT_2_INODE
              a_fatfs a_buf a_sector_addrs s0 k = Ok (Continue s1) ->
            let w := if looked_up k
                     then Z.max 0 (dentry_cnt_se a_fatfs) else 0 in
            dentry s1 = dentry s0 + w
            /\ entries_count s1 = entries_count s0 + w
            /\ Z.of_nat (length (classifier_calls s1))
               = Z.of_nat (length (classifier_calls s0)) + w) as Houter.
  { intros k s0 s1 Hstep. unfold sector_loop_body in Hstep.
    destruct (FATFS_SECT_2_INODE a_fatfs
                (nth (Z.to_nat k) a_sector_addrs 0)
              >? last_inum (fs_info a_fatfs));
      [apply Ok_inj in Hstep; discriminate Hstep |].
    fields. unfold looked_up.
    destruct (fatfs_is_sectalloc a_fatfs
                (nth (Z.to_nat k) a_sector_addrs 0) =? -1).
    - apply Ok_inj in Hstep. injection Hstep as <-. cbn [negb]. fields.
      lia.
    - apply Hinner in Hstep. fields. cbn [negb].
      rewrite length_upto in Hstep. exact Hstep. }
  set (w := fun k => if looked_up k
                     then Z.max 0 (dentry_cnt_se a_fatfs) else 0).
  pose proof (for_loop_measure parse_state _ dentry w _
                (fun s0 k s1 H => proj1 (Houter k s0 s1 H)) _ _ Hrun)
    as Hd.
  pose proof (for_loop_measure parse_state _ entries_count w _
                (fun s0 k s1 H => proj1 (proj2 (Houter k s0 s1 H)))
                _ _ Hrun) as He.
  pose proof (for_loop_measure parse_state _
                (fun s => Z.of_nat (length (classifier_calls s))) w _
                (fun s0 k s1 H => proj2 (proj2 (Houter k s0 s1 H)))
                _ _ Hrun) as Hc.
  unfold w in Hd, He, Hc. rewrite Zsum_filter in Hd, He, Hc.
  cbn [initial_state dentry entries_count classifier_calls length]
    in Hd, He, Hc.
  split; [| split]; lia.
Qed.

(** The sector at address 0 is skipped and the entries at the start of
    the buffer are taken for those of the sector that follows it: the
    file [HELLO] gets the inode address of the first entry of the second
    sector. *)
Lemma parse_sectors_entry_pointer_witness :
  exists s,
    parse_sectors exfat_h false ascii_decoder (tag_classifier exfat_h)
      sectalloc_fails_at_0 sect_2_inode16 fatfs0 two_sector_buf [0; 1]
      1024 (initial_state fatfs0 {| names := [] |} fs_name0)
    = Ok (Continue s)
    /\ dentry s = 16
    /\ dir_strings (fs_dir (name_info s)) = [[72; 69; 76; 76; 79]]
    /\ map meta_addr (names (fs_dir (name_info s))) = [19].
Proof.
  eexists. split; [vm_compute; reflexivity |].
  split; [| split; reflexivity].
  match goal with
  | |- dentry ?s = 16 =>
      destruct (parse_sectors_entry_pointer exfat_h false ascii_decoder
                  (tag_classifier exfat_h) sectalloc_fails_at_0
                  sect_2_inode16 fatfs0 two_sector_buf [0; 1] 1024
                  {| names := [] |} fs_name0 s) as (Hd & _);
        [vm_compute; reflexivity | rewrite Hd; reflexivity]
  end.
Defined.

(** ** The inode addresses of the records *)

Lemma adds_in_range_refl (f : FATFS_INFO) (d : TSK_FS_DIR) :
  adds_in_range f d d.
Proof. exists []. rewrite app_nil_r. auto. Qed.

Lemma adds_in_range_trans (f : FATFS_INFO) (d1 d2 d3 : TSK_FS_DIR) :
  adds_in_range f d1 d2 -> adds_in_range f d2 d3 -> adds_in_range f d1 d3.
Proof.
  intros (l1 & H1 & F1) (l2 & H2 & F2). exists (l1 ++ l2).
  rewrite H2, H1, app_assoc. split; [reflexivity |].
  apply Forall_app. auto.
Qed.

Lemma none_not_set_type (h : tsk_exfatfs_h) :
  tags_ok h -> ~ In (EXFATFS_DIR_ENTRY_TYPE_NONE h) (set_entry_types h).
Proof.
  intros Hh Hin. tag_facts Hh. unfold set_entry_types in Hin.
  cbn [In] in Hin.
  repeat match goal with
         | H : _ \/ _ |- _ => destruct H as [H | H]
         end; try congruence; contradiction.
Qed.

Lemma label_empty_not_set_type (h : tsk_exfatfs_h) :
  tags_ok h ->
  ~ In (EXFATFS_DIR_ENTRY_TYPE_VOLUME_LABEL_EMPTY h) (set_entry_types h).
Proof.
  intros Hh Hin. tag_facts Hh. unfold set_entry_types in Hin.
  cbn [In] in Hin.
  repeat match goal with
         | H : _ \/ _ |- _ => destruct H as [H | H]
         end; try congruence; contradiction.
Qed.

(** A reset leaves nothing pending. *)
Lemma pending_in_range_reset_value (h : tsk_exfatfs_h) (f : FATFS_INFO)
  (i : EXFATFS_FS_NAME_INFO) :
  tags_ok h -> fatfs i = f -> pending_in_range h f (reset_value h i).
Proof.
  intros Hh Hf. unfold pending_in_range, reset_value. fields.
  split; [exact Hf |]. split.
  - rewrite strlen_store_0. lia.
  - intros Hin. exfalso. exact (none_not_set_type h Hh Hin).
Qed.

(** The finalizer adds the pending name, whose inode address is in
    range, or nothing. *)
Lemma finalize_value_in_range (h : tsk_exfatfs_h) (f : FATFS_INFO)
  (i : EXFATFS_FS_NAME_INFO) :
  tags_ok h ->
  fatfs i = f ->
  (strlen (name (fs_name i)) > 0 -> inum_in_range f (fs_name i)) ->
  adds_in_range f (fs_dir i) (fs_dir (finalize_value h i))
  /\ pending_in_range h f (finalize_value h i).
Proof.
  intros Hh Hf Hname. unfold finalize_value.
  destruct (Z.gtb_spec (strlen (name (fs_name i))) 0) as [Hpos | Hnone].
  - split.
    + unfold reset_value. fields. exists [fs_name i].
      split; [reflexivity |]. constructor; [| constructor].
      apply Hname. lia.
    + apply pending_in_range_reset_value; [exact Hh | exact Hf].
  - split.
    + unfold reset_value. fields. apply adds_in_range_refl.
    + apply pending_in_range_reset_value; [exact Hh | exact Hf].
Qed.

Lemma count_value_in_range (h : tsk_exfatfs_h) (f : FATFS_INFO)
  (i : EXFATFS_FS_NAME_INFO) :
  tags_ok h ->
  fatfs i = f ->
  inum_in_range f (fs_name i) ->
  adds_in_range f (fs_dir i) (fs_dir (count_value h i))
  /\ pending_in_range h f (count_value h i).
Proof.
  intros Hh Hf Hin. unfold count_value. cbv zeta.
  match goal with
  | |- context [if ?b then _ else _] => destruct b
  end.
  - match goal with
    | |- context [finalize_value h ?x] =>
        exact (finalize_value_in_range h f x Hh Hf (fun _ => Hin))
    end.
  - split; [apply adds_in_range_refl |].
    unfold pending_in_range. fields. auto.
Qed.

Lemma file_dentry_in_range (h : tsk_exfatfs_h) (NDEBUG : bool)
  (f : FATFS_INFO)
  (i i' : EXFATFS_FS_NAME_INFO) (d : FATFS_DENTRY) (inum : Z) :
  tags_ok h ->
  pending_in_range h f i ->
  fatfs_is_inum_in_range f inum = true ->
  exfats_parse_file_dentry h NDEBUG i d inum = Ok i' ->
  adds_in_range f (fs_dir i) (fs_dir i') /\ pending_in_range h f i'.
Proof.
  intros Hh (Hf & Hname & _) Hin Hrun.
  unfold exfats_parse_file_dentry in Hrun.
  apply bind_assert_inv in Hrun. step_bind Hrun.
  apply finalize_inv in E. subst i0.
  apply checksum_inv in Hrun. destruct Hrun as [c ->].
  destruct (finalize_value_in_range h f i Hh Hf Hname)
    as [Hadds (Hf' & _)].
  split.
  - repeat match goal with
           | |- context [if ?b then _ else _] => destruct b
           end; fields; exact Hadds.
  - unfold pending_in_range, inum_in_range.
    repeat match goal with
           | |- context [if ?b then _ else _] => destruct b
           end; fields; auto.
Qed.

Lemma file_stream_dentry_in_range (h : tsk_exfatfs_h) (NDEBUG : bool)
  (f : FATFS_INFO)
  (i i' : EXFATFS_FS_NAME_INFO) (d : FATFS_DENTRY) (inum : Z) :
  tags_ok h ->
  pending_in_range h f i ->
  exfats_parse_file_stream_dentry h NDEBUG i d inum = Ok i' ->
  adds_in_range f (fs_dir i) (fs_dir i') /\ pending_in_range h f i'.
Proof.
  intros Hh (Hf & Hname & Hset) Hrun.
  unfold exfats_parse_file_stream_dentry in Hrun.
  apply bind_assert_inv in Hrun.
  destruct (stream_out_of_sequence h i) eqn:Hseq.
  { apply finalize_inv in Hrun. subst i'.
    apply finalize_value_in_range; assumption. }
  destruct (stream_in_use_mismatch h i d).
  { apply finalize_inv in Hrun. subst i'.
    apply finalize_value_in_range; assumption. }
  step_bind Hrun. apply checksum_inv in E. destruct E as [c ->].
  apply count_inv in Hrun. subst i'.
  assert (inum_in_range f (fs_name i)) as Hin.
  { apply Hset. unfold stream_out_of_sequence in Hseq.
    unfold set_entry_types. cbn [In].
    destruct (Z.eqb_spec (last_dentry_type i)
                (EXFATFS_DIR_ENTRY_TYPE_FILE h)); [auto |].
    destruct (Z.eqb_spec (last_dentry_type i)
                (EXFATFS_DIR_ENTRY_TYPE_DELETED_FILE h)); [auto |].
    discriminate Hseq. }
  match goal with
  | |- context [count_value h ?x] =>
      exact (count_value_in_range h f x Hh Hf Hin)
  end.
Qed.

Lemma file_name_dentry_in_range (h : tsk_exfatfs_h) (NDEBUG : bool)
  (dec : FATFS_INFO -> list Z -> Z -> list Z -> Z -> Z ->
         TSKConversionResult * list Z)
  (f : FATFS_INFO)
  (i i' : EXFATFS_FS_NAME_INFO) (d : FATFS_DENTRY) (inum : Z) :
  tags_ok h ->
  pending_in_range h f i ->
  exfats_parse_file_name_dentry h NDEBUG dec i d inum = Ok i' ->
  adds_in_range f (fs_dir i) (fs_dir i') /\ pending_in_range h f i'.
Proof.
  intros Hh (Hf & Hname & Hset) Hrun.
  unfold exfats_parse_file_name_dentry in Hrun.
  apply bind_assert_inv in Hrun.
  destruct (name_out_of_sequence h i) eqn:Hseq.
  { apply finalize_inv in Hrun. subst i'.
    apply finalize_value_in_range; assumption. }
  destruct (name_in_use_mismatch h i d).
  { apply finalize_inv in Hrun. subst i'.
    apply finalize_value_in_range; assumption. }
  assert (inum_in_range f (fs_name i)) as Hin.
  { apply Hset. unfold name_out_of_sequence in Hseq.
    unfold set_entry_types. cbn [In].
    destruct (Z.eqb_spec (last_dentry_type i)
                (EXFATFS_DIR_ENTRY_TYPE_FILE_STREAM h)); [auto |].
    destruct (Z.eqb_spec (last_dentry_type i)
                (EXFATFS_DIR_ENTRY_TYPE_DELETED_FILE_STREAM h));
      [auto |].
    destruct (Z.eqb_spec (last_dentry_type i)
                (EXFATFS_DIR_ENTRY_TYPE_FILE_NAME h)); [auto 6 |].
    destruct (Z.eqb_spec (last_dentry_type i)
                (EXFATFS_DIR_ENTRY_TYPE_DELETED_FILE_NAME h));
      [auto 7 |].
    discriminate Hseq. }
  cbv zeta in Hrun.
  destruct (name_chars_fit h (set_last_dentry_type (entry_type d) i)).
  - destruct (name_conversion h dec
                (set_last_dentry_type (entry_type d) i) d inum)
      as [[| | |] dest]; fields.
    + apply count_inv in Hrun. subst i'.
      match goal with
      | |- context [count_value h ?x] =>
          exact (count_value_in_range h f x Hh Hf Hin)
      end.
    + apply finalize_inv in Hrun. subst i'.
      match goal with
      | |- context [finalize_value h ?x] =>
          exact (finalize_value_in_range h f x Hh Hf (fun _ => Hin))
      end.
    + apply finalize_inv in Hrun. subst i'.
      match goal with
      | |- context [finalize_value h ?x] =>
          exact (finalize_value_in_range h f x Hh Hf (fun _ => Hin))
      end.
    + apply finalize_inv in Hrun. subst i'.
      match goal with
      | |- context [finalize_value h ?x] =>
          exact (finalize_value_in_range h f x Hh Hf (fun _ => Hin))
      end.
  - apply count_inv in Hrun. subst i'.
    match goal with
    | |- context [count_value h ?x] =>
        exact (count_value_in_range h f x Hh Hf Hin)
    end.
Qed.

Lemma vol_label_dentry_in_range (h : tsk_exfatfs_h) (NDEBUG : bool)
  (dec : FATFS_INFO -> list Z -> Z -> list Z -> Z -> Z ->
         TSKConversionResult * list Z)
  (f : FATFS_INFO)
  (i i' : EXFATFS_FS_NAME_INFO) (d : FATFS_DENTRY)
  (following : list Z) (inum : Z) :
  tags_ok h ->
  pending_in_range h f i ->
  fatfs_is_inum_in_range f inum = true ->
  exfats_parse_vol_label_dentry h NDEBUG dec i d following inum = Ok i' ->
  adds_in_range f (fs_dir i) (fs_dir i') /\ pending_in_range h f i'.
Proof.
  intros Hh (Hf & Hname & _) Hin Hrun.
  unfold exfats_parse_vol_label_dentry in Hrun.
  apply bind_assert_inv in Hrun. step_bind Hrun.
  apply finalize_inv in E. subst i0.
  destruct (finalize_value_in_range h f i Hh Hf Hname) as [Hadds Hpend].
  pose proof Hpend as (Hf' & Hn' & _).
  destruct (Z.eqb_spec (entry_type d)
              (EXFATFS_DIR_ENTRY_TYPE_VOLUME_LABEL_EMPTY h))
    as [Hempty | Hlabel]; cbn [negb] in Hrun.
  - apply Ok_inj in Hrun. subst i'. fields.
    split; [exact Hadds |].
    unfold pending_in_range. fields.
    split; [exact Hf' |]. split; [exact Hn' |].
    rewrite Hempty. intros Hset. exfalso.
    exact (label_empty_not_set_type h Hh Hset).
  - destruct (vol_label_conversion h dec
                (set_last_dentry_type (entry_type d) (finalize_value h i))
                d following inum) as [[| | |] dest]; fields.
    + apply finalize_inv in Hrun. subst i'.
      match goal with
      | |- context [finalize_value h (set_fs_name ?n ?x)] =>
          destruct (finalize_value_in_range h f (set_fs_name n x) Hh)
            as [Hadds' Hpend']
      end.
      { match goal with
        | |- context [if ?b then _ else _] => destruct b
        end; fields; exact Hf'. }
      { intros _. unfold inum_in_range.
        match goal with
        | |- context [if ?b then _ else _] => destruct b
        end; fields; exact Hin. }
      split; [| exact Hpend'].
      apply (adds_in_range_trans _ _ _ _ Hadds).
      revert Hadds'.
      match goal with
      | |- context [if ?b then _ else _] => destruct b
      end; fields; auto.
    + apply reset_inv in Hrun. subst i'.
      split; [exact Hadds |].
      apply pending_in_range_reset_value; [exact Hh | exact Hf'].
    + apply reset_inv in Hrun. subst i'.
      split; [exact Hadds |].
      apply pending_in_range_reset_value; [exact Hh | exact Hf'].
    + apply reset_inv in Hrun. subst i'.
      split; [exact Hadds |].
      apply pending_in_range_reset_value; [exact Hh | exact Hf'].
Qed.

Lemma special_file_dentry_in_range (h : tsk_exfatfs_h) (NDEBUG : bool)
  (f : FATFS_INFO)
  (i i' : EXFATFS_FS_NAME_INFO) (d : FATFS_DENTRY) (inum : Z) :
  tags_ok h ->
  pending_in_range h f i ->
  fatfs_is_inum_in_range f inum = true ->
  exfats_parse_special_file_dentry h NDEBUG i d inum = Ok i' ->
  adds_in_range f (fs_dir i) (fs_dir i') /\ pending_in_range h f i'.
Proof.
  intros Hh (Hf & Hname & _) Hin Hrun.
  unfold exfats_parse_special_file_dentry in Hrun.
  apply bind_assert_inv in Hrun. step_bind Hrun.
  apply finalize_inv in E. subst i0.
  apply finalize_inv in Hrun. subst i'.
  destruct (finalize_value_in_range h f i Hh Hf Hname)
    as [Hadds (Hf' & _)].
  match goal with
  | |- context [finalize_value h (set_fs_name ?n ?x)] =>
      destruct (finalize_value_in_range h f (set_fs_name n x) Hh Hf'
                  (fun _ => Hin)) as [Hadds' Hpend']
  end.
  split; [| exact Hpend'].
  exact (adds_in_range_trans _ _ _ _ Hadds Hadds').
Qed.

Lemma dentry_loop_body_in_range
  (h : tsk_exfatfs_h) (NDEBUG : bool)
  (dec : FATFS_INFO -> list Z -> Z -> list Z -> Z -> Z ->
         TSKConversionResult * list Z)
  (cls : FATFS_INFO -> FATFS_DENTRY -> bool -> Z)
  (a_fatfs : FATFS_INFO) (a_buf : list FATFS_DENTRY)
  (dir0 : TSK_FS_DIR)
  (base : Z) (s : parse_state) (idx : Z) (r : loop_exit parse_state) :
  tags_ok h ->
  range_inv h a_fatfs dir0 s ->
  dentry_loop_body h NDEBUG dec cls a_fatfs a_buf base s idx = Ok r ->
  range_inv h a_fatfs dir0 (state_of r).
Proof.
  intros Hh [Hadds Hpend]. unfold dentry_loop_body. fields.
  destruct (fatfs_is_inum_in_range a_fatfs (uint64 (base + idx)))
    eqn:Hin; cbn [negb].
  2: { intros Hrun. apply Ok_inj in Hrun. subst r. cbn [state_of].
       unfold range_inv. fields. auto. }
  change (classifier_hint (set_entries_count (entries_count s + 1) s))
    with (classifier_hint s).
  change (current_dentry_of a_buf
            (set_entries_count (entries_count s + 1) s))
    with (current_dentry_of a_buf s).
  set (d := current_dentry_of a_buf s).
  set (ty := cls a_fatfs d (classifier_hint s)).
  assert (forall i',
            adds_in_range a_fatfs (fs_dir (name_info s)) (fs_dir i')
            /\ pending_in_range h a_fatfs i' ->
            adds_in_range a_fatfs dir0 (fs_dir i')
            /\ pending_in_range h a_fatfs i') as Hstep.
  { intros i' [A P]. split; [| exact P].
    exact (adds_in_range_trans _ _ _ _ Hadds A). }
  destruct (select_case h ty) eqn:Hcase; intros Hrun;
    step_bind Hrun; apply Ok_inj in Hrun; subst r;
    step_bind E; apply Ok_inj in E; subst i;
    cbn [state_of]; unfold range_inv; fields; apply Hstep.
  - eapply file_dentry_in_range; eassumption.
  - eapply file_stream_dentry_in_range; eassumption.
  - eapply file_name_dentry_in_range; eassumption.
  - eapply vol_label_dentry_in_range; eassumption.
  - eapply special_file_dentry_in_range; eassumption.
  - match type of E0 with
    | exfatfs_add_name_to_dir_and_reset_info _ _ (name_info ?x) = _ =>
        assert (name_info x = name_info s) as Hsame
          by (match goal with
              | |- context [if ?b then _ else _] => destruct b
              end; reflexivity)
    end.
    rewrite Hsame in E0. apply finalize_inv in E0. subst i0.
    destruct Hpend as (Hf & Hname & _).
    apply finalize_value_in_range; assumption.
Qed.

Lemma sector_loop_body_in_range
  (h : tsk_exfatfs_h) (NDEBUG : bool)
  (dec : FATFS_INFO -> list Z -> Z -> list Z -> Z -> Z ->
         TSKConversionResult * list Z)
  (cls : FATFS_INFO -> FATFS_DENTRY -> bool -> Z)
  (alloc : FATFS_INFO -> Z -> Z) (s2i : FATFS_INFO -> Z -> Z)
  (a_fatfs : FATFS_INFO) (a_buf : list FATFS_DENTRY) (addrs : list Z)
  (dir0 : TSK_FS_DIR) (s : parse_state) (idx : Z)
  (r : loop_exit parse_state) :
  tags_ok h ->
  range_inv h a_fatfs dir0 s ->
  sector_loop_body h NDEBUG dec cls alloc s2i a_fatfs a_buf addrs s idx
  = Ok r ->
  range_inv h a_fatfs dir0 (state_of r).
Proof.
  intros Hh Hinv. unfold sector_loop_body.
  destruct (s2i a_fatfs (nth (Z.to_nat idx) addrs 0)
            >? last_inum (fs_info a_fatfs)).
  { intros Hrun. apply Ok_inj in Hrun. subst r. cbn [state_of].
    unfold range_inv, pending_in_range in *. fields. exact Hinv. }
  match goal with
  | |- context [if ?b then _ else _] => destruct b
  end.
  { intros Hrun. apply Ok_inj in Hrun. subst r. cbn [state_of].
    unfold range_inv, pending_in_range in *. fields. exact Hinv. }
  intros Hrun.
  apply (for_loop_invariant parse_state _
           (range_inv h a_fatfs dir0) (range_inv h a_fatfs dir0))
    in Hrun.
  - destruct r; exact Hrun.
  - intros s0 i0 r0 Hinv0 Hstep.
    apply (dentry_loop_body_in_range _ _ _ _ _ _ dir0) in Hstep;
      [| exact Hh | exact Hinv0].
    destruct r0; exact Hstep.
  - unfold range_inv, pending_in_range in *. fields. exact Hinv.
Qed.

(** X6. Every record that [exfatfs_dent_parse_buf] adds to the directory
    has an inode address in the range of inode addresses of the file
    system, in a build with assertions and in a build without them,
    whatever the classifier answers and whatever the function returns.
    The value 0 that [memset] gives the type of the last entry is none
    of the tags of the entries of a file entry set. *)
Theorem parse_buf_records_inum_in_range
  (h : tsk_exfatfs_h) (NDEBUG : bool)
  (fatfs_utf16_inode_str_2_utf8 :
     FATFS_INFO -> list Z -> Z -> list Z -> Z -> Z ->
     TSKConversionResult * list Z)
  (exfatfs_is_dentry : FATFS_INFO -> FATFS_DENTRY -> bool -> Z)
  (fatfs_is_sectalloc : FATFS_INFO -> Z -> Z)
  (FATFS_SECT_2_INODE : FATFS_INFO -> Z -> Z)
  (tsk_fs_name_alloc : Z -> Z -> option TSK_FS_NAME)
  (a_fatfs : FATFS_INFO) (a_fs_dir : TSK_FS_DIR)
  (a_buf : list FATFS_DENTRY) (a_buf_len : Z)
  (a_sector_addrs : list Z) (r : parse_result) :
  tags_ok h ->
  ~ In 0 (set_entry_types h) ->
  exfatfs_dent_parse_buf h NDEBUG fatfs_utf16_inode_str_2_utf8
    exfatfs_is_dentry fatfs_is_sectalloc FATFS_SECT_2_INODE
    tsk_fs_name_alloc (Some a_fatfs) (Some a_fs_dir) (Some a_buf)
    a_buf_len (Some a_sector_addrs) = Ok r ->
  exists dir' added,
    result_dir r = Some dir'
    /\ names dir' = names a_fs_dir ++ added
    /\ Forall
         (fun n =>
            first_inum (fs_info a_fatfs) <= meta_addr n
            <= last_inum (fs_info a_fatfs)) added.
Proof.
  intros Hh Hzero Hrun.
  assert (exists dir',
            result_dir r = Some dir'
            /\ adds_in_range a_fatfs a_fs_dir dir') as (dir' & Hdir & Hadds).
  { unfold exfatfs_dent_parse_buf in Hrun.
    apply bind_assert_inv in Hrun.
    destruct (a_buf_len <? 0);
      [apply Ok_inj in Hrun; subst r; exists a_fs_dir;
       split; [reflexivity | apply adds_in_range_refl] |].
    destruct (tsk_fs_name_alloc (EXFATFS_MAX_NAME_LEN_UTF8 h) 0)
      as [n |];
      [| apply Ok_inj in Hrun; subst r; exists a_fs_dir;
         split; [reflexivity | apply adds_in_range_refl]].
    step_bind Hrun. apply parse_sectors_loop in E.
    destruct E as [Hss E].
    apply (for_loop_invariant parse_state _
             (range_inv h a_fatfs a_fs_dir)
             (range_inv h a_fatfs a_fs_dir)) in E.
    - destruct i as [s | rv s].
      + step_bind Hrun. apply Ok_inj in Hrun. subst r.
        apply finalize_inv in E0. subst i.
        destruct E as (A & Hf & Hname & _).
        eexists. split; [reflexivity |]. fields.
        apply (adds_in_range_trans _ _ _ _ A).
        apply finalize_value_in_range; assumption.
      + apply Ok_inj in Hrun. subst r. destruct E as (A & _).
        eexists. split; [reflexivity |]. exact A.
    - intros s0 i0 r0 Hinv0 Hstep.
      apply (sector_loop_body_in_range _ _ _ _ _ _ _ _ _ a_fs_dir)
        in Hstep; [| exact Hh | exact Hinv0].
      destruct r0; exact Hstep.
    - unfold range_inv, pending_in_range, initial_state. fields.
      split; [apply adds_in_range_refl |]. split; [reflexivity |].
      split.
      + rewrite strlen_store_0. lia.
      + intros Hin. contradiction. }
  destruct Hadds as (added & Hnames & Hall).
  exists dir', added. split; [exact Hdir |]. split; [exact Hnames |].
  apply Forall_impl with (2 := Hall).
  intros n Hn. unfold inum_in_range, fatfs_is_inum_in_range in Hn.
  apply andb_true_iff in Hn. lia.
Qed.

Lemma parse_buf_records_inum_in_range_witness :
  exists dir' added,
    option_map result_dir
      (match
         exfatfs_dent_parse_buf exfat_h false ascii_decoder
           (tag_classifier exfat_h) sectalloc_all sect_2_inode16
           name_alloc_ok (Some fatfs0) (Some {| names := [fs_name0] |})
           (Some hello_buf) 512 (Some [0])
       with
       | Ok r => Some r
       | _ => None
       end) = Some (Some dir')
    /\ names dir' = fs_name0 :: added
    /\ Forall
         (fun n =>
            first_inum (fs_info fatfs0) <= meta_addr n
            <= last_inum (fs_info fatfs0)) added.
Proof.
  destruct (exfatfs_dent_parse_buf exfat_h false ascii_decoder
              (tag_classifier exfat_h) sectalloc_all sect_2_inode16
              name_alloc_ok (Some fatfs0) (Some {| names := [fs_name0] |})
              (Some hello_buf) 512 (Some [0])) as [r | |] eqn:Hrun;
    [| vm_compute in Hrun; discriminate Hrun ..].
  destruct (parse_buf_records_inum_in_range exfat_h false ascii_decoder
              (tag_classifier exfat_h) sectalloc_all sect_2_inode16
              name_alloc_ok fatfs0 {| names := [fs_name0] |}
              hello_buf 512 [0] r exfat_h_tags_ok)
    as (dir' & added & Hdir & Hnames & Hall).
  - intros Hin. cbn in Hin.
    repeat (destruct Hin as [Hin | Hin]; [discriminate Hin |]).
    exact Hin.
  - exact Hrun.
  - exists dir', added. cbn [option_map]. rewrite Hdir.
    split; [reflexivity |]. split; assumption.
Defined.

(** ** Strings in buffers *)

Lemma store_nat_spec (buf : list Z) (k : nat) (v : Z) :
  (k < length buf)%nat ->
  store_nat buf k v = firstn k buf ++ v :: skipn (S k) buf.
Proof.
  revert k. induction buf as [| b t IH]; intros k Hk.
  - cbn [length] in Hk. lia.
  - destruct k as [| k]; [reflexivity |].
    cbn [store_nat firstn skipn app]. cbn [length] in Hk.
    rewrite IH by lia. reflexivity.
Qed.

Lemma store_spec (buf : list Z) (k : nat) (v : Z) :
  (k < length buf)%nat ->
  store buf (Z.of_nat k) v = firstn k buf ++ v :: skipn (S k) buf.
Proof.
  intros Hk. unfold store.
  destruct (Z.ltb_spec (Z.of_nat k) 0); [lia |].
  rewrite Nat2Z.id. apply store_nat_spec, Hk.
Qed.

Lemma firstn_insert (A : list Z) (c : Z) (B : list Z) (k : nat) :
  length A = k -> firstn (S k) (A ++ c :: B) = A ++ [c].
Proof.
  intros Hlen. rewrite firstn_app, firstn_all2 by lia.
  replace (S k - length A)%nat with 1%nat by lia. reflexivity.
Qed.

Lemma skipn_insert (A : list Z) (c : Z) (B : list Z) (k m : nat) :
  length A = k -> skipn (S (S k + m)) (A ++ c :: B) = skipn (S m) B.
Proof.
  intros Hlen. rewrite skipn_app, skipn_all2 by lia.
  replace (S (S k + m) - length A)%nat with (S (S m)) by lia.
  reflexivity.
Qed.

Lemma store_string_spec (src buf : list Z) (k : nat) :
  (k + length src < length buf)%nat ->
  store_string buf (Z.of_nat k) src
  = firstn k buf ++ src ++ 0 :: skipn (S (k + length src)) buf.
Proof.
  revert buf k. induction src as [| c t IH]; intros buf k Hk.
  - cbn [store_string length app] in *. rewrite Nat.add_0_r.
    apply store_spec. lia.
  - cbn [store_string length] in *.
    replace (Z.of_nat k + 1) with (Z.of_nat (S k)) by lia.
    rewrite store_spec by lia.
    assert (length (firstn k buf) = k) as Hlen
      by (apply firstn_length_le; lia).
    rewrite IH.
    + rewrite (firstn_insert _ _ _ k Hlen).
      rewrite (skipn_insert _ _ _ k (length t) Hlen).
      rewrite skipn_skipn, <- app_assoc. cbn [app]. do 5 f_equal. lia.
    + rewrite length_app, Hlen. cbn [length].
      rewrite length_skipn. lia.
Qed.

Lemma c_string_literal (s rest : list Z) :
  Forall (fun c => c <> 0) s -> c_string (s ++ 0 :: rest) = s.
Proof.
  induction 1 as [| c t Hc _ IH]; [reflexivity |].
  cbn [app c_string]. destruct (Z.eqb_spec c 0); [contradiction |].
  rewrite IH. reflexivity.
Qed.

Lemma strlen_literal (s rest : list Z) :
  Forall (fun c => c <> 0) s ->
  strlen (s ++ 0 :: rest) = Z.of_nat (length s).
Proof.
  intros Hs. unfold strlen. f_equal.
  induction Hs as [| c t Hc _ IH]; [reflexivity |].
  cbn [app strlen_nat length]. destruct (Z.eqb_spec c 0); [contradiction |].
  rewrite IH. reflexivity.
Qed.

(** [strcpy] of a literal that fits leaves the literal in the buffer. *)
Lemma strcpy_literal (buf s : list Z) :
  literal_fits s buf ->
  c_string (strcpy buf s) = s /\ strlen (strcpy buf s) > 0.
Proof.
  intros (Hne & Hs & Hlen). unfold strcpy.
  change 0 with (Z.of_nat 0). rewrite store_string_spec by lia.
  cbn [firstn app].
  rewrite c_string_literal, strlen_literal by exact Hs.
  split; [reflexivity |]. destruct s; [contradiction | cbn [length]; lia].
Qed.

Lemma length_store (buf : list Z) (k v : Z) :
  length (store buf k v) = length buf.
Proof.
  unfold store. destruct (k <? 0); [reflexivity |].
  generalize (Z.to_nat k). clear k.
  induction buf as [| b t IH]; intros k; [reflexivity |].
  destruct k; cbn [store_nat length]; [reflexivity |].
  rewrite IH. reflexivity.
Qed.

Lemma special_file_name_spec (h : tsk_exfatfs_h) (d : FATFS_DENTRY)
  (buf : list Z) :
  tags_ok h ->
  (In (data_at d 0) (special_file_types h) ->
   special_file_name h d buf = strcpy buf (virt_filename h (data_at d 0)))
  /\ (~ In (data_at d 0) (special_file_types h) ->
      special_file_name h d buf = buf).
Proof.
  intros Hh. unfold special_file_name, virt_filename, special_file_types.
  cbn [In]. split.
  - intros Hin.
    destruct (Z.eqb_spec (data_at d 0)
                (EXFATFS_DIR_ENTRY_TYPE_VOLUME_GUID h)); [reflexivity |].
    destruct (Z.eqb_spec (data_at d 0)
                (EXFATFS_DIR_ENTRY_TYPE_ALLOC_BITMAP h)); [reflexivity |].
    destruct (Z.eqb_spec (data_at d 0)
                (EXFATFS_DIR_ENTRY_TYPE_UPCASE_TABLE h)); [reflexivity |].
    destruct (Z.eqb_spec (data_at d 0)
                (EXFATFS_DIR_ENTRY_TYPE_TEX_FAT h)); [reflexivity |].
    destruct (Z.eqb_spec (data_at d 0)
                (EXFATFS_DIR_ENTRY_TYPE_ACT h)); [reflexivity |].
    exfalso.
    repeat (destruct Hin as [Hin | Hin]; [congruence |]). exact Hin.
  - intros Hout.
    repeat match goal with
           | |- context [?a =? ?b] =>
               destruct (Z.eqb_spec a b); [exfalso; apply Hout; auto 6 |]
           end.
    reflexivity.
Qed.

Lemma closed_finalize_value (h : tsk_exfatfs_h)
  (i : EXFATFS_FS_NAME_INFO) :
  closed h (finalize_value h i).
Proof.
  unfold closed, finalize_value, reset_value. fields.
  rewrite strlen_store_0. repeat split; reflexivity.
Qed.

Lemma finalize_value_emits (h : tsk_exfatfs_h) (i : EXFATFS_FS_NAME_INFO) :
  strlen (name (fs_name i)) > 0 ->
  names (fs_dir (finalize_value h i)) = names (fs_dir i) ++ [fs_name i].
Proof.
  intros Hpos. unfold finalize_value.
  destruct (Z.gtb_spec (strlen (name (fs_name i))) 0); [| lia].
  reflexivity.
Qed.

Lemma finalize_value_skips (h : tsk_exfatfs_h) (i : EXFATFS_FS_NAME_INFO) :
  strlen (name (fs_name i)) = 0 ->
  fs_dir (finalize_value h i) = fs_dir i.
Proof.
  intros Hzero. unfold finalize_value. rewrite Hzero. reflexivity.
Qed.

Lemma finalize_value_name (h : tsk_exfatfs_h) (i : EXFATFS_FS_NAME_INFO) :
  name (fs_name (finalize_value h i)) = store (name (fs_name i)) 0 0
  /\ meta_addr (fs_name (finalize_value h i)) = 0
  /\ type (fs_name (finalize_value h i)) = TSK_FS_NAME_TYPE_UNDEF
  /\ flags (fs_name (finalize_value h i)) = TSK_FS_NAME_FLAG_ALLOC.
Proof.
  unfold finalize_value, reset_value. fields.
  destruct (strlen (name (fs_name i)) >? 0); repeat split; reflexivity.
Qed.

Lemma special_file_dentry_result
  (h : tsk_exfatfs_h) (NDEBUG : bool)
  (i i' : EXFATFS_FS_NAME_INFO) (d : FATFS_DENTRY) (inum : Z) :
  tags_ok h ->
  exfats_parse_special_file_dentry h NDEBUG i d inum = Ok i' ->
  closed h i'
  /\ (In (data_at d 0) (special_file_types h) ->
      literal_fits (virt_filename h (data_at d 0)) (name (fs_name i)) ->
      exists r,
        names (fs_dir i') = names (fs_dir (finalize_value h i)) ++ [r]
        /\ c_string (name r) = virt_filename h (data_at d 0)
        /\ meta_addr r = inum
        /\ type r = TSK_FS_NAME_TYPE_UNDEF
        /\ flags r = TSK_FS_NAME_FLAG_ALLOC)
  /\ (~ In (data_at d 0) (special_file_types h) ->
      fs_dir i' = fs_dir (finalize_value h i)).
Proof.
  intros Hh Hrun. unfold exfats_parse_special_file_dentry in Hrun.
  apply bind_assert_inv in Hrun. step_bind Hrun.
  apply finalize_inv in E. subst i0.
  apply finalize_inv in Hrun. subst i'.
  destruct (special_file_name_spec h d
              (name (fs_name (finalize_value h i))) Hh) as [Hin Hout].
  destruct (finalize_value_name h i) as (Hname & _ & Htype & Hflags).
  split; [apply closed_finalize_value |]. split.
  - intros Hty Hfits.
    assert (literal_fits (virt_filename h (data_at d 0))
              (name (fs_name (finalize_value h i)))) as Hfits'.
    { destruct Hfits as (Hne & Hs & Hlen).
      split; [exact Hne |]. split; [exact Hs |].
      rewrite Hname, length_store. exact Hlen. }
    destruct (strcpy_literal _ _ Hfits') as [Hstr Hpos].
    eexists.
    match goal with
    | |- context [finalize_value h (set_fs_name ?n ?x)] =>
        rewrite (finalize_value_emits h (set_fs_name n x))
    end; fields; rewrite (Hin Hty).
    + split; [reflexivity |]. fields. split; [exact Hstr |]. auto.
    + exact Hpos.
  - intros Hty.
    match goal with
    | |- context [finalize_value h (set_fs_name ?n ?x)] =>
        rewrite (finalize_value_skips h (set_fs_name n x))
    end; fields.
    + reflexivity.
    + rewrite (Hout Hty), Hname. apply strlen_store_0.
Qed.

(** The handler returns when its assertion on the type holds, and in a
    build without assertions. *)
Lemma special_file_dentry_runs
  (h : tsk_exfatfs_h) (NDEBUG : bool)
  (i : EXFATFS_FS_NAME_INFO) (d : FATFS_DENTRY) (inum : Z) :
  name_size_asserted h i = true ->
  fatfs_is_inum_in_range (fatfs i) inum = true ->
  special_file_type_asserted h d = true \/ NDEBUG = true ->
  exists i', exfats_parse_special_file_dentry h NDEBUG i d inum = Ok i'.
Proof.
  intros Hsz Hin Hgo. unfold exfats_parse_special_file_dentry.
  assert (assert NDEBUG (special_file_dentry_asserted h i d inum) = Ok tt)
    as Ha.
  { destruct Hgo as [Hty | ->]; [| reflexivity].
    apply assert_true. unfold special_file_dentry_asserted.
    rewrite Hsz, Hty, Hin. reflexivity. }
  rewrite Ha. cbn [bind].
  destruct (finalize_ok h NDEBUG i Hsz)
    as (i1 & Hrun1 & _ & _ & _ & _ & Hsz1 & _).
  rewrite Hrun1. cbn [bind].
  match goal with
  | |- exists i',
      exfatfs_add_name_to_dir_and_reset_info _ _ ?x = Ok i' =>
      destruct (finalize_ok h NDEBUG x) as (i2 & Hrun2 & _)
  end.
  - unfold name_size_asserted in *. fields. rewrite Hsz1. exact Hsz.
  - exists i2. exact Hrun2.
Qed.

(** X7. The assertion of the handler of special files lists four of the
    five types of its [switch], not TexFAT. Given a name buffer of the
    asserted size and an inode address in range, the handler returns
    for an entry of one of the four types in any build, and for any
    entry in a build without assertions; a build with assertions aborts
    on an entry of another type, TexFAT too. When it returns it adds,
    after the name that was pending, one record for an entry of one of
    the five types of its [switch]: the virtual file name of the type,
    the inode address of the entry, no file type, and the flag of an
    allocated file whatever the allocation status of the sector; and it
    leaves the accumulator closed. For an entry of another type, which
    only a build without assertions lets through, it adds nothing of
    its own. *)
Theorem special_file_dentry_names_virtual_file
  (h : tsk_exfatfs_h) (NDEBUG : bool)
  (i : EXFATFS_FS_NAME_INFO) (d : FATFS_DENTRY) (inum : Z) :
  tags_ok h ->
  name_size_asserted h i = true ->
  fatfs_is_inum_in_range (fatfs i) inum = true ->
  (special_file_type_asserted h d = true
   <-> In (data_at d 0) (special_file_types h)
       /\ data_at d 0 <> EXFATFS_DIR_ENTRY_TYPE_TEX_FAT h)
  /\ (special_file_type_asserted h d = false ->
      exfats_parse_special_file_dentry h false i d inum = AssertFail)
  /\ (special_file_type_asserted h d = true \/ NDEBUG = true ->
      exists i',
        exfats_parse_special_file_dentry h NDEBUG i d inum = Ok i'
        /\ closed h i'
        /\ (In (data_at d 0) (special_file_types h) ->
            literal_fits (virt_filename h (data_at d 0))
              (name (fs_name i)) ->
            exists r,
              names (fs_dir i')
              = names (fs_dir (finalize_value h i)) ++ [r]
              /\ c_string (name r) = virt_filename h (data_at d 0)
              /\ meta_addr r = inum
              /\ type r = TSK_FS_NAME_TYPE_UNDEF
              /\ flags r = TSK_FS_NAME_FLAG_ALLOC)
        /\ (~ In (data_at d 0) (special_file_types h) ->
            fs_dir i' = fs_dir (finalize_value h i))).
Proof.
  intros Hh Hsz Hin. split; [| split].
  - tag_facts Hh. unfold special_file_type_asserted, special_file_types.
    cbn [In]. split.
    + intros H.
      repeat match type of H with
             | _ || _ = true =>
                 apply orb_true_iff in H; destruct H as [H | H]
             end;
        apply Z.eqb_eq in H; rewrite H; (split; [auto 6 | congruence]).
    + intros [Hty Hnotex].
      repeat (destruct Hty as [Hty | Hty];
              [first [ congruence
                     | rewrite <- Hty, Z.eqb_refl;
                       repeat rewrite orb_true_r; reflexivity ] |]).
      contradiction.
  - intros Hty. unfold exfats_parse_special_file_dentry,
      special_file_dentry_asserted, assert.
    rewrite Hty, andb_false_r. reflexivity.
  - intros Hgo.
    destruct (special_file_dentry_runs h NDEBUG i d inum Hsz Hin Hgo)
      as [i' Hrun].
    exists i'. split; [exact Hrun |].
    exact (special_file_dentry_result h NDEBUG i i' d inum Hh Hrun).
Qed.

(** An entry of the allocation bitmap in a sector that is not
    allocated. *)
Lemma special_file_dentry_names_virtual_file_witness :
  exists i' r,
    exfats_parse_special_file_dentry exfat_h false
      (set_sector_is_allocated 0 name_info0) alloc_bitmap_dentry 7 = Ok i'
    /\ names (fs_dir i') = [r]
    /\ c_string (name r) = EXFATFS_ALLOC_BITMAP_VIRT_FILENAME exfat_h
    /\ meta_addr r = 7
    /\ flags r = TSK_FS_NAME_FLAG_ALLOC.
Proof.
  destruct (special_file_dentry_names_virtual_file exfat_h false
              (set_sector_is_allocated 0 name_info0) alloc_bitmap_dentry
              7 exfat_h_tags_ok eq_refl eq_refl) as (_ & _ & Hruns).
  destruct Hruns as (i' & Hrun & _ & Hrec & _);
    [left; reflexivity |].
  destruct Hrec as (r & Hnames & Hstr & Hmeta & _ & Hflags).
  - vm_compute. auto.
  - split; [discriminate |]. split; [| vm_compute; lia].
    vm_compute. repeat (constructor; [discriminate |]). constructor.
  - exists i', r. split; [exact Hrun |]. split; [exact Hnames |].
    split; [exact Hstr |]. split; assumption.
Defined.

(** ** The check sums are computed and never compared *)

Lemma same_but_sums_refl (i : EXFATFS_FS_NAME_INFO) : same_but_sums i i.
Proof.
  exists (expected_check_sum i), (actual_check_sum i).
  destruct i. reflexivity.
Qed.

Lemma outcome_rel_bind (A B : Type) (R : A -> A -> Prop)
  (R' : B -> B -> Prop) (o o' : outcome A) (k k' : A -> outcome B) :
  outcome_rel R o o' ->
  (forall a a', R a a' -> outcome_rel R' (k a) (k' a')) ->
  outcome_rel R' (bind o k) (bind o' k').
Proof.
  destruct o, o'; cbn [outcome_rel bind]; auto; contradiction.
Qed.

Lemma outcome_rel_assert (B : Type) (R' : B -> B -> Prop)
  (NDEBUG c : bool) (k k' : outcome B) :
  outcome_rel R' k k' ->
  outcome_rel R' (assert NDEBUG c ;;; k) (assert NDEBUG c ;;; k').
Proof.
  unfold assert. destruct NDEBUG, c; cbn [bind outcome_rel]; auto.
Qed.

Lemma outcome_rel_eq (A : Type) (R : A -> A -> Prop) (o : outcome A) :
  (forall a, R a a) -> outcome_rel R o o.
Proof. intros HR. destruct o; cbn [outcome_rel]; auto. Qed.

Lemma reset_same_but_sums (h : tsk_exfatfs_h) (NDEBUG : bool)
  (i i' : EXFATFS_FS_NAME_INFO) :
  same_but_sums i i' ->
  exfatfs_reset_name_info h NDEBUG i' = exfatfs_reset_name_info h NDEBUG i.
Proof. intros (e & a & ->). reflexivity. Qed.

Lemma finalize_same_but_sums (h : tsk_exfatfs_h) (NDEBUG : bool)
  (i i' : EXFATFS_FS_NAME_INFO) :
  same_but_sums i i' ->
  exfatfs_add_name_to_dir_and_reset_info h NDEBUG i'
  = exfatfs_add_name_to_dir_and_reset_info h NDEBUG i.
Proof.
  intros (e & a & ->). unfold exfatfs_add_name_to_dir_and_reset_info.
  unfold with_check_sums. fields.
  destruct (strlen (name (fs_name i)) >? 0); reflexivity.
Qed.

Lemma finalize_rel (h : tsk_exfatfs_h) (NDEBUG : bool)
  (i i' : EXFATFS_FS_NAME_INFO) :
  same_but_sums i i' ->
  outcome_rel same_but_sums
    (exfatfs_add_name_to_dir_and_reset_info h NDEBUG i)
    (exfatfs_add_name_to_dir_and_reset_info h NDEBUG i').
Proof.
  intros Hrel. rewrite (finalize_same_but_sums h NDEBUG i i' Hrel).
  apply outcome_rel_eq, same_but_sums_refl.
Qed.

Lemma reset_rel (h : tsk_exfatfs_h) (NDEBUG : bool)
  (i i' : EXFATFS_FS_NAME_INFO) :
  same_but_sums i i' ->
  outcome_rel same_but_sums
    (exfatfs_reset_name_info h NDEBUG i)
    (exfatfs_reset_name_info h NDEBUG i').
Proof.
  intros Hrel. rewrite (reset_same_but_sums h NDEBUG i i' Hrel).
  apply outcome_rel_eq, same_but_sums_refl.
Qed.

Lemma count_rel (h : tsk_exfatfs_h) (NDEBUG : bool)
  (i i' : EXFATFS_FS_NAME_INFO) :
  same_but_sums i i' ->
  outcome_rel same_but_sums
    (count_secondary_entry h NDEBUG i) (count_secondary_entry h NDEBUG i').
Proof.
  intros (e & a & ->). unfold count_secondary_entry. cbv zeta.
  unfold with_check_sums. fields.
  match goal with
  | |- context [if ?b then _ else _] => destruct b
  end.
  - apply finalize_rel. exists e, a. reflexivity.
  - cbn [outcome_rel]. exists e, a. reflexivity.
Qed.

(** The check sum of a file entry does not depend on the bytes 2 and 3
    of the entry. *)
Lemma checksum_fold_same (h : tsk_exfatfs_h) (d d' : FATFS_DENTRY) :
  same_but_check_sum h d d' ->
  forall l c,
    fold_left (checksum_loop_body h (data_at d' 0) d') l c
    = fold_left (checksum_loop_body h (data_at d 0) d) l c.
Proof.
  intros [-> | [Hty Hsame]]; [reflexivity |].
  rewrite (Hsame 0) by lia.
  induction l as [| k l IH]; intros c; [reflexivity |].
  cbn [fold_left]. rewrite IH. f_equal.
  unfold checksum_loop_body, byte_to_add.
  assert ((data_at d 0 =? EXFATFS_DIR_ENTRY_TYPE_FILE h)
          || (data_at d 0 =? EXFATFS_DIR_ENTRY_TYPE_DELETED_FILE h)
          = true) as ->.
  { apply orb_true_iff. rewrite !Z.eqb_eq. exact Hty. }
  cbn [andb].
  destruct (Z.eqb_spec k 2); [reflexivity |].
  destruct (Z.eqb_spec k 3); [reflexivity |].
  cbn [orb]. rewrite (Hsame k) by assumption. reflexivity.
Qed.

Lemma same_but_check_sum_byte (h : tsk_exfatfs_h) (d d' : FATFS_DENTRY)
  (k : Z) :
  same_but_check_sum h d d' -> ~ In k [2; 3] ->
  data_at d' k = data_at d k.
Proof.
  intros [-> | [_ Hsame]] Hk; [reflexivity |].
  apply Hsame; intros ->; apply Hk; cbn [In]; auto.
Qed.

Lemma checksum_unfold (h : tsk_exfatfs_h) (NDEBUG : bool)
  (i : EXFATFS_FS_NAME_INFO) (d : FATFS_DENTRY) :
  exfatfs_update_file_entry_set_checksum h NDEBUG i d
  = (assert NDEBUG (checksum_dentry_type_asserted h (data_at d 0)) ;;;
     Ok (set_actual_check_sum
           (fold_left (checksum_loop_body h (data_at d 0) d)
              (upto sizeof_data) (actual_check_sum i)) i)).
Proof. reflexivity. Qed.

Lemma checksum_rel (h : tsk_exfatfs_h) (NDEBUG : bool)
  (i i' : EXFATFS_FS_NAME_INFO) (d d' : FATFS_DENTRY) :
  same_but_check_sum h d d' ->
  same_but_sums i i' ->
  outcome_rel same_but_sums
    (exfatfs_update_file_entry_set_checksum h NDEBUG i d)
    (exfatfs_update_file_entry_set_checksum h NDEBUG i' d').
Proof.
  intros Hd (e & a & ->).
  rewrite !checksum_unfold.
  rewrite (checksum_fold_same h d d' Hd).
  assert (data_at d' 0 = data_at d 0) as ->.
  { destruct Hd as [-> | [_ Hsame]]; [reflexivity |].
    apply Hsame; discriminate. }
  apply outcome_rel_assert. cbn [outcome_rel].
  exists e.
  exists (fold_left (checksum_loop_body h (data_at d 0) d)
              (upto sizeof_data) a).
  unfold with_check_sums, set_actual_check_sum, set_expected_check_sum.
  cbn [fatfs sector_is_allocated last_dentry_type
       expected_secondary_entry_count actual_secondary_entry_count
       expected_check_sum actual_check_sum expected_name_length
       actual_name_length fs_name fs_dir].
  reflexivity.
Qed.

Ltac sums_cases :=
  fields;
  repeat (match goal with
          | |- context [if ?b then _ else _] => destruct b
          end; fields).

Lemma file_dentry_rel (h : tsk_exfatfs_h) (NDEBUG : bool)
  (i i' : EXFATFS_FS_NAME_INFO) (d d' : FATFS_DENTRY) (inum : Z) :
  ~ In (OFFSET_secondary_entries_count h) [2; 3] ->
  ~ In (OFFSET_attrs h) [2; 3] ->
  same_but_check_sum h d d' ->
  same_but_sums i i' ->
  outcome_rel same_but_sums
    (exfats_parse_file_dentry h NDEBUG i d inum)
    (exfats_parse_file_dentry h NDEBUG i' d' inum).
Proof.
  intros Hcount Hattrs Hd Hi.
  unfold exfats_parse_file_dentry, file_dentry_asserted, entry_type.
  rewrite (same_but_check_sum_byte h d d' 0 Hd)
    by (cbn [In]; intros [H | [H | H]]; try discriminate H; exact H).
  rewrite (same_but_check_sum_byte h d d' _ Hd Hcount).
  rewrite (same_but_check_sum_byte h d d' _ Hd Hattrs).
  pose proof Hi as (e & a & ->).
  change (name_size_asserted h (with_check_sums e a i))
    with (name_size_asserted h i).
  change (fatfs (with_check_sums e a i)) with (fatfs i).
  apply outcome_rel_assert.
  rewrite (finalize_same_but_sums h NDEBUG i _ Hi).
  apply outcome_rel_bind with (R := eq).
  { apply outcome_rel_eq. reflexivity. }
  intros i1 ? <-. cbv zeta.
  apply checksum_rel; [exact Hd |].
  destruct i1 as [f1 sa1 ld1 es1 as1 ec1 ac1 en1 an1 [nm1 ns1 ma1 ty1 fl1]
                    dir1].
  destruct (negb (Z.land (data_at d (OFFSET_attrs h))
                    (FATFS_ATTR_DIRECTORY h) =? 0));
    sums_cases; unfold same_but_sums, with_check_sums; fields;
    eexists _, _; reflexivity.
Qed.

Lemma file_stream_dentry_rel (h : tsk_exfatfs_h) (NDEBUG : bool)
  (i i' : EXFATFS_FS_NAME_INFO) (d : FATFS_DENTRY) (inum : Z) :
  same_but_sums i i' ->
  outcome_rel same_but_sums
    (exfats_parse_file_stream_dentry h NDEBUG i d inum)
    (exfats_parse_file_stream_dentry h NDEBUG i' d inum).
Proof.
  intros Hi. pose proof Hi as (e & a & ->).
  unfold exfats_parse_file_stream_dentry.
  change (file_stream_dentry_asserted h (with_check_sums e a i) d inum)
    with (file_stream_dentry_asserted h i d inum).
  change (stream_out_of_sequence h (with_check_sums e a i))
    with (stream_out_of_sequence h i).
  change (stream_in_use_mismatch h (with_check_sums e a i) d)
    with (stream_in_use_mismatch h i d).
  apply outcome_rel_assert.
  destruct (stream_out_of_sequence h i); [apply finalize_rel, Hi |].
  destruct (stream_in_use_mismatch h i d); [apply finalize_rel, Hi |].
  cbv zeta. apply outcome_rel_bind with (R := same_but_sums).
  - apply checksum_rel; [left; reflexivity |].
    exists e, a. reflexivity.
  - intros i1 i1' Hi1. apply count_rel, Hi1.
Qed.

Lemma file_name_dentry_rel (h : tsk_exfatfs_h) (NDEBUG : bool)
  (dec : FATFS_INFO -> list Z -> Z -> list Z -> Z -> Z ->
         TSKConversionResult * list Z)
  (i i' : EXFATFS_FS_NAME_INFO) (d : FATFS_DENTRY) (inum : Z) :
  same_but_sums i i' ->
  outcome_rel same_but_sums
    (exfats_parse_file_name_dentry h NDEBUG dec i d inum)
    (exfats_parse_file_name_dentry h NDEBUG dec i' d inum).
Proof.
  intros Hi. pose proof Hi as (e & a & ->).
  unfold exfats_parse_file_name_dentry.
  change (file_name_dentry_asserted h (with_check_sums e a i) d inum)
    with (file_name_dentry_asserted h i d inum).
  change (name_out_of_sequence h (with_check_sums e a i))
    with (name_out_of_sequence h i).
  change (name_in_use_mismatch h (with_check_sums e a i) d)
    with (name_in_use_mismatch h i d).
  apply outcome_rel_assert.
  destruct (name_out_of_sequence h i); [apply finalize_rel, Hi |].
  destruct (name_in_use_mismatch h i d); [apply finalize_rel, Hi |].
  cbv zeta.
  change (name_chars_fit h
            (set_last_dentry_type (entry_type d) (with_check_sums e a i)))
    with (name_chars_fit h (set_last_dentry_type (entry_type d) i)).
  change (name_conversion h dec
            (set_last_dentry_type (entry_type d) (with_check_sums e a i))
            d inum)
    with (name_conversion h dec (set_last_dentry_type (entry_type d) i)
            d inum).
  change (num_chars_to_copy h
            (set_last_dentry_type (entry_type d) (with_check_sums e a i)))
    with (num_chars_to_copy h (set_last_dentry_type (entry_type d) i)).
  destruct (name_chars_fit h (set_last_dentry_type (entry_type d) i)).
  - destruct (name_conversion h dec
                (set_last_dentry_type (entry_type d) i) d inum)
      as [[| | |] dest];
      [apply count_rel | apply finalize_rel | apply finalize_rel
       | apply finalize_rel];
      exists e, a; reflexivity.
  - apply count_rel. exists e, a. reflexivity.
Qed.

Lemma select_case_vol_label (h : tsk_exfatfs_h) (ty : Z) :
  select_case h ty = CaseVolLabel ->
  ty = EXFATFS_DIR_ENTRY_TYPE_VOLUME_LABEL_EMPTY h
  \/ ty = EXFATFS_DIR_ENTRY_TYPE_VOLUME_LABEL h.
Proof.
  unfold select_case.
  repeat match goal with
         | |- context [if ?b then _ else _] =>
             let E := fresh "E" in destruct b eqn:E; try discriminate
         end.
  intros _.
  match goal with
  | E : (_ =? EXFATFS_DIR_ENTRY_TYPE_VOLUME_LABEL_EMPTY h) || _ = true
    |- _ =>
      apply orb_true_iff in E; destruct E as [E | E];
      apply Z.eqb_eq in E; auto
  end.
Qed.

(** The bytes that follow the entry in the buffer have no effect on the
    handler of label entries when the units it asks for lie in the
    entry. *)
Lemma vol_label_dentry_rel (h : tsk_exfatfs_h) (NDEBUG : bool)
  (dec : FATFS_INFO -> list Z -> Z -> list Z -> Z -> Z ->
         TSKConversionResult * list Z)
  (i i' : EXFATFS_FS_NAME_INFO) (d : FATFS_DENTRY)
  (following following' : list Z) (inum : Z) :
  converter_reads_units dec ->
  label_within_entry h d ->
  select_case h (entry_type d) = CaseVolLabel ->
  same_but_sums i i' ->
  outcome_rel same_but_sums
    (exfats_parse_vol_label_dentry h NDEBUG dec i d following inum)
    (exfats_parse_vol_label_dentry h NDEBUG dec i' d following' inum).
Proof.
  intros Hdec Hwithin Hcase Hi. pose proof Hi as (e & a & ->).
  unfold exfats_parse_vol_label_dentry.
  change (vol_label_dentry_asserted h (with_check_sums e a i) d inum)
    with (vol_label_dentry_asserted h i d inum).
  apply outcome_rel_assert.
  rewrite (finalize_same_but_sums h NDEBUG i _ Hi).
  apply outcome_rel_bind with (R := eq).
  { apply outcome_rel_eq. reflexivity. }
  intros i1 ? <-. cbv zeta.
  destruct (Z.eqb_spec (entry_type d)
              (EXFATFS_DIR_ENTRY_TYPE_VOLUME_LABEL_EMPTY h))
    as [Hempty | Hlabel]; cbn [negb].
  { cbn [outcome_rel]. apply same_but_sums_refl. }
  apply select_case_vol_label in Hcase.
  destruct Hcase as [Hcase | Hcase]; [contradiction |].
  specialize (Hwithin Hcase).
  assert (vol_label_conversion h dec
            (set_last_dentry_type (entry_type d) i1) d following' inum
          = vol_label_conversion h dec
              (set_last_dentry_type (entry_type d) i1) d following inum)
    as ->.
  { unfold vol_label_conversion, vol_label_source. apply Hdec.
    rewrite !firstn_app.
    match goal with
    | |- _ ++ firstn ?k _ = _ ++ firstn ?k _ =>
        replace k with 0%nat by lia
    end.
    reflexivity. }
  apply outcome_rel_eq, same_but_sums_refl.
Qed.

Lemma special_file_dentry_rel (h : tsk_exfatfs_h) (NDEBUG : bool)
  (i i' : EXFATFS_FS_NAME_INFO) (d : FATFS_DENTRY) (inum : Z) :
  same_but_sums i i' ->
  outcome_rel same_but_sums
    (exfats_parse_special_file_dentry h NDEBUG i d inum)
    (exfats_parse_special_file_dentry h NDEBUG i' d inum).
Proof.
  intros Hi. pose proof Hi as (e & a & ->).
  unfold exfats_parse_special_file_dentry.
  change (special_file_dentry_asserted h (with_check_sums e a i) d inum)
    with (special_file_dentry_asserted h i d inum).
  apply outcome_rel_assert.
  rewrite (finalize_same_but_sums h NDEBUG i _ Hi).
  apply outcome_rel_eq. apply same_but_sums_refl.
Qed.

Lemma for_loop_rel (body body' : parse_state -> Z ->
                                 outcome (loop_exit parse_state))
  (l : list Z) :
  (forall s s' i,
     states_same_but_sums s s' ->
     outcome_rel exits_same_but_sums (body s i) (body' s' i)) ->
  forall s s',
    states_same_but_sums s s' ->
    outcome_rel exits_same_but_sums
      (for_loop body s l) (for_loop body' s' l).
Proof.
  intros Hbody. induction l as [| i l IH]; intros s s' Hs.
  - exact Hs.
  - cbn [for_loop].
    apply outcome_rel_bind with (R := exits_same_but_sums).
    + apply Hbody, Hs.
    + intros [s1 | rv s1] [s1' | rv' s1'] Hr; cbn [exits_same_but_sums] in Hr;
        try contradiction.
      * apply IH, Hr.
      * exact Hr.
Qed.

Lemma current_dentry_same (h : tsk_exfatfs_h)
  (a_buf a_buf' : list FATFS_DENTRY) (s : parse_state) :
  Forall2 (same_but_check_sum h) a_buf a_buf' ->
  same_but_check_sum h (current_dentry_of a_buf s)
    (current_dentry_of a_buf' s).
Proof.
  intros Hbuf. unfold current_dentry_of.
  generalize (Z.to_nat (dentry s)). intros k. revert k.
  induction Hbuf as [| d d' l l' Hd _ IH]; intros k.
  - destruct k; left; reflexivity.
  - destruct k as [| k]; [exact Hd | apply IH].
Qed.

Lemma dispatched_entry_same (h : tsk_exfatfs_h)
  (cls : FATFS_INFO -> FATFS_DENTRY -> bool -> Z)
  (f : FATFS_INFO) (d d' : FATFS_DENTRY) (hint : bool) :
  classifier_sound h cls ->
  same_but_check_sum h d d' ->
  select_case h (cls f d hint) <> CaseFile ->
  select_case h (cls f d hint) <> CaseDefault ->
  d' = d.
Proof.
  intros Hcls [-> | [Hty _]] Hfile Hdefault; [reflexivity |].
  exfalso. apply Hfile.
  rewrite (Hcls f d hint).
  - unfold select_case.
    assert ((data_at d 0 =? EXFATFS_DIR_ENTRY_TYPE_FILE h)
            || (data_at d 0 =? EXFATFS_DIR_ENTRY_TYPE_DELETED_FILE h)
            = true) as ->; [| reflexivity].
    apply orb_true_iff. rewrite !Z.eqb_eq. exact Hty.
  - unfold default_case.
    destruct (select_case h (cls f d hint)); try reflexivity.
    contradiction.
Qed.

Lemma dentry_loop_body_rel
  (h : tsk_exfatfs_h) (NDEBUG : bool)
  (dec : FATFS_INFO -> list Z -> Z -> list Z -> Z -> Z ->
         TSKConversionResult * list Z)
  (cls : FATFS_INFO -> FATFS_DENTRY -> bool -> Z)
  (a_fatfs : FATFS_INFO) (a_buf a_buf' : list FATFS_DENTRY)
  (base : Z) (s s' : parse_state) (idx : Z) :
  classifier_sound h cls ->
  (forall f d d' hint,
     same_but_check_sum h d d' -> cls f d' hint = cls f d hint) ->
  converter_reads_units dec ->
  (forall k, label_within_entry h (nth k a_buf {| data := [] |})) ->
  ~ In (OFFSET_secondary_entries_count h) [2; 3] ->
  ~ In (OFFSET_attrs h) [2; 3] ->
  Forall2 (same_but_check_sum h) a_buf a_buf' ->
  states_same_but_sums s s' ->
  outcome_rel exits_same_but_sums
    (dentry_loop_body h NDEBUG dec cls a_fatfs a_buf base s idx)
    (dentry_loop_body h NDEBUG dec cls a_fatfs a_buf' base s' idx).
Proof.
  intros Hcls Hagree Hdec Hlabels Hcount Hattrs Hbuf (i' & Hi & ->).
  pose proof Hi as (e & a & ->).
  pose proof (current_dentry_same h a_buf a_buf' s Hbuf) as Hd.
  unfold dentry_loop_body. cbv zeta.
  change (current_dentry_of a_buf'
            (set_name_info (with_check_sums e a (name_info s)) s))
    with (current_dentry_of a_buf' s).
  set (d := current_dentry_of a_buf s) in *.
  set (d' := current_dentry_of a_buf' s) in *.
  destruct (negb (fatfs_is_inum_in_range a_fatfs (uint64 (base + idx)))).
  { cbn [outcome_rel exits_same_but_sums]. split; [reflexivity |].
    exists (with_check_sums e a (name_info s)).
    split; [exact Hi | reflexivity]. }
  change (classifier_hint
            (set_entries_count
               (entries_count
                  (set_name_info (with_check_sums e a (name_info s)) s)
                + 1)
               (set_name_info (with_check_sums e a (name_info s)) s)))
    with (classifier_hint s).
  change (classifier_hint (set_entries_count (entries_count s + 1) s))
    with (classifier_hint s).
  rewrite (Hagree a_fatfs d d' (classifier_hint s) Hd).
  set (ty := cls a_fatfs d (classifier_hint s)).
  pose proof (dispatched_entry_same h cls a_fatfs d d' (classifier_hint s)
                Hcls Hd) as Hsame.
  fold ty in Hsame.
  assert (forall (r r' : outcome EXFATFS_FS_NAME_INFO)
                 (t t' : parse_state),
            outcome_rel same_but_sums r r' ->
            states_same_but_sums t t' ->
            outcome_rel exits_same_but_sums
              (s0 <- (i0 <- r ;; Ok (set_name_info i0 t)) ;;
               Ok (Continue (set_dentry (dentry s0 + 1) s0)))
              (s0 <- (i0 <- r' ;; Ok (set_name_info i0 t')) ;;
               Ok (Continue (set_dentry (dentry s0 + 1) s0)))) as Hstep.
  { intros r r' t t' Hr (j & _ & ->).
    destruct r as [i0 | |], r' as [i0' | |]; cbn [outcome_rel] in Hr;
      try contradiction; cbn [bind outcome_rel exits_same_but_sums];
      [| exact I | exact I].
    exists i0'. split; [exact Hr | reflexivity]. }
  assert (forall c,
            states_same_but_sums
              (record_classifier_call c
                 (set_entries_count (entries_count s + 1) s))
              (record_classifier_call c
                 (set_entries_count
                    (entries_count
                       (set_name_info
                          (with_check_sums e a (name_info s)) s) + 1)
                    (set_name_info
                       (with_check_sums e a (name_info s)) s)))) as Hrec.
  { intros c. exists (with_check_sums e a (name_info s)).
    split; [exact Hi | reflexivity]. }
  destruct (select_case h ty) eqn:Hcase.
  - apply Hstep; [| apply Hrec].
    apply file_dentry_rel; assumption.
  - rewrite (Hsame ltac:(discriminate) ltac:(discriminate)).
    apply Hstep; [| apply Hrec].
    apply file_stream_dentry_rel. exact Hi.
  - rewrite (Hsame ltac:(discriminate) ltac:(discriminate)).
    apply Hstep; [| apply Hrec].
    apply file_name_dentry_rel. exact Hi.
  - rewrite (Hsame ltac:(discriminate) ltac:(discriminate)).
    apply Hstep; [| apply Hrec].
    apply vol_label_dentry_rel;
      [exact Hdec | exact (Hlabels (Z.to_nat (dentry s))) | | exact Hi].
    unfold entry_type.
    rewrite <- (Hcls a_fatfs d (classifier_hint s));
      [exact Hcase |].
    unfold default_case. fold ty. rewrite Hcase. reflexivity.
  - rewrite (Hsame ltac:(discriminate) ltac:(discriminate)).
    apply Hstep; [| apply Hrec].
    apply special_file_dentry_rel. exact Hi.
  - fields.
    destruct ((entries_count s + 1 =? 4)
              && (invalid_entries_count s + 1 =? 4));
      (apply Hstep;
       [ apply finalize_rel; exact Hi
       | exists (with_check_sums e a (name_info s));
         split; [exact Hi | reflexivity] ]).
Qed.

Lemma sector_loop_body_rel
  (h : tsk_exfatfs_h) (NDEBUG : bool)
  (dec : FATFS_INFO -> list Z -> Z -> list Z -> Z -> Z ->
         TSKConversionResult * list Z)
  (cls : FATFS_INFO -> FATFS_DENTRY -> bool -> Z)
  (alloc : FATFS_INFO -> Z -> Z) (s2i : FATFS_INFO -> Z -> Z)
  (a_fatfs : FATFS_INFO) (a_buf a_buf' : list FATFS_DENTRY)
  (addrs : list Z) (s s' : parse_state) (idx : Z) :
  classifier_sound h cls ->
  (forall f d d' hint,
     same_but_check_sum h d d' -> cls f d' hint = cls f d hint) ->
  converter_reads_units dec ->
  (forall k, label_within_entry h (nth k a_buf {| data := [] |})) ->
  ~ In (OFFSET_secondary_entries_count h) [2; 3] ->
  ~ In (OFFSET_attrs h) [2; 3] ->
  Forall2 (same_but_check_sum h) a_buf a_buf' ->
  states_same_but_sums s s' ->
  outcome_rel exits_same_but_sums
    (sector_loop_body h NDEBUG dec cls alloc s2i a_fatfs a_buf addrs s idx)
    (sector_loop_body h NDEBUG dec cls alloc s2i a_fatfs a_buf' addrs s'
       idx).
Proof.
  intros Hcls Hagree Hdec Hlabels Hcount Hattrs Hbuf (i' & Hi & ->).
  pose proof Hi as (e & a & ->).
  unfold sector_loop_body. cbv zeta.
  destruct (s2i a_fatfs (nth (Z.to_nat idx) addrs 0)
            >? last_inum (fs_info a_fatfs)).
  { cbn [outcome_rel exits_same_but_sums]. split; [reflexivity |].
    exists (with_check_sums e a (name_info s)).
    split; [exact Hi | reflexivity]. }
  fields.
  assert (states_same_but_sums
            (set_name_info
               (set_sector_is_allocated
                  (alloc a_fatfs (nth (Z.to_nat idx) addrs 0))
                  (name_info s)) s)
            (set_name_info
               (set_sector_is_allocated
                  (alloc a_fatfs (nth (Z.to_nat idx) addrs 0))
                  (with_check_sums e a (name_info s)))
               (set_name_info (with_check_sums e a (name_info s)) s)))
    as Hs.
  { eexists. split; [exists e, a; reflexivity | reflexivity]. }
  destruct (alloc a_fatfs (nth (Z.to_nat idx) addrs 0) =? -1).
  - cbn [outcome_rel exits_same_but_sums].
    destruct Hs as (j & Hj & ->). exists j. split; [exact Hj |].
    reflexivity.
  - apply for_loop_rel; [| exact Hs].
    intros s0 s0' i0 Hs0. apply dentry_loop_body_rel; assumption.
Qed.

(** X8. The check sums are computed and never compared: the bytes 2 and 3
    of the file entries, where an entry set stores its check sum, have
    no effect on what [exfatfs_dent_parse_buf] returns and adds to the
    directory, as long as they have none on the answers of the
    classifier, the classifier answers with the type byte of the
    entries it recognises, the converter reads the units it is asked to
    convert and nothing after them, and the units that the handler of
    label entries asks for (one more than a label entry declares, with
    no cap) lie in the label entry, so that the conversion of a label
    does not read the entry that follows it. *)
Theorem parse_buf_ignores_check_sums
  (h : tsk_exfatfs_h) (NDEBUG : bool)
  (fatfs_utf16_inode_str_2_utf8 :
     FATFS_INFO -> list Z -> Z -> list Z -> Z -> Z ->
     TSKConversionResult * list Z)
  (exfatfs_is_dentry : FATFS_INFO -> FATFS_DENTRY -> bool -> Z)
  (fatfs_is_sectalloc : FATFS_INFO -> Z -> Z)
  (FATFS_SECT_2_INODE : FATFS_INFO -> Z -> Z)
  (tsk_fs_name_alloc : Z -> Z -> option TSK_FS_NAME)
  (a_fatfs : option FATFS_INFO) (a_fs_dir : option TSK_FS_DIR)
  (a_buf a_buf' : list FATFS_DENTRY) (a_buf_len : Z)
  (a_sector_addrs : option (list Z)) :
  classifier_sound h exfatfs_is_dentry ->
  (forall f d d' hint,
     same_but_check_sum h d d' ->
     exfatfs_is_dentry f d' hint = exfatfs_is_dentry f d hint) ->
  converter_reads_units fatfs_utf16_inode_str_2_utf8 ->
  (forall k, label_within_entry h (nth k a_buf {| data := [] |})) ->
  ~ In (OFFSET_secondary_entries_count h) [2; 3] ->
  ~ In (OFFSET_attrs h) [2; 3] ->
  Forall2 (same_but_check_sum h) a_buf a_buf' ->
  exfatfs_dent_parse_buf h NDEBUG fatfs_utf16_inode_str_2_utf8
    exfatfs_is_dentry fatfs_is_sectalloc FATFS_SECT_2_INODE
    tsk_fs_name_alloc a_fatfs a_fs_dir (Some a_buf') a_buf_len
    a_sector_addrs
  = exfatfs_dent_parse_buf h NDEBUG fatfs_utf16_inode_str_2_utf8
      exfatfs_is_dentry fatfs_is_sectalloc FATFS_SECT_2_INODE
      tsk_fs_name_alloc a_fatfs a_fs_dir (Some a_buf) a_buf_len
      a_sector_addrs.
Proof.
  intros Hcls Hagree Hdec Hlabels Hcount Hattrs Hbuf.
  unfold exfatfs_dent_parse_buf.
  destruct a_fatfs as [f |], a_fs_dir as [dir |],
    a_sector_addrs as [addrs |]; try reflexivity.
  f_equal.
  destruct (a_buf_len <? 0); [reflexivity |].
  destruct (tsk_fs_name_alloc (EXFATFS_MAX_NAME_LEN_UTF8 h) 0) as [n |];
    [| reflexivity].
  assert (outcome_rel exits_same_but_sums
            (parse_sectors h NDEBUG fatfs_utf16_inode_str_2_utf8
               exfatfs_is_dentry fatfs_is_sectalloc FATFS_SECT_2_INODE
               f a_buf addrs a_buf_len (initial_state f dir n))
            (parse_sectors h NDEBUG fatfs_utf16_inode_str_2_utf8
               exfatfs_is_dentry fatfs_is_sectalloc FATFS_SECT_2_INODE
               f a_buf' addrs a_buf_len (initial_state f dir n)))
    as Hloops.
  { unfold parse_sectors, c_div.
    destruct (ssize f =? 0); [exact I |]. cbn [bind].
    apply for_loop_rel.
    - intros s s' i Hs. apply sector_loop_body_rel; assumption.
    - exists (name_info (initial_state f dir n)).
      split; [apply same_but_sums_refl | reflexivity]. }
  destruct (parse_sectors h NDEBUG fatfs_utf16_inode_str_2_utf8
              exfatfs_is_dentry fatfs_is_sectalloc FATFS_SECT_2_INODE
              f a_buf addrs a_buf_len (initial_state f dir n))
    as [[s | rv s] | |],
    (parse_sectors h NDEBUG fatfs_utf16_inode_str_2_utf8
       exfatfs_is_dentry fatfs_is_sectalloc FATFS_SECT_2_INODE
       f a_buf' addrs a_buf_len (initial_state f dir n))
    as [[s' | rv' s'] | |];
    cbn [outcome_rel exits_same_but_sums] in Hloops;
    try contradiction; cbn [bind].
  - destruct Hloops as (j & Hj & ->). fields.
    rewrite (finalize_same_but_sums h NDEBUG (name_info s) j Hj).
    destruct (exfatfs_add_name_to_dir_and_reset_info h NDEBUG
                (name_info s)); reflexivity.
  - destruct Hloops as (-> & j & (e & a & ->) & ->).
    unfold result_of. fields. reflexivity.
  - reflexivity.
  - reflexivity.
Qed.

Lemma ascii_units_firstn (n : nat) :
  forall src src',
    firstn (2 * n) src = firstn (2 * n) src' ->
    ascii_units src n = ascii_units src' n.
Proof.
  induction n as [| n IH]; intros src src' H;
    [destruct src, src'; reflexivity |].
  replace (2 * S n)%nat with (S (S (2 * n))) in H by lia.
  destruct src as [| lo [| hi t]], src' as [| lo' [| hi' t']];
    cbn [firstn] in H; try discriminate H; try reflexivity.
  injection H as -> -> H. cbn [ascii_units].
  rewrite (IH t t' H). reflexivity.
Qed.

Lemma ascii_decoder_reads_units : converter_reads_units ascii_decoder.
Proof.
  intros f src src' n dst sz inum H. unfold ascii_decoder.
  rewrite (ascii_units_firstn _ src src' H). reflexivity.
Qed.

Lemma hello_buf_labels (k : nat) :
  label_within_entry exfat_h (nth k hello_buf {| data := [] |}).
Proof.
  intros Hty. exfalso.
  do 16 (destruct k as [| k]; [vm_compute in Hty; discriminate Hty |]).
  destruct k; vm_compute in Hty; discriminate Hty.
Qed.


Lemma file_dentry_2_same_but_check_sum :
  same_but_check_sum exfat_h file_dentry_2 file_dentry_2_summed.
Proof.
  right. split; [left; reflexivity |].
  intros k H2 H3. unfold data_at.
  destruct (Z.to_nat k) as [| [| [| [| n]]]] eqn:Hk;
    try reflexivity; exfalso; lia.
Qed.

Lemma parse_buf_ignores_check_sums_witness :
  exfatfs_dent_parse_buf exfat_h false ascii_decoder
    (tag_classifier exfat_h) sectalloc_all sect_2_inode16 name_alloc_ok
    (Some fatfs0) (Some {| names := [] |}) (Some hello_buf_summed) 512
    (Some [0])
  = exfatfs_dent_parse_buf exfat_h false ascii_decoder
      (tag_classifier exfat_h) sectalloc_all sect_2_inode16 name_alloc_ok
      (Some fatfs0) (Some {| names := [] |}) (Some hello_buf) 512
      (Some [0]).
Proof.
  apply (parse_buf_ignores_check_sums exfat_h false ascii_decoder
           (tag_classifier exfat_h) sectalloc_all sect_2_inode16
           name_alloc_ok (Some fatfs0) (Some {| names := [] |})
           hello_buf hello_buf_summed 512 (Some [0])).
  - exact tag_classifier_sound.
  - intros f d d' hint Hd. unfold tag_classifier.
    rewrite (same_but_check_sum_byte exfat_h d d' 0 Hd)
      by (cbn [In]; intros [H | [H | H]]; try discriminate H; exact H).
    reflexivity.
  - exact ascii_decoder_reads_units.
  - exact hello_buf_labels.
  - cbn. intros [H | [H | H]]; try discriminate H; exact H.
  - cbn. intros [H | [H | H]]; try discriminate H; exact H.
  - unfold hello_buf, hello_buf_summed. cbn [app].
    constructor; [exact file_dentry_2_same_but_check_sum |].
    repeat (constructor; [left; reflexivity |]). constructor.
Defined.

(** ** The characters of the name entries *)



Lemma strlen_c_string (buf : list Z) :
  strlen buf = Z.of_nat (length (c_string buf)).
Proof.
  unfold strlen. f_equal.
  induction buf as [| b t IH]; [reflexivity |].
  cbn [strlen_nat c_string]. destruct (b =? 0); [reflexivity |].
  cbn [length]. rewrite IH. reflexivity.
Qed.




(** ** The identity of a record *)

Lemma finalize_value_kept_or_closed (h : tsk_exfatfs_h)
  (i x : EXFATFS_FS_NAME_INFO) :
  fs_dir x = fs_dir i ->
  same_identity (fs_name i) (fs_name x) ->
  kept_or_closed h i (finalize_value h x).
Proof.
  intros Hdir Hid. right. split; [apply closed_finalize_value |].
  destruct (Z.gtb_spec (strlen (name (fs_name x))) 0) as [Hpos | Hnone].
  - right. exists (fs_name x).
    rewrite finalize_value_emits, Hdir by lia. auto.
  - left. rewrite finalize_value_skips, Hdir; [reflexivity |].
    pose proof (strlen_c_string (name (fs_name x))). lia.
Qed.

Lemma count_value_kept_or_closed (h : tsk_exfatfs_h)
  (i x : EXFATFS_FS_NAME_INFO) :
  fs_dir x = fs_dir i ->
  same_identity (fs_name i) (fs_name x) ->
  kept_or_closed h i (count_value h x).
Proof.
  intros Hdir Hid. unfold count_value. cbv zeta.
  match goal with
  | |- context [if ?b then _ else _] => destruct b
  end.
  - apply finalize_value_kept_or_closed; fields; assumption.
  - left. fields. auto.
Qed.

Lemma same_identity_refl (n : TSK_FS_NAME) : same_identity n n.
Proof. unfold same_identity. auto. Qed.

(** X10. The inode address that the driver passes with a stream entry or a
    name entry is never recorded: the name under assembly keeps the
    inode address, the file type and the allocation flag that the file
    entry of the set gave it, and a record that the handlers of these
    entries add to the directory carries them. *)
Theorem secondary_entries_keep_identity
  (h : tsk_exfatfs_h) (NDEBUG : bool)
  (fatfs_utf16_inode_str_2_utf8 :
     FATFS_INFO -> list Z -> Z -> list Z -> Z -> Z ->
     TSKConversionResult * list Z)
  (i i' : EXFATFS_FS_NAME_INFO) (d : FATFS_DENTRY) (inum : Z) :
  exfats_parse_file_stream_dentry h NDEBUG i d inum = Ok i'
  \/ exfats_parse_file_name_dentry h NDEBUG fatfs_utf16_inode_str_2_utf8
       i d inum = Ok i' ->
  kept_or_closed h i i'.
Proof.
  intros [Hrun | Hrun].
  - unfold exfats_parse_file_stream_dentry in Hrun.
    apply bind_assert_inv in Hrun.
    destruct (stream_out_of_sequence h i).
    { apply finalize_inv in Hrun. subst i'.
      apply finalize_value_kept_or_closed;
        [reflexivity | apply same_identity_refl]. }
    destruct (stream_in_use_mismatch h i d).
    { apply finalize_inv in Hrun. subst i'.
      apply finalize_value_kept_or_closed;
        [reflexivity | apply same_identity_refl]. }
    step_bind Hrun. apply checksum_inv in E. destruct E as [c ->].
    apply count_inv in Hrun. subst i'.
    apply count_value_kept_or_closed;
      [reflexivity | apply same_identity_refl].
  - unfold exfats_parse_file_name_dentry in Hrun.
    apply bind_assert_inv in Hrun.
    destruct (name_out_of_sequence h i).
    { apply finalize_inv in Hrun. subst i'.
      apply finalize_value_kept_or_closed;
        [reflexivity | apply same_identity_refl]. }
    destruct (name_in_use_mismatch h i d).
    { apply finalize_inv in Hrun. subst i'.
      apply finalize_value_kept_or_closed;
        [reflexivity | apply same_identity_refl]. }
    cbv zeta in Hrun.
    destruct (name_chars_fit h (set_last_dentry_type (entry_type d) i)).
    + destruct (name_conversion h fatfs_utf16_inode_str_2_utf8
                  (set_last_dentry_type (entry_type d) i) d inum)
        as [[| | |] dest]; fields;
        [apply count_inv in Hrun | apply finalize_inv in Hrun
         | apply finalize_inv in Hrun | apply finalize_inv in Hrun];
        subst i';
        first [ apply count_value_kept_or_closed
              | apply finalize_value_kept_or_closed ];
        first [ reflexivity
              | unfold same_identity; fields; auto ].
    + apply count_inv in Hrun. subst i'.
      apply count_value_kept_or_closed;
        [reflexivity | apply same_identity_refl].
Qed.

(** The stream entry of the file [HELLO], passed with the inode address
    4, leaves the inode address 3 of the file entry. *)
Lemma secondary_entries_keep_identity_witness :
  exists i',
    exfats_parse_file_stream_dentry exfat_h false name_info_after_file_2
      stream_dentry_5 4 = Ok i'
    /\ meta_addr (fs_name i') = 3.
Proof.
  eexists.
  match goal with
  | |- ?run = Ok ?i' /\ _ =>
      assert (run = Ok i') as Hrun by (vm_compute; reflexivity);
      destruct (secondary_entries_keep_identity exfat_h false
                  ascii_decoder _ _ _ _ (or_introl Hrun))
        as [[_ (Hmeta & _)] | [Hclosed _]]
  end.
  - split; [exact Hrun | exact Hmeta].
  - destruct Hclosed as (Hlast & _). vm_compute in Hlast.
    discriminate Hlast.
Defined.

(** ** The check sum of a deleted entry, on an entry *)

Lemma checksum_of_deleted_entry_witness :
  exfatfs_update_file_entry_set_checksum exfat_h false name_info0
    in_use_file_dentry
  = exfatfs_update_file_entry_set_checksum exfat_h false name_info0
      deleted_file_dentry.
Proof.
  apply checksum_of_deleted_entry.
  - exact exfat_h_tags_ok.
  - apply dentry_of_ok. bytes.
  - apply dentry_of_ok. bytes.
  - reflexivity.
  - left. split; reflexivity.
  - cbn. lia.
Defined.

(** ** A build with assertions *)

Lemma reset_returns (h : tsk_exfatfs_h) (NDEBUG : bool)
  (i : EXFATFS_FS_NAME_INFO) :
  name_size_asserted h i = true ->
  exfatfs_reset_name_info h NDEBUG i = Ok (reset_value h i).
Proof.
  intros Hsz. unfold exfatfs_reset_name_info.
  rewrite (assert_true _ _ Hsz). reflexivity.
Qed.

Lemma finalize_returns (h : tsk_exfatfs_h) (NDEBUG : bool)
  (i : EXFATFS_FS_NAME_INFO) :
  name_size_asserted h i = true ->
  exfatfs_add_name_to_dir_and_reset_info h NDEBUG i
  = Ok (finalize_value h i).
Proof.
  intros Hsz. unfold exfatfs_add_name_to_dir_and_reset_info.
  rewrite (assert_true _ _ Hsz). cbn [bind]. unfold finalize_value.
  apply reset_returns.
  destruct (strlen (name (fs_name i)) >? 0); exact Hsz.
Qed.

Lemma count_returns (h : tsk_exfatfs_h) (NDEBUG : bool)
  (i : EXFATFS_FS_NAME_INFO) :
  name_size_asserted h i = true ->
  count_secondary_entry h NDEBUG i = Ok (count_value h i).
Proof.
  intros Hsz. unfold count_secondary_entry, count_value. cbv zeta.
  match goal with
  | |- context [if ?b then _ else _] => destruct b
  end; [| reflexivity].
  apply finalize_returns. exact Hsz.
Qed.

Lemma checksum_returns (h : tsk_exfatfs_h) (NDEBUG : bool)
  (i : EXFATFS_FS_NAME_INFO) (d : FATFS_DENTRY) :
  checksum_dentry_type_asserted h (data_at d 0) = true ->
  exists c,
    exfatfs_update_file_entry_set_checksum h NDEBUG i d
    = Ok (set_actual_check_sum c i).
Proof.
  intros Hty. rewrite checksum_unfold, (assert_true _ _ Hty).
  eexists. reflexivity.
Qed.

Lemma file_dentry_returns (h : tsk_exfatfs_h) (NDEBUG : bool)
  (i : EXFATFS_FS_NAME_INFO) (d : FATFS_DENTRY) (inum : Z) :
  file_dentry_asserted h i d inum = true ->
  exists i', exfats_parse_file_dentry h NDEBUG i d inum = Ok i'.
Proof.
  intros Hassert. destruct (file_dentry_ok h NDEBUG i d inum Hassert)
    as (i' & Hrun & _).
  exists i'. exact Hrun.
Qed.

Lemma file_stream_dentry_returns (h : tsk_exfatfs_h) (NDEBUG : bool)
  (i : EXFATFS_FS_NAME_INFO) (d : FATFS_DENTRY) (inum : Z) :
  file_stream_dentry_asserted h i d inum = true ->
  exists i', exfats_parse_file_stream_dentry h NDEBUG i d inum = Ok i'.
Proof.
  intros Hassert. unfold exfats_parse_file_stream_dentry.
  rewrite (assert_true _ _ Hassert). cbn [bind].
  apply andb3_true in Hassert. destruct Hassert as (Hsz & Hty & _).
  destruct (stream_out_of_sequence h i);
    [rewrite finalize_returns by exact Hsz; eexists; reflexivity |].
  destruct (stream_in_use_mismatch h i d);
    [rewrite finalize_returns by exact Hsz; eexists; reflexivity |].
  cbv zeta.
  match goal with
  | |- context [exfatfs_update_file_entry_set_checksum h NDEBUG ?x d] =>
      destruct (checksum_returns h NDEBUG x d) as [c ->]
  end.
  - unfold checksum_dentry_type_asserted. unfold entry_type in Hty.
    apply orb_true_iff in Hty. destruct Hty as [-> | ->];
      rewrite ?orb_true_r; reflexivity.
  - cbn [bind]. rewrite count_returns by exact Hsz.
    eexists. reflexivity.
Qed.

Lemma file_name_dentry_returns (h : tsk_exfatfs_h) (NDEBUG : bool)
  (dec : FATFS_INFO -> list Z -> Z -> list Z -> Z -> Z ->
         TSKConversionResult * list Z)
  (i : EXFATFS_FS_NAME_INFO) (d : FATFS_DENTRY) (inum : Z) :
  file_name_dentry_asserted h i d inum = true ->
  exists i', exfats_parse_file_name_dentry h NDEBUG dec i d inum = Ok i'.
Proof.
  intros Hassert. unfold exfats_parse_file_name_dentry.
  rewrite (assert_true _ _ Hassert). cbn [bind].
  apply andb3_true in Hassert. destruct Hassert as (Hsz & _ & _).
  destruct (name_out_of_sequence h i);
    [rewrite finalize_returns by exact Hsz; eexists; reflexivity |].
  destruct (name_in_use_mismatch h i d);
    [rewrite finalize_returns by exact Hsz; eexists; reflexivity |].
  cbv zeta.
  destruct (name_chars_fit h (set_last_dentry_type (entry_type d) i));
    [| rewrite count_returns by exact Hsz; eexists; reflexivity].
  destruct (name_conversion h dec (set_last_dentry_type (entry_type d) i)
              d inum) as [[| | |] dest];
    first [ rewrite count_returns by exact Hsz
          | rewrite finalize_returns by exact Hsz ];
    eexists; reflexivity.
Qed.

Lemma vol_label_dentry_returns (h : tsk_exfatfs_h) (NDEBUG : bool)
  (dec : FATFS_INFO -> list Z -> Z -> list Z -> Z -> Z ->
         TSKConversionResult * list Z)
  (i : EXFATFS_FS_NAME_INFO) (d : FATFS_DENTRY)
  (following : list Z) (inum : Z) :
  vol_label_dentry_asserted h i d inum = true ->
  exists i', exfats_parse_vol_label_dentry h NDEBUG dec i d following inum = Ok i'.
Proof.
  intros Hassert. unfold exfats_parse_vol_label_dentry.
  rewrite (assert_true _ _ Hassert). cbn [bind].
  apply andb3_true in Hassert. destruct Hassert as (Hsz & _ & _).
  rewrite finalize_returns by exact Hsz. cbn [bind].
  assert (name_size_asserted h (finalize_value h i) = true) as Hsz1.
  { unfold name_size_asserted, finalize_value, reset_value in *. fields.
    destruct (strlen (name (fs_name i)) >? 0); exact Hsz. }
  destruct (negb (entry_type d
                  =? EXFATFS_DIR_ENTRY_TYPE_VOLUME_LABEL_EMPTY h));
    [| eexists; reflexivity].
  destruct (vol_label_conversion h dec
              (set_last_dentry_type (entry_type d) (finalize_value h i))
              d following inum) as [[| | |] dest]; fields;
    first [ rewrite finalize_returns
              by (match goal with
                  | |- context [if ?b then _ else _] => destruct b
                  end; exact Hsz1)
          | rewrite reset_returns by exact Hsz1 ];
    eexists; reflexivity.
Qed.

Lemma special_file_dentry_returns (h : tsk_exfatfs_h) (NDEBUG : bool)
  (i : EXFATFS_FS_NAME_INFO) (d : FATFS_DENTRY) (inum : Z) :
  special_file_dentry_asserted h i d inum = true ->
  exists i', exfats_parse_special_file_dentry h NDEBUG i d inum = Ok i'.
Proof.
  intros Hassert. unfold exfats_parse_special_file_dentry.
  rewrite (assert_true _ _ Hassert). cbn [bind].
  apply andb3_true in Hassert. destruct Hassert as (Hsz & _ & _).
  rewrite finalize_returns by exact Hsz. cbn [bind].
  assert (name_size_asserted h (finalize_value h i) = true) as Hsz1.
  { unfold name_size_asserted, finalize_value, reset_value in *. fields.
    destruct (strlen (name (fs_name i)) >? 0); exact Hsz. }
  rewrite finalize_returns by exact Hsz1. eexists. reflexivity.
Qed.

Lemma select_case_inv (h : tsk_exfatfs_h) (ty : Z) :
  match select_case h ty with
  | CaseFile =>
      (ty =? EXFATFS_DIR_ENTRY_TYPE_FILE h)
      || (ty =? EXFATFS_DIR_ENTRY_TYPE_DELETED_FILE h) = true
  | CaseFileStream =>
      (ty =? EXFATFS_DIR_ENTRY_TYPE_FILE_STREAM h)
      || (ty =? EXFATFS_DIR_ENTRY_TYPE_DELETED_FILE_STREAM h) = true
  | CaseFileName =>
      (ty =? EXFATFS_DIR_ENTRY_TYPE_FILE_NAME h)
      || (ty =? EXFATFS_DIR_ENTRY_TYPE_DELETED_FILE_NAME h) = true
  | CaseVolLabel =>
      (ty =? EXFATFS_DIR_ENTRY_TYPE_VOLUME_LABEL h)
      || (ty =? EXFATFS_DIR_ENTRY_TYPE_VOLUME_LABEL_EMPTY h) = true
  | CaseSpecialFile =>
      (ty =? EXFATFS_DIR_ENTRY_TYPE_VOLUME_GUID h)
      || (ty =? EXFATFS_DIR_ENTRY_TYPE_ALLOC_BITMAP h)
      || (ty =? EXFATFS_DIR_ENTRY_TYPE_UPCASE_TABLE h)
      || (ty =? EXFATFS_DIR_ENTRY_TYPE_TEX_FAT h)
      || (ty =? EXFATFS_DIR_ENTRY_TYPE_ACT h) = true
  | CaseDefault => True
  end.
Proof.
  unfold select_case.
  repeat match goal with
         | |- context [if ?b then _ else _] =>
             let E := fresh "E" in destruct b eqn:E
         end; try exact I; try reflexivity.
  rewrite orb_comm. assumption.
Qed.

Lemma dentry_loop_body_returns
  (h : tsk_exfatfs_h) (NDEBUG : bool)
  (dec : FATFS_INFO -> list Z -> Z -> list Z -> Z -> Z ->
         TSKConversionResult * list Z)
  (cls : FATFS_INFO -> FATFS_DENTRY -> bool -> Z)
  (a_fatfs : FATFS_INFO) (a_buf : list FATFS_DENTRY)
  (base : Z) (s : parse_state) (idx : Z) :
  classifier_sound h cls ->
  (forall k hint,
     cls a_fatfs (nth k a_buf {| data := [] |}) hint
     <> EXFATFS_DIR_ENTRY_TYPE_TEX_FAT h) ->
  asserted_inv h a_fatfs s ->
  exists r,
    dentry_loop_body h NDEBUG dec cls a_fatfs a_buf base s idx = Ok r
    /\ asserted_inv h a_fatfs (state_of r).
Proof.
  intros Hcls Htex [Hsz Hfat].
  assert (forall r,
            dentry_loop_body h NDEBUG dec cls a_fatfs a_buf base s idx
            = Ok r ->
            asserted_inv h a_fatfs (state_of r)) as Hkeeps.
  { intros r Hrun. unfold dentry_loop_body in Hrun. fields.
    destruct (negb (fatfs_is_inum_in_range a_fatfs
                      (uint64 (base + idx)))).
    { apply Ok_inj in Hrun. subst r. cbn [state_of].
      unfold asserted_inv. fields. auto. }
    assert (forall i',
              frame (name_info s) i' ->
              name_size (fs_name i') = EXFATFS_MAX_NAME_LEN_UTF8 h
              /\ fatfs i' = a_fatfs) as Hframe.
    { intros i' (_ & F & _ & N). split; congruence. }
    destruct (select_case h _) eqn:Hcase;
      step_bind Hrun; apply Ok_inj in Hrun; subst r;
      step_bind E; apply Ok_inj in E; subst i;
      cbn [state_of]; unfold asserted_inv; fields; apply Hframe.
    - apply file_dentry_keeps in E0. apply E0.
    - apply file_stream_dentry_keeps in E0. apply E0.
    - apply file_name_dentry_keeps in E0. apply E0.
    - apply vol_label_dentry_keeps in E0. apply E0.
    - apply special_file_dentry_keeps in E0. apply E0.
    - match type of E0 with
      | exfatfs_add_name_to_dir_and_reset_info _ _ (name_info ?x) = _ =>
          assert (name_info x = name_info s) as Hsame
            by (match goal with
                | |- context [if ?b then _ else _] => destruct b
                end; reflexivity)
      end.
      rewrite Hsame in E0. apply finalize_inv in E0. subst i0.
      apply frame_finalize_value. }
  assert (exists r,
            dentry_loop_body h NDEBUG dec cls a_fatfs a_buf base s idx
            = Ok r) as [r Hrun].
  { unfold dentry_loop_body. fields.
    destruct (fatfs_is_inum_in_range a_fatfs (uint64 (base + idx)))
      eqn:Hin; cbn [negb]; [| eexists; reflexivity].
    change (classifier_hint (set_entries_count (entries_count s + 1) s))
      with (classifier_hint s).
    change (current_dentry_of a_buf
              (set_entries_count (entries_count s + 1) s))
      with (current_dentry_of a_buf s).
    set (d := current_dentry_of a_buf s).
    set (ty := cls a_fatfs d (classifier_hint s)).
    assert (name_size_asserted h (name_info s) = true) as Hsz'
      by (unfold name_size_asserted; rewrite Hsz; apply Z.eqb_refl).
    pose proof (select_case_inv h ty) as Hty.
    pose proof (Hcls a_fatfs d (classifier_hint s)) as Hsound.
    fold ty in Hsound. unfold default_case in Hsound.
    pose proof (Htex (Z.to_nat (dentry s)) (classifier_hint s)) as Hno.
    fold (current_dentry_of a_buf s) in Hno. fold d ty in Hno.
    assert (forall c : outcome EXFATFS_FS_NAME_INFO,
              (exists i', c = Ok i') ->
              forall t : parse_state,
              exists r,
                (s0 <- (i0 <- c ;; Ok (set_name_info i0 t)) ;;
                 Ok (Continue (set_dentry (dentry s0 + 1) s0))) = Ok r)
      as Hstep.
    { intros c [i' ->] t. eexists. reflexivity. }
    destruct (select_case h ty) eqn:Hcase; apply Hstep; fields.
    - apply file_dentry_returns. unfold file_dentry_asserted, entry_type.
      rewrite <- (Hsound eq_refl), Hsz', Hty, Hfat, Hin. reflexivity.
    - apply file_stream_dentry_returns.
      unfold file_stream_dentry_asserted, entry_type.
      rewrite <- (Hsound eq_refl), Hsz', Hty, Hfat, Hin. reflexivity.
    - apply file_name_dentry_returns.
      unfold file_name_dentry_asserted, entry_type.
      rewrite <- (Hsound eq_refl), Hsz', Hty, Hfat, Hin. reflexivity.
    - apply vol_label_dentry_returns.
      unfold vol_label_dentry_asserted, entry_type.
      rewrite <- (Hsound eq_refl), Hsz', Hty, Hfat, Hin. reflexivity.
    - apply special_file_dentry_returns.
      unfold special_file_dentry_asserted, special_file_type_asserted.
      rewrite <- (Hsound eq_refl), Hsz', Hfat, Hin.
      destruct (Z.eqb_spec ty (EXFATFS_DIR_ENTRY_TYPE_TEX_FAT h))
        as [Heq | _]; [contradiction |].
      rewrite orb_false_r in Hty. rewrite Hty. reflexivity.
    - match goal with
      | |- context [if ?b then _ else _] => destruct b
      end; fields; rewrite finalize_returns by exact Hsz';
        eexists; reflexivity. }
  exists r. split; [exact Hrun | apply Hkeeps, Hrun].
Qed.

Lemma for_loop_returns (S : Type)
  (body : S -> Z -> outcome (loop_exit S)) (I : S -> Prop) :
  (forall s i,
     I s -> exists r, body s i = Ok r /\ I (state_of r)) ->
  forall l s,
    I s -> exists r, for_loop body s l = Ok r /\ I (state_of r).
Proof.
  intros Hbody. induction l as [| i l IH]; intros s Hs.
  - eexists. split; [reflexivity | exact Hs].
  - cbn [for_loop]. destruct (Hbody s i Hs) as ([s' | rv s'] & -> & Hs');
      cbn [bind state_of] in *.
    + apply IH, Hs'.
    + eexists. split; [reflexivity | exact Hs'].
Qed.

(** X12. In a build with assertions [exfatfs_dent_parse_buf] returns, and no
    assertion of it or of the functions it calls fails, when the size
    of a sector is not 0, the length of the buffer is positive, the
    allocator gives the name the capacity asked for, the classifier
    answers with the type byte of the entries it recognises, and it
    answers for no entry that the entry is a TexFAT entry. *)
Theorem parse_buf_assertions_hold
  (h : tsk_exfatfs_h)
  (fatfs_utf16_inode_str_2_utf8 :
     FATFS_INFO -> list Z -> Z -> list Z -> Z -> Z ->
     TSKConversionResult * list Z)
  (exfatfs_is_dentry : FATFS_INFO -> FATFS_DENTRY -> bool -> Z)
  (fatfs_is_sectalloc : FATFS_INFO -> Z -> Z)
  (FATFS_SECT_2_INODE : FATFS_INFO -> Z -> Z)
  (tsk_fs_name_alloc : Z -> Z -> option TSK_FS_NAME)
  (a_fatfs : FATFS_INFO) (a_fs_dir : TSK_FS_DIR)
  (a_buf : list FATFS_DENTRY) (a_buf_len : Z)
  (a_sector_addrs : list Z) :
  classifier_sound h exfatfs_is_dentry ->
  (forall k hint,
     exfatfs_is_dentry a_fatfs (nth k a_buf {| data := [] |}) hint
     <> EXFATFS_DIR_ENTRY_TYPE_TEX_FAT h) ->
  (forall n,
     tsk_fs_name_alloc (EXFATFS_MAX_NAME_LEN_UTF8 h) 0 = Some n ->
     name_size n = EXFATFS_MAX_NAME_LEN_UTF8 h) ->
  ssize a_fatfs <> 0 ->
  0 < a_buf_len ->
  exists r,
    exfatfs_dent_parse_buf h false fatfs_utf16_inode_str_2_utf8
      exfatfs_is_dentry fatfs_is_sectalloc FATFS_SECT_2_INODE
      tsk_fs_name_alloc (Some a_fatfs) (Some a_fs_dir) (Some a_buf)
      a_buf_len (Some a_sector_addrs) = Ok r.
Proof.
  intros Hcls Htex Halloc Hss Hlen. unfold exfatfs_dent_parse_buf.
  rewrite assert_true by (apply Z.gtb_lt; lia). cbn [bind].
  destruct (Z.ltb_spec a_buf_len 0); [lia |].
  destruct (tsk_fs_name_alloc (EXFATFS_MAX_NAME_LEN_UTF8 h) 0)
    as [n |] eqn:Hn; [| eexists; reflexivity].
  destruct (for_loop_returns parse_state
              (sector_loop_body h false fatfs_utf16_inode_str_2_utf8
                 exfatfs_is_dentry fatfs_is_sectalloc FATFS_SECT_2_INODE
                 a_fatfs a_buf a_sector_addrs)
              (asserted_inv h a_fatfs))
    with (l := upto (Z.quot a_buf_len (ssize a_fatfs)))
         (s := initial_state a_fatfs a_fs_dir n)
    as (r & Hrun & Hinv).
  - intros s i Hs. unfold sector_loop_body.
    destruct (FATFS_SECT_2_INODE a_fatfs
                (nth (Z.to_nat i) a_sector_addrs 0)
              >? last_inum (fs_info a_fatfs)).
    { eexists. split; [reflexivity |]. cbn [state_of].
      unfold asserted_inv in *. fields. exact Hs. }
    fields.
    destruct (fatfs_is_sectalloc a_fatfs
                (nth (Z.to_nat i) a_sector_addrs 0) =? -1).
    { eexists. split; [reflexivity |]. cbn [state_of].
      unfold asserted_inv in *. fields. exact Hs. }
    apply for_loop_returns.
    + intros s0 i0 Hs0. apply dentry_loop_body_returns; assumption.
    + unfold asserted_inv in *. fields. exact Hs.
  - unfold asserted_inv, initial_state. fields.
    split; [apply Halloc; reflexivity | reflexivity].
  - rewrite parse_sectors_nonzero by exact Hss. rewrite Hrun.
    cbn [bind].
    destruct r as [s | rv s]; [| eexists; reflexivity].
    destruct Hinv as [Hsz _]. cbn [state_of] in Hsz.
    rewrite finalize_returns
      by (unfold name_size_asserted; rewrite Hsz; apply Z.eqb_refl).
    eexists. reflexivity.
Qed.

Lemma hello_buf_no_tex_fat (k : nat) (hint : bool) :
  tag_classifier exfat_h fatfs0 (nth k hello_buf {| data := [] |}) hint
  <> EXFATFS_DIR_ENTRY_TYPE_TEX_FAT exfat_h.
Proof.
  do 16 (destruct k as [| k]; [vm_compute; discriminate |]).
  destruct k; vm_compute; discriminate.
Qed.

Lemma parse_buf_assertions_hold_witness :
  exists r,
    exfatfs_dent_parse_buf exfat_h false ascii_decoder
      (tag_classifier exfat_h) sectalloc_all sect_2_inode16 name_alloc_ok
      (Some fatfs0) (Some {| names := [] |}) (Some hello_buf) 512
      (Some [0]) = Ok r.
Proof.
  apply parse_buf_assertions_hold.
  - exact tag_classifier_sound.
  - exact hello_buf_no_tex_fat.
  - intros n Hn. injection Hn as <-. reflexivity.
  - discriminate.
  - lia.
Defined.

(** ** The file entry opens a set *)

(** X13. A file entry opens a set, whatever set was under assembly: the name
    is empty and no character and no secondary entry is counted, the
    check sum of the set is that of the file entry alone, folded from
    0, the inode address is that of the entry, and the file is a
    directory exactly when the directory bit of its attributes is
    set. *)
Theorem file_dentry_opens_set
  (h : tsk_exfatfs_h) (NDEBUG : bool)
  (i i' : EXFATFS_FS_NAME_INFO) (d : FATFS_DENTRY) (inum : Z) :
  tags_ok h ->
  dentry_ok d ->
  exfats_parse_file_dentry h NDEBUG i d inum = Ok i' ->
  strlen (name (fs_name i')) = 0
  /\ actual_name_length i' = 0
  /\ expected_name_length i' = 0
  /\ actual_secondary_entry_count i' = 0
  /\ expected_secondary_entry_count i'
     = data_at d (OFFSET_secondary_entries_count h)
  /\ actual_check_sum i' = spec_checksum h 0 d
  /\ meta_addr (fs_name i') = inum
  /\ type (fs_name i')
     = (if Z.land (data_at d (OFFSET_attrs h)) (FATFS_ATTR_DIRECTORY h)
           =? 0
        then TSK_FS_NAME_TYPE_REG else TSK_FS_NAME_TYPE_DIR)
  /\ fs_dir i' = fs_dir (finalize_value h i).
Proof.
  intros Hh [_ Hbytes] Hrun. unfold exfats_parse_file_dentry in Hrun.
  apply bind_assert_inv in Hrun. step_bind Hrun.
  apply finalize_inv in E. subst i0.
  rewrite checksum_unfold in Hrun. apply bind_assert_inv in Hrun.
  apply Ok_inj in Hrun. subst i'.
  destruct (finalize_value_name h i) as (Hname & _).
  assert (actual_check_sum (finalize_value h i) = 0
          /\ actual_name_length (finalize_value h i) = 0
          /\ expected_name_length (finalize_value h i) = 0
          /\ actual_secondary_entry_count (finalize_value h i) = 0)
    as (Hsum & Hactual & Hexpected & Hcount).
  { unfold finalize_value, reset_value. fields. auto. }
  assert (spec_checksum h 0 d
          = fold_left (checksum_loop_body h (data_at d 0) d)
              (upto sizeof_data) 0) as Hspec.
  { rewrite checksum_loop_refines by (assumption || lia). reflexivity. }
  rewrite Hspec.
  destruct (Z.land (data_at d (OFFSET_attrs h)) (FATFS_ATTR_DIRECTORY h)
            =? 0); cbn [negb];
    match goal with
    | |- context [if ?b then _ else _] => destruct b
    end; fields; rewrite Hname, strlen_store_0, Hsum;
    repeat (split; [first [reflexivity | assumption] |]); reflexivity.
Qed.

(** A directory entry met while the name [A] is pending. *)
Lemma file_dentry_opens_set_witness :
  exists i',
    exfats_parse_file_dentry exfat_h false name_info_A deleted_file_dentry
      9 = Ok i'
    /\ type (fs_name i') = TSK_FS_NAME_TYPE_REG
    /\ actual_check_sum i' = spec_checksum exfat_h 0 deleted_file_dentry
    /\ dir_strings (fs_dir i') = [[65]].
Proof.
  eexists.
  match goal with
  | |- ?run = Ok ?i' /\ _ =>
      assert (run = Ok i') as Hrun by (vm_compute; reflexivity);
      destruct (file_dentry_opens_set exfat_h false _ _ _ _
                  exfat_h_tags_ok
                  (dentry_of_ok [0x05; 2; 0x34; 0x12; 0x20; 0; 7; 9]
                     ltac:(bytes)) Hrun)
        as (_ & _ & _ & _ & _ & Hsum & _ & Htype & Hdir)
  end.
  split; [exact Hrun |]. split; [exact Htype |]. split; [exact Hsum |].
  rewrite Hdir. vm_compute. reflexivity.
Defined.
